(** * The numpy loader of perspective's Python binding

    A shallow embedding of [NumpyLoader]
    (python/perspective/perspective/src/numpy.cpp): the column fill
    dispatch, the bulk copy, the iterative fallback with its per-type
    conversions and promotions, and the synthesis of the two index columns.

    Conventions of the model:
    - the numpy buffer behind [array.data()] is a list of bytes; the casts
      [(double* )ptr], [(std::int64_t* )ptr], ... are typed little-endian
      views of these bytes, and a read past the end of the buffer is
      undefined behaviour, reported as [UB_OUT_OF_BOUNDS];
    - fixed-width integers are [Z] with the wrap-around written out;
    - IEEE-754 values are [spec_float] (Stdlib), decoded from their bits;
    - the code runs in an error monad: aborts, failed Python casts and
      undefined behaviour end the call with an error;
    - row and column indices are [nat]; the loops' [int] counters are
      assumed not to overflow. *)

From Stdlib Require Import ZArith List String Bool Lia.
From Stdlib Require Import Strings.Byte.
From Stdlib Require Import SpecFloat.
From stdpp Require Import base option list strings gmap fin_maps.

Local Open Scope string_scope.
Local Open Scope list_scope.
Local Open Scope Z_scope.

(** ** Errors and the error monad *)

Inductive t_error : Type :=
| PSP_ABORT (msg : string)      (* PSP_COMPLAIN_AND_ABORT, PSP_VERBOSE_ASSERT *)
| PY_CAST_ERROR                 (* a failed pybind11 [cast] *)
| UB_OUT_OF_BOUNDS              (* read or write outside a buffer or a column *)
| UB_DIVISION_BY_ZERO.          (* [%] with a zero divisor *)

Inductive outcome (A : Type) : Type :=
| Ok (a : A)
| Fail (e : t_error).

Arguments Ok {A} a.
Arguments Fail {A} e.

Definition bind {A B : Type} (m : outcome A) (k : A -> outcome B) : outcome B :=
  match m with
  | Ok a => k a
  | Fail e => Fail e
  end.

Notation "'do' x <- m ; k" := (bind m (fun x => k))
  (at level 10, x pattern, m at level 100, k at level 200).

(** ** Loops with an early [return] *)

Inductive t_flow (S : Type) : Type :=
| Continue (s : S)
| Return (s : S).

Arguments Continue {S} s.
Arguments Return {S} s.

(** [for_range body i n s] runs [body] at [i], [i+1], ..., [i+n-1]. *)
Fixpoint for_range {S : Type} (body : nat -> S -> outcome (t_flow S))
         (i n : nat) (s : S) : outcome S :=
  match n with
  | O => Ok s
  | Datatypes.S n' =>
      match body i s with
      | Fail e => Fail e
      | Ok (Return s') => Ok s'
      | Ok (Continue s') => for_range body (Datatypes.S i) n' s'
      end
  end.

(** ** Fixed-width integers *)

Definition wrap_unsigned (bits : Z) (z : Z) : Z := z mod 2 ^ bits.

Definition to_signed (bits : Z) (u : Z) : Z :=
  if u <? 2 ^ (bits - 1) then u else u - 2 ^ bits.

Definition wrap_signed (bits : Z) (z : Z) : Z :=
  to_signed bits (wrap_unsigned bits z).

(** [a % b] on unsigned operands. *)
Definition umod (a b : Z) : outcome Z :=
  if b =? 0 then Fail UB_DIVISION_BY_ZERO else Ok (a mod b).

(** ** IEEE-754 values *)

(** The value with bit pattern [x] in the format with [mw] mantissa bits and
    [ew] exponent bits. *)
Definition float_of_bits (mw ew : Z) (x : Z) : spec_float :=
  let s := Z.testbit x (mw + ew) in
  let e := Z.land (Z.shiftr x mw) (Z.ones ew) in
  let m := Z.land x (Z.ones mw) in
  if e =? 0 then
    match m with
    | Zpos p => S754_finite s p (3 - 2 ^ (ew - 1) - (mw + 1))
    | _ => S754_zero s
    end
  else if e =? Z.ones ew then
    if m =? 0 then S754_infinity s else S754_nan
  else
    match m + 2 ^ mw with
    | Zpos p => S754_finite s p (e - (2 ^ (ew - 1) - 1) - mw)
    | _ => S754_nan
    end.

Definition double_of_bits : Z -> spec_float := float_of_bits 52 11.
Definition float_of_bits32 : Z -> spec_float := float_of_bits 23 8.

(** [static_cast<double>(z)] for an integer [z]: round to nearest even. *)
Definition double_of_Z (z : Z) : spec_float := binary_normalize 53 1024 z 0 false.

Definition is_nan (f : spec_float) : bool :=
  match f with
  | S754_nan => true
  | _ => false
  end.

(** [npy_isnan(x)] for a [double] and for an integer; on an integer operand
    the macro tests the operand converted to [double]. *)
Definition npy_isnan (f : spec_float) : bool := is_nan f.
Definition npy_isnan_int (z : Z) : bool := is_nan (double_of_Z z).

(** [a > b] and [a < b] on doubles: false when either side is NaN. *)
Definition double_gt (a b : spec_float) : bool := SFltb b a.
Definition double_lt (a b : spec_float) : bool := SFltb a b.

(** The integer a finite float denotes, when it denotes one. *)
Definition SF_to_Z (f : spec_float) : option Z :=
  match f with
  | S754_zero _ => Some 0
  | S754_finite s m e =>
      let v := if s then Z.neg m else Z.pos m in
      if 0 <=? e then Some (v * 2 ^ e)
      else if v mod 2 ^ (- e) =? 0 then Some (v / 2 ^ (- e)) else None
  | _ => None
  end.

(** ** The numpy buffer and its typed views *)

Definition t_buffer : Type := list byte.

Fixpoint le_to_Z (bs : list byte) : Z :=
  match bs with
  | [] => 0
  | b :: r => Z.of_N (Byte.to_N b) + 256 * le_to_Z r
  end.

(** The [w] bytes at byte offset [off], as an unsigned integer. *)
Definition peek (ptr : t_buffer) (w off : nat) : Z :=
  le_to_Z (take w (drop off ptr)).

Definition load (ptr : t_buffer) (w off : nat) : outcome Z :=
  if (off + w <=? length ptr)%nat
  then Ok (peek ptr w off)
  else Fail UB_OUT_OF_BOUNDS.

(** [((uintN_t* )ptr)[i]] and [((intN_t* )ptr)[i]] for [N = 8 * w]. *)
Definition read_uint (w : nat) (ptr : t_buffer) (i : nat) : outcome Z :=
  load ptr w (i * w).

Definition read_int (w : nat) (ptr : t_buffer) (i : nat) : outcome Z :=
  do u <- load ptr w (i * w); Ok (to_signed (8 * Z.of_nat w) u).

(** [((double* )ptr)[i]] and [((float* )ptr)[i]]. *)
Definition read_double (ptr : t_buffer) (i : nat) : outcome spec_float :=
  do u <- load ptr 8 (i * 8); Ok (double_of_bits u).

Definition read_float (ptr : t_buffer) (i : nat) : outcome spec_float :=
  do u <- load ptr 4 (i * 4); Ok (float_of_bits32 u).

(** The same views where the buffer is known to be long enough. *)
Definition int_at (w : nat) (ptr : t_buffer) (i : nat) : Z :=
  to_signed (8 * Z.of_nat w) (peek ptr w (i * w)).

Definition double_at (ptr : t_buffer) (i : nat) : spec_float :=
  double_of_bits (peek ptr 8 (i * 8)).

(** Little-endian encoding, used to write buffers down. *)
Fixpoint le_bytes (w : nat) (z : Z) : list byte :=
  match w with
  | O => []
  | Datatypes.S w' =>
      match Byte.of_N (Z.to_N (z mod 256)) with
      | Some b => b :: le_bytes w' (z / 256)
      | None => []
      end
  end.


(** ** Element types and column types *)

(** Modelled from the spec: the [t_dtype] enumeration is declared in a header
    that is not among the sources.  The tags the loader names are listed,
    together with [DTYPE_NONE] and [DTYPE_OBJECT] for the remaining
    (opaque/object) kinds the spec mentions. *)
Inductive t_dtype : Type :=
| DTYPE_NONE
| DTYPE_INT64 | DTYPE_INT32 | DTYPE_INT16 | DTYPE_INT8
| DTYPE_UINT64 | DTYPE_UINT32 | DTYPE_UINT16 | DTYPE_UINT8
| DTYPE_FLOAT64 | DTYPE_FLOAT32
| DTYPE_BOOL | DTYPE_TIME | DTYPE_DATE | DTYPE_OBJECT | DTYPE_STR.

#[global] Instance t_dtype_eq_dec : EqDecision t_dtype.
Proof. solve_decision. Defined.

(** The C++ integer types the loader reads and writes. *)
Inductive t_ctype : Type :=
| C_UINT8 | C_UINT16 | C_UINT32 | C_UINT64
| C_INT8 | C_INT16 | C_INT32 | C_INT64.

(** The template argument of [copy_array_helper<T>]. *)
Inductive t_elem : Type :=
| E_INT (T : t_ctype)
| E_FLOAT
| E_DOUBLE.

(** A stored element, tagged with the C++ type it was written at. *)
Inductive t_scalar : Type :=
| SC_NONE                               (* storage never written *)
| SC_INT (T : t_ctype) (z : Z)
| SC_FLOAT32 (f : spec_float)
| SC_FLOAT64 (f : spec_float)
| SC_BOOL (b : bool)
| SC_STR (s : string)
| SC_DATE (year month day : Z)
| SC_BYTES (bs : list byte)             (* raw bytes filling the row's storage *)
| SC_PATCH (under : t_scalar) (at_byte : nat) (bs : list byte)
                                        (* storage that held [under], overwritten
                                           with [bs] from its byte [at_byte] on *)
| SC_OPAQUE.                            (* raw bytes in storage of unknown layout *)

Definition ctype_width (T : t_ctype) : nat :=
  match T with
  | C_UINT8 | C_INT8 => 1
  | C_UINT16 | C_INT16 => 2
  | C_UINT32 | C_INT32 => 4
  | C_UINT64 | C_INT64 => 8
  end%nat.

Definition ctype_signed (T : t_ctype) : bool :=
  match T with
  | C_INT8 | C_INT16 | C_INT32 | C_INT64 => true
  | _ => false
  end.

Definition elem_width (T : t_elem) : nat :=
  match T with
  | E_INT T => ctype_width T
  | E_FLOAT => 4
  | E_DOUBLE => 8
  end%nat.

(** [((T* )ptr)[i]] as a stored element, where the buffer is long enough. *)
Definition elem_at (E : t_elem) (ptr : t_buffer) (i : nat) : t_scalar :=
  match E with
  | E_INT T =>
      SC_INT T (if ctype_signed T then int_at (ctype_width T) ptr i
                else peek ptr (ctype_width T) (i * ctype_width T))
  | E_FLOAT => SC_FLOAT32 (float_of_bits32 (peek ptr 4 (i * 4)))
  | E_DOUBLE => SC_FLOAT64 (double_at ptr i)
  end.

(** ** The destination column store *)

(** Modelled from the spec: the validity marker of a row.  The spec gives two
    ways to mark a row absent, [clear] (absent from the start) and [unset]
    (present, then absent); the marker keeps them apart. *)
Inductive t_status : Type :=
| STATUS_VALID
| STATUS_CLEARED
| STATUS_UNSET.

Record t_cell : Type := mk_cell {
  cell_status : t_status;
  cell_data : t_scalar
}.

(** Modelled from the spec: a destination column is a type tag, typed storage
    and a parallel validity marker per row ([t_column] is not among the
    sources). *)
Record t_column : Type := mk_column {
  col_dtype : t_dtype;
  col_cells : list t_cell
}.

(** The operations the loader applies to the store, in the order applied
    (newest first).  A history variable: no operation reads it. *)
Inductive t_event : Type :=
| EV_ADD_COLUMN (name : string) (ty : t_dtype)
| EV_CLONE_COLUMN (src dst : string)
| EV_PROMOTE_COLUMN (name : string) (ty : t_dtype) (row : nat) (fill : bool)
| EV_SET_NTH (col : string) (row : nat) (v : t_scalar)
| EV_UNSET (col : string) (row : nat)
| EV_CLEAR (col : string) (row : nat)
| EV_VALID_RAW_FILL (col : string)
| EV_MEMCPY (col : string) (T : t_elem) (offset : nat).

(** Modelled from the spec: the destination table owns its columns by name
    ([t_data_table] is not among the sources).  A column handle
    ([std::shared_ptr<t_column>]) is the name under which the table holds the
    column, so that writes through a handle are writes to the table. *)
Record t_data_table : Type := mk_table {
  tbl_size : nat;
  tbl_columns : gmap string t_column;
  tbl_history : list t_event
}.

Definition fresh_cell : t_cell := mk_cell STATUS_CLEARED SC_NONE.

(** Apply [f] to the column behind handle [h] and log [ev]. *)
Definition update_column (tbl : t_data_table) (h : string) (ev : t_event)
           (f : t_column -> outcome t_column) : outcome t_data_table :=
  match tbl_columns tbl !! h with
  | None => Fail (PSP_ABORT "Column not found")
  | Some c =>
      do c' <- f c;
      Ok (mk_table (tbl_size tbl) (<[h := c']> (tbl_columns tbl))
                   (ev :: tbl_history tbl))
  end.

(** Rewrite row [i]; a row outside the column is out of bounds. *)
Definition update_cell (i : nat) (f : t_cell -> t_cell) (c : t_column)
  : outcome t_column :=
  match col_cells c !! i with
  | None => Fail UB_OUT_OF_BOUNDS
  | Some x => Ok (mk_column (col_dtype c) (<[i := f x]> (col_cells c)))
  end.

(** Modelled from the spec: the storage of a column of one of the ten
    fixed-width numeric types is an array of elements of that width, row [j]
    at the bytes [j * w .. j * w + w) (section 4.3: a raw element-wise memory
    copy).  The spec gives no layout for the columns of the other types. *)
Definition column_elem_width (t : t_dtype) : option nat :=
  match t with
  | DTYPE_UINT8 | DTYPE_INT8 => Some 1
  | DTYPE_UINT16 | DTYPE_INT16 => Some 2
  | DTYPE_UINT32 | DTYPE_INT32 | DTYPE_FLOAT32 => Some 4
  | DTYPE_UINT64 | DTYPE_INT64 | DTYPE_FLOAT64 => Some 8
  | _ => None
  end%nat.

(** What [std::memcpy(col->get_nth<T>(offset), bs, length bs)] leaves in row
    [j] of storage with elements of [w] bytes, the row holding [old] before:
    the copy writes the bytes [offset * sizeof(T) .. offset * sizeof(T) +
    length bs).  A row the copy does not reach keeps [old]; a row it covers
    holds the source element [j - offset] when [sizeof(T) = w], and the raw
    bytes that landed in it otherwise; a row it covers in part is patched. *)
Definition raw_row (T : t_elem) (w offset : nat) (bs : list byte) (j : nat)
           (old : t_scalar) : t_scalar :=
  let start := (offset * elem_width T)%nat in
  let lo := Nat.max (j * w) start in
  let hi := Nat.min (j * w + w) (start + length bs) in
  if (hi <=? lo)%nat then old
  else if (lo =? j * w)%nat && (hi =? j * w + w)%nat then
    if (elem_width T =? w)%nat then elem_at T bs (j - offset)
    else SC_BYTES (take w (drop (j * w - start) bs))
  else SC_PATCH old (lo - j * w) (take (hi - lo) (drop (lo - start) bs)).

(** The rows after the copy; the validity markers are left alone.  In storage
    of unknown layout a copy of at least one byte leaves every row opaque.
    Bytes that land past the last row go to the storage the column has
    reserved beyond its rows, which is not kept here: the loader makes no
    check against the capacity. *)
Definition raw_store (T : t_elem) (width : option nat) (offset : nat)
           (bs : list byte) (cells : list t_cell) : list t_cell :=
  match width with
  | Some w =>
      imap (fun j x => mk_cell (cell_status x)
                               (raw_row T w offset bs j (cell_data x))) cells
  | None =>
      match bs with
      | [] => cells
      | _ => map (fun x => mk_cell (cell_status x) SC_OPAQUE) cells
      end
  end.

(** Modelled from the spec: the column handle operations [size()],
    [setNth(row, value)], [unset(row)], [clear(row)] and
    [fillValidityAllPresent()], and the raw element copy of section 4.3. *)
Module Column.

Definition size (tbl : t_data_table) (col : string) : outcome nat :=
  match tbl_columns tbl !! col with
  | None => Fail (PSP_ABORT "Column not found")
  | Some c => Ok (length (col_cells c))
  end.

Definition set_nth (tbl : t_data_table) (col : string) (i : nat) (v : t_scalar)
  : outcome t_data_table :=
  update_column tbl col (EV_SET_NTH col i v)
                (update_cell i (fun _ => mk_cell STATUS_VALID v)).

Definition unset (tbl : t_data_table) (col : string) (i : nat)
  : outcome t_data_table :=
  update_column tbl col (EV_UNSET col i)
                (update_cell i (fun x => mk_cell STATUS_UNSET (cell_data x))).

Definition clear (tbl : t_data_table) (col : string) (i : nat)
  : outcome t_data_table :=
  update_column tbl col (EV_CLEAR col i)
                (update_cell i (fun x => mk_cell STATUS_CLEARED (cell_data x))).

Definition valid_raw_fill (tbl : t_data_table) (col : string)
  : outcome t_data_table :=
  update_column tbl col (EV_VALID_RAW_FILL col)
    (fun c => Ok (mk_column (col_dtype c)
                    (map (fun x => mk_cell STATUS_VALID (cell_data x))
                         (col_cells c)))).

(** [std::memcpy(col->get_nth<T>(offset), bs, length bs)] into the storage of
    the column. *)
Definition memcpy (tbl : t_data_table) (col : string) (T : t_elem)
           (offset : nat) (bs : list byte) : outcome t_data_table :=
  update_column tbl col (EV_MEMCPY col T offset)
    (fun c =>
       Ok (mk_column (col_dtype c)
                     (raw_store T (column_elem_width (col_dtype c)) offset bs
                                (col_cells c)))).

End Column.

(** The stored element [v] converted for a column promoted to [new_dtype]. *)
Definition promote_scalar (new_dtype : t_dtype) (v : t_scalar) : t_scalar :=
  match new_dtype, v with
  | DTYPE_FLOAT64, SC_INT _ z => SC_FLOAT64 (double_of_Z z)
  | DTYPE_INT64, SC_INT _ z => SC_INT C_INT64 z
  | _, _ => v
  end.

(** Modelled from the spec: the table operations [addColumn], [getColumn],
    [cloneColumn] and [promoteColumn(name, newType, fromRow, copyExisting)]
    (rebinds the type; the rows before [fromRow] are carried over into the new
    type when [copyExisting] holds).  A name the table does not hold makes
    [getColumn], [cloneColumn] and [promoteColumn] abort. *)
Module Table.

Definition size (tbl : t_data_table) : nat := tbl_size tbl.

Definition add_column (tbl : t_data_table) (name : string) (ty : t_dtype)
           (status_enabled : bool) : t_data_table * string :=
  match tbl_columns tbl !! name with
  | Some _ => (tbl, name)
  | None =>
      (mk_table (tbl_size tbl)
                (<[name := mk_column ty (replicate (tbl_size tbl) fresh_cell)]>
                   (tbl_columns tbl))
                (EV_ADD_COLUMN name ty :: tbl_history tbl),
       name)
  end.

Definition get_column (tbl : t_data_table) (name : string) : outcome string :=
  match tbl_columns tbl !! name with
  | None => Fail (PSP_ABORT "Column not found")
  | Some _ => Ok name
  end.

Definition clone_column (tbl : t_data_table) (src dst : string)
  : outcome t_data_table :=
  match tbl_columns tbl !! src with
  | None => Fail (PSP_ABORT "Cannot clone non-existing column")
  | Some c =>
      Ok (mk_table (tbl_size tbl) (<[dst := c]> (tbl_columns tbl))
                   (EV_CLONE_COLUMN src dst :: tbl_history tbl))
  end.

Definition promote_column (tbl : t_data_table) (name : string)
           (new_dtype : t_dtype) (iter_limit : nat) (fill : bool)
  : outcome t_data_table :=
  update_column tbl name (EV_PROMOTE_COLUMN name new_dtype iter_limit fill)
    (fun c =>
       Ok (mk_column new_dtype
             (if fill then
                imap (fun j x =>
                        if (j <? iter_limit)%nat
                        then mk_cell (cell_status x)
                                     (promote_scalar new_dtype (cell_data x))
                        else x) (col_cells c)
              else col_cells c))).

End Table.

(** ** The source accessor *)

(** The element kind of a numpy array, as [py::isinstance<py::array_t<T>>]
    tells it; [NP_DATETIME64] and [NP_OBJECT] stand for the kinds that match
    none of the tests of [make_types]. *)
Inductive np_kind : Type :=
| NP_UINT8 | NP_UINT16 | NP_UINT32 | NP_UINT64
| NP_INT8 | NP_INT16 | NP_INT32 | NP_INT64
| NP_FLOAT32 | NP_FLOAT64
| NP_BOOL | NP_DATETIME64 | NP_OBJECT.

(** A Python object handed over where an array is expected. *)
Inductive py_object : Type :=
| PY_ARRAY (kind : np_kind) (data : t_buffer)
| PY_NOT_ARRAY.

(** What the accessor's [marshal] returns ([t_val]). *)
Inductive t_val : Type :=
| PY_NONE
| PY_STR (s : string)
| PY_BOOL (b : bool)
| PY_DICT (d : list (string * Z)).

(** The Python accessor object: [row_count()], [data()], 
    [_get_numpy_column(name, type)] (the dict with keys [array] and [mask])
    and [marshal(cidx, i, type)]. *)
Record t_accessor : Type := mk_accessor {
  acc_row_count : Z;
  acc_data : list (string * py_object);
  acc_get_numpy_column : string -> t_dtype -> py_object * list nat;
  acc_marshal : nat -> nat -> t_dtype -> t_val
}.

(** [py::array::ensure]: the buffer of an array, nothing otherwise. *)
Definition array_ensure (o : py_object) : option t_buffer :=
  match o with
  | PY_ARRAY _ data => Some data
  | PY_NOT_ARRAY => None
  end.

(** A Python integer that fits [std::int32_t], and a dictionary all of whose
    values do: the cast to [std::map<std::string, std::int32_t>] of any other
    dictionary fails. *)
Definition in_int32 (z : Z) : bool := (- 2 ^ 31 <=? z) && (z <? 2 ^ 31).

Definition dict_fits_int32 (d : list (string * Z)) : bool :=
  forallb (fun kv => in_int32 (snd kv)) d.

(** [item.cast<std::wstring>()], [item.cast<bool>()] and
    [item.cast<std::map<std::string, std::int32_t>>()]. *)
Definition cast_wstring (item : t_val) : outcome string :=
  match item with
  | PY_STR s => Ok s
  | _ => Fail PY_CAST_ERROR
  end.

Definition cast_bool (item : t_val) : outcome bool :=
  match item with
  | PY_BOOL b => Ok b
  | _ => Fail PY_CAST_ERROR
  end.

Definition cast_map (item : t_val) : outcome (list (string * Z)) :=
  match item with
  | PY_DICT d =>
      if dict_fits_int32 d then Ok d else Fail PY_CAST_ERROR
  | _ => Fail PY_CAST_ERROR
  end.

(** [date_components[key]]: a missing key reads as 0. *)
Fixpoint map_at (d : list (string * Z)) (key : string) : Z :=
  match d with
  | [] => 0
  | (k, v) :: r => if String.eqb k key then v else map_at r key
  end.

(** [converter.to_bytes(welem)]: the model keeps text in one encoding. *)
Definition to_bytes (welem : string) : string := welem.

(** ** The loader *)

Record NumpyLoader : Type := mk_loader {
  m_init : bool;
  m_accessor : t_accessor;
  m_names : list string;
  m_types : list t_dtype
}.

Inductive t_fill_status : Type :=
| FILL_SUCCEED
| FILL_FAIL.

Definition new_loader (accessor : t_accessor) : NumpyLoader :=
  mk_loader false accessor [] [].

(** [PSP_VERBOSE_ASSERT(m_init, "touching uninited object")]. *)
Definition assert_init (ldr : NumpyLoader) : outcome unit :=
  if m_init ldr then Ok tt else Fail (PSP_ABORT "touching uninited object").

Definition make_names (ldr : NumpyLoader) : list string :=
  map fst (acc_data (m_accessor ldr)).

Definition dtype_of_kind (k : np_kind) : t_dtype :=
  match k with
  | NP_UINT8 => DTYPE_UINT8
  | NP_UINT16 => DTYPE_UINT16
  | NP_UINT32 => DTYPE_UINT32
  | NP_UINT64 => DTYPE_UINT64
  | NP_INT8 => DTYPE_INT8
  | NP_INT16 => DTYPE_INT16
  | NP_INT32 => DTYPE_INT32
  | NP_INT64 => DTYPE_INT64
  | NP_FLOAT32 => DTYPE_FLOAT32
  | NP_FLOAT64 => DTYPE_FLOAT64
  | NP_BOOL => DTYPE_BOOL
  | _ => DTYPE_STR
  end.

Fixpoint make_types_of (arrays : list py_object) : outcome (list t_dtype) :=
  match arrays with
  | [] => Ok []
  | a :: rest =>
      match a with
      | PY_NOT_ARRAY =>
          Fail (PSP_ABORT "Cannot fill mixed dictionaries of numpy.array and list!")
      | PY_ARRAY k _ =>
          do rval <- make_types_of rest; Ok (dtype_of_kind k :: rval)
      end
  end.

Definition make_types (ldr : NumpyLoader) : outcome (list t_dtype) :=
  make_types_of (map snd (acc_data (m_accessor ldr))).

Definition init (ldr : NumpyLoader) : outcome NumpyLoader :=
  let names := make_names ldr in
  do types <- make_types ldr;
  Ok (mk_loader true (m_accessor ldr) names types).

Definition names (ldr : NumpyLoader) : outcome (list string) :=
  do _ <- assert_init ldr; Ok (m_names ldr).

Definition types (ldr : NumpyLoader) : outcome (list t_dtype) :=
  do _ <- assert_init ldr; Ok (m_types ldr).

Definition row_count (ldr : NumpyLoader) : outcome Z :=
  do _ <- assert_init ldr;
  let n := acc_row_count (m_accessor ldr) in
  if (0 <=? n) && (n <? 2 ^ 32) then Ok n else Fail PY_CAST_ERROR.

(** [std::find] followed by [std::distance]. *)
Fixpoint find_name (name : string) (l : list string) : option nat :=
  match l with
  | [] => None
  | x :: r =>
      if String.eqb x name then Some O
      else match find_name name r with
           | Some n => Some (Datatypes.S n)
           | None => None
           end
  end.

(** ** The iterative fills *)

(** The absent marking every fill shares:
    [if (is_update) col->unset(i); else col->clear(i);]. *)
Definition mark_absent (is_update : bool) (tbl : t_data_table) (col : string)
           (i : nat) : outcome t_data_table :=
  if is_update then Column.unset tbl col i else Column.clear tbl col i.

Definition fill_string_row (ldr : NumpyLoader) (col : string) (type : t_dtype)
           (cidx : nat) (is_update : bool) (i : nat) (tbl : t_data_table)
  : outcome (t_flow t_data_table) :=
  let item := acc_marshal (m_accessor ldr) cidx i type in
  match item with
  | PY_NONE =>
      do tbl <- mark_absent is_update tbl col i;
      Ok (Continue tbl)
  | _ =>
      do welem <- cast_wstring item;
      let elem := to_bytes welem in
      do tbl <- Column.set_nth tbl col i (SC_STR elem);
      Ok (Continue tbl)
  end.

Definition fill_string_iter (ldr : NumpyLoader) (array : t_buffer)
           (tbl : t_data_table) (col : string) (name : string)
           (np_dtype type : t_dtype) (cidx : nat) (is_update : bool)
  : outcome t_data_table :=
  do _ <- assert_init ldr;
  do nrows <- Column.size tbl col;
  for_range (fill_string_row ldr col type cidx is_update) 0 nrows tbl.

Definition fill_bool_row (ldr : NumpyLoader) (col : string) (type : t_dtype)
           (cidx : nat) (is_update : bool) (i : nat) (tbl : t_data_table)
  : outcome (t_flow t_data_table) :=
  let item := acc_marshal (m_accessor ldr) cidx i type in
  match item with
  | PY_NONE =>
      do tbl <- mark_absent is_update tbl col i;
      Ok (Continue tbl)
  | _ =>
      do b <- cast_bool item;
      do tbl <- Column.set_nth tbl col i (SC_BOOL b);
      Ok (Continue tbl)
  end.

Definition fill_bool_iter (ldr : NumpyLoader) (array : t_buffer)
           (tbl : t_data_table) (col : string) (name : string)
           (np_dtype type : t_dtype) (cidx : nat) (is_update : bool)
  : outcome t_data_table :=
  do _ <- assert_init ldr;
  do nrows <- Column.size tbl col;
  for_range (fill_bool_row ldr col type cidx is_update) 0 nrows tbl.

Definition fill_date_row (ldr : NumpyLoader) (col : string) (type : t_dtype)
           (cidx : nat) (is_update : bool) (i : nat) (tbl : t_data_table)
  : outcome (t_flow t_data_table) :=
  let item := acc_marshal (m_accessor ldr) cidx i type in
  match item with
  | PY_NONE =>
      do tbl <- mark_absent is_update tbl col i;
      Ok (Continue tbl)
  | _ =>
      do date_components <- cast_map item;
      let dt := SC_DATE (map_at date_components "year")
                        (map_at date_components "month")
                        (map_at date_components "day") in
      do tbl <- Column.set_nth tbl col i dt;
      Ok (Continue tbl)
  end.

Definition fill_date_iter (ldr : NumpyLoader) (array : t_buffer)
           (tbl : t_data_table) (col : string) (name : string)
           (np_dtype type : t_dtype) (cidx : nat) (is_update : bool)
  : outcome t_data_table :=
  do _ <- assert_init ldr;
  do nrows <- Column.size tbl col;
  for_range (fill_date_row ldr col type cidx is_update) 0 nrows tbl.

(** [ptr[i] * 1000] on [std::int64_t], wrapping; then [npy_isnan] of that
    integer. *)
Definition fill_datetime_row (ptr : t_buffer) (col : string) (is_update : bool)
           (i : nat) (tbl : t_data_table) : outcome (t_flow t_data_table) :=
  do x <- read_int 8 ptr i;
  let item := wrap_signed 64 (x * 1000) in
  if npy_isnan_int item then
    do tbl <- mark_absent is_update tbl col i;
    Ok (Continue tbl)
  else
    do tbl <- Column.set_nth tbl col i (SC_INT C_INT64 item);
    Ok (Continue tbl).

Definition fill_datetime_iter (ldr : NumpyLoader) (array : t_buffer)
           (tbl : t_data_table) (col : string) (name : string)
           (np_dtype type : t_dtype) (cidx : nat) (is_update : bool)
  : outcome t_data_table :=
  do _ <- assert_init ldr;
  do nrows <- Column.size tbl col;
  for_range (fill_datetime_row array col is_update) 0 nrows tbl.

(** The loop state of [fill_numeric_iter]: the table, the column handle [col]
    and the local [type], both rebound by a promotion. *)
Definition t_numeric_state : Type := t_data_table * string * t_dtype.

Definition INT32_MAX_AS_DOUBLE : spec_float := double_of_Z 2147483647.
Definition INT32_MIN_AS_DOUBLE : spec_float := double_of_Z (-2147483648).

#[global] Arguments double_of_Z : simpl never.
#[global] Arguments INT32_MAX_AS_DOUBLE : simpl never.
#[global] Arguments INT32_MIN_AS_DOUBLE : simpl never.

Definition fill_numeric_row (ldr : NumpyLoader) (ptr : t_buffer) (name : string)
           (np_dtype : t_dtype) (cidx : nat) (is_update : bool)
           (i : nat) (st : t_numeric_state) : outcome (t_flow t_numeric_state) :=
  let '(tbl, col, type) := st in
  let store (v : t_scalar) : outcome (t_flow t_numeric_state) :=
    do tbl <- Column.set_nth tbl col i v; Ok (Continue (tbl, col, type)) in
  do x <- read_double ptr i;
  if npy_isnan x then
    do tbl <- mark_absent is_update tbl col i;
    Ok (Continue (tbl, col, type))
  else
    match type with
    | DTYPE_UINT8 => do v <- read_uint 1 ptr i; store (SC_INT C_UINT8 v)
    | DTYPE_UINT16 => do v <- read_uint 2 ptr i; store (SC_INT C_UINT16 v)
    | DTYPE_UINT32 => do v <- read_uint 4 ptr i; store (SC_INT C_UINT32 v)
    | DTYPE_UINT64 => do v <- read_uint 8 ptr i; store (SC_INT C_UINT64 v)
    | DTYPE_INT8 => do v <- read_int 1 ptr i; store (SC_INT C_INT8 v)
    | DTYPE_INT16 => do v <- read_int 2 ptr i; store (SC_INT C_INT16 v)
    | DTYPE_INT32 =>
        do item <- read_double ptr i;
        if double_gt item INT32_MAX_AS_DOUBLE || double_lt item INT32_MIN_AS_DOUBLE
        then
          do tbl <- Table.promote_column tbl name DTYPE_FLOAT64 i true;
          do col <- Table.get_column tbl name;
          do tbl <- Column.set_nth tbl col i (SC_FLOAT64 item);
          Ok (Continue (tbl, col, DTYPE_FLOAT64))
        else if bool_decide (np_dtype = DTYPE_INT64) then
          do v <- read_int 8 ptr i; store (SC_INT C_INT32 (wrap_signed 32 v))
        else
          do v <- read_int 4 ptr i; store (SC_INT C_INT32 v)
    | DTYPE_INT64 =>
        do item <- read_int 8 ptr i;
        if npy_isnan_int item then
          do tbl <- Table.promote_column tbl name DTYPE_STR i false;
          do col <- Table.get_column tbl name;
          do tbl <- fill_string_iter ldr ptr tbl col name np_dtype DTYPE_STR
                                     cidx is_update;
          Ok (Return (tbl, col, type))
        else store (SC_INT C_INT64 item)
    | DTYPE_FLOAT32 => do v <- read_float ptr i; store (SC_FLOAT32 v)
    | DTYPE_FLOAT64 =>
        do item <- read_double ptr i;
        do i2 <- read_int 8 ptr i;
        if npy_isnan item then
          do tbl <- Table.promote_column tbl name DTYPE_STR i false;
          do col <- Table.get_column tbl name;
          do tbl <- fill_string_iter ldr ptr tbl col name np_dtype DTYPE_STR
                                     cidx is_update;
          Ok (Return (tbl, col, type))
        else if bool_decide (np_dtype = DTYPE_INT64) then
          do v <- read_int 8 ptr i; store (SC_FLOAT64 (double_of_Z v))
        else store (SC_FLOAT64 item)
    | _ => Ok (Continue (tbl, col, type))
    end.

Definition fill_numeric_iter (ldr : NumpyLoader) (array : t_buffer)
           (tbl : t_data_table) (col : string) (name : string)
           (np_dtype type : t_dtype) (cidx : nat) (is_update : bool)
  : outcome t_data_table :=
  do _ <- assert_init ldr;
  do nrows <- Column.size tbl col;
  do st <- for_range (fill_numeric_row ldr array name np_dtype cidx is_update)
                     0 nrows (tbl, col, type);
  Ok (fst (fst st)).

Definition fill_column_iter (ldr : NumpyLoader) (array : t_buffer)
           (tbl : t_data_table) (col : string) (name : string)
           (np_dtype type : t_dtype) (cidx : nat) (is_update : bool)
  : outcome t_data_table :=
  do _ <- assert_init ldr;
  match type with
  | DTYPE_TIME => fill_datetime_iter ldr array tbl col name np_dtype type cidx is_update
  | DTYPE_DATE => fill_date_iter ldr array tbl col name np_dtype type cidx is_update
  | DTYPE_BOOL => fill_bool_iter ldr array tbl col name np_dtype type cidx is_update
  | DTYPE_STR => fill_string_iter ldr array tbl col name np_dtype type cidx is_update
  | _ => fill_numeric_iter ldr array tbl col name np_dtype type cidx is_update
  end.

(** ** The bulk copy *)

(** The first [n] bytes of the buffer, read in one go; reading past its end
    is out of bounds. *)
Definition load_bytes (src : t_buffer) (n : nat) : outcome (list byte) :=
  if (n <=? length src)%nat then Ok (take n src) else Fail UB_OUT_OF_BOUNDS.

(** [std::memcpy(dest->get_nth<T>(offset), src, dest->size() * sizeof(T))]. *)
Definition copy_array_helper (T : t_elem) (src : t_buffer) (tbl : t_data_table)
           (dest : string) (offset : nat) : outcome t_data_table :=
  do n <- Column.size tbl dest;
  do bs <- load_bytes src (n * elem_width T);
  Column.memcpy tbl dest T offset bs.

Definition copy_array (ldr : NumpyLoader) (src : t_buffer) (tbl : t_data_table)
           (dest : string) (np_dtype : t_dtype) (offset : nat)
  : outcome (t_fill_status * t_data_table) :=
  do _ <- assert_init ldr;
  let copied (T : t_elem) : outcome (t_fill_status * t_data_table) :=
    do tbl <- copy_array_helper T src tbl dest offset; Ok (FILL_SUCCEED, tbl) in
  match np_dtype with
  | DTYPE_UINT8 => copied (E_INT C_UINT8)
  | DTYPE_UINT16 => copied (E_INT C_UINT16)
  | DTYPE_UINT32 => copied (E_INT C_UINT32)
  | DTYPE_UINT64 => copied (E_INT C_UINT64)
  | DTYPE_INT8 => copied (E_INT C_INT8)
  | DTYPE_INT16 => copied (E_INT C_INT16)
  | DTYPE_INT32 => copied (E_INT C_INT32)
  | DTYPE_INT64 => copied (E_INT C_INT64)
  | DTYPE_FLOAT32 => copied E_FLOAT
  | DTYPE_FLOAT64 => copied E_DOUBLE
  | _ => Ok (FILL_FAIL, tbl)
  end.

(** ** The fill dispatcher *)

(** The loop over the mask after a successful copy. *)
Fixpoint apply_mask (is_update : bool) (mask : list nat) (tbl : t_data_table)
         (col : string) : outcome t_data_table :=
  match mask with
  | [] => Ok tbl
  | idx :: rest =>
      do tbl <- mark_absent is_update tbl col idx;
      apply_mask is_update rest tbl col
  end.

(** The test in front of the copy:
    [np_dtype == DTYPE_INT64 && (type == DTYPE_INT32 || type == DTYPE_FLOAT64)]. *)
Definition width_mismatch (np_dtype type : t_dtype) : bool :=
  bool_decide (np_dtype = DTYPE_INT64)
  && (bool_decide (type = DTYPE_INT32) || bool_decide (type = DTYPE_FLOAT64)).

Definition fill_column (ldr : NumpyLoader) (tbl : t_data_table) (col : string)
           (name : string) (type : t_dtype) (cidx : nat) (is_update : bool)
  : outcome t_data_table :=
  do _ <- assert_init ldr;
  match find_name name (m_names ldr) with
  | None => Fail (PSP_ABORT "Cannot fill column as it is not in the table schema.")
  | Some nidx =>
      let source := acc_get_numpy_column (m_accessor ldr) name type in
      let mask := snd source in
      match array_ensure (fst source) with
      | None => Fail (PSP_ABORT "Cannot fill a non-numpy array at column")
      | Some array =>
          match m_types ldr !! nidx with
          | None => Fail UB_OUT_OF_BOUNDS
          | Some np_dtype =>
              if width_mismatch np_dtype type then
                fill_column_iter ldr array tbl col name np_dtype type cidx is_update
              else
                do (filled, tbl) <- copy_array ldr array tbl col np_dtype 0;
                match filled with
                | FILL_SUCCEED =>
                    do tbl <- Column.valid_raw_fill tbl col;
                    apply_mask is_update mask tbl col
                | FILL_FAIL =>
                    fill_column_iter ldr array tbl col name np_dtype type cidx
                                     is_update
                end
          end
      end
  end.

(** ** Filling a table *)

Definition INDEX_SENTINEL : string := "__INDEX__".
Definition PSP_PKEY : string := "psp_pkey".
Definition PSP_OKEY : string := "psp_okey".

(** The loop of [fill_table] over the schema columns, from column index
    [cidx] on; it returns the table and [implicit_index]. *)
Fixpoint fill_schema_columns (ldr : NumpyLoader) (cols : list (string * t_dtype))
         (cidx : nat) (is_update : bool) (tbl : t_data_table)
         (implicit_index : bool) : outcome (t_data_table * bool) :=
  match cols with
  | [] => Ok (tbl, implicit_index)
  | (name, type) :: rest =>
      if String.eqb name INDEX_SENTINEL then
        let '(tbl, pkey_col_sptr) := Table.add_column tbl PSP_PKEY type true in
        do tbl <- fill_column ldr tbl pkey_col_sptr INDEX_SENTINEL type cidx is_update;
        do tbl <- Table.clone_column tbl PSP_PKEY PSP_OKEY;
        fill_schema_columns ldr rest (Datatypes.S cidx) is_update tbl true
      else
        do col <- Table.get_column tbl name;
        do tbl <- fill_column ldr tbl col name type cidx is_update;
        fill_schema_columns ldr rest (Datatypes.S cidx) is_update tbl implicit_index
  end.

(** One turn of the row-number loop; [ridx], [offset] and [limit] are
    [std::uint32_t], the stored value is [std::int32_t]. *)
Definition fill_index_row (key_col okey_col : string) (offset limit : Z)
           (ridx : nat) (tbl : t_data_table) : outcome (t_flow t_data_table) :=
  do k <- umod (wrap_unsigned 32 (Z.of_nat ridx + offset)) limit;
  do tbl <- Column.set_nth tbl key_col ridx (SC_INT C_INT32 (wrap_signed 32 k));
  do k' <- umod (wrap_unsigned 32 (Z.of_nat ridx + offset)) limit;
  do tbl <- Column.set_nth tbl okey_col ridx (SC_INT C_INT32 (wrap_signed 32 k'));
  Ok (Continue tbl).

(** The index columns, once the schema columns are filled. *)
Definition fill_index (tbl : t_data_table) (implicit_index : bool)
           (index : string) (offset limit : Z) : outcome t_data_table :=
  if negb implicit_index then
    if String.eqb index "" then
      let '(tbl, key_col) := Table.add_column tbl PSP_PKEY DTYPE_INT32 true in
      let '(tbl, okey_col) := Table.add_column tbl PSP_OKEY DTYPE_INT32 true in
      for_range (fill_index_row key_col okey_col offset limit) 0 (Table.size tbl) tbl
    else
      do tbl <- Table.clone_column tbl index PSP_PKEY;
      Table.clone_column tbl index PSP_OKEY
  else Ok tbl.

(** [input_schema] is the list of the schema's column names and types;
    [offset] and [limit] are [std::uint32_t] values. *)
Definition fill_table (ldr : NumpyLoader) (tbl : t_data_table)
           (input_schema : list (string * t_dtype)) (index : string)
           (offset limit : Z) (is_update : bool) : outcome t_data_table :=
  do _ <- assert_init ldr;
  do (tbl, implicit_index) <- fill_schema_columns ldr input_schema 0 is_update
                                                   tbl false;
  fill_index tbl implicit_index index offset limit.

(** * Specification vocabulary *)

(** The event by which row [i] of [col] is marked absent. *)
Definition absent_event (is_update : bool) (col : string) (i : nat) : t_event :=
  if is_update then EV_UNSET col i else EV_CLEAR col i.

(** The marker left by the absent marking. *)
Definition absent_status (is_update : bool) : t_status :=
  if is_update then STATUS_UNSET else STATUS_CLEARED.

(** The number of rows of the column named [n], if the table holds one. *)
Definition col_len (tbl : t_data_table) (n : string) : option nat :=
  (fun c => length (col_cells c)) <$> tbl_columns tbl !! n.

(** Row [i] of the column named [n]. *)
Definition cell_at (tbl : t_data_table) (n : string) (i : nat) : option t_cell :=
  match tbl_columns tbl !! n with
  | Some c => col_cells c !! i
  | None => None
  end.

(** Every column has as many rows as the table. *)
Definition table_wf (tbl : t_data_table) : Prop :=
  forall n c, tbl_columns tbl !! n = Some c -> length (col_cells c) = tbl_size tbl.

(** No event of [evs] promotes the column [n]. *)
Definition not_promoted (n : string) (evs : list t_event) : Prop :=
  forall ty row fill, ~ In (EV_PROMOTE_COLUMN n ty row fill) evs.

(** [tbl'] comes from [tbl] by handle operations on the columns in [T], logged
    as [evs] (newest first), each event satisfying [P]: the size, the set of
    columns and their lengths are kept, the other columns are untouched, and
    a column keeps its type tag unless it is promoted. *)
Record evolves (T : string -> Prop) (P : t_event -> Prop) (evs : list t_event)
       (tbl tbl' : t_data_table) : Prop := mk_evolves {
  ev_size : tbl_size tbl' = tbl_size tbl;
  ev_hist : tbl_history tbl' = evs ++ tbl_history tbl;
  ev_all : Forall P evs;
  ev_frame : forall n, ~ T n -> tbl_columns tbl' !! n = tbl_columns tbl !! n;
  ev_len : forall n, col_len tbl' n = col_len tbl n;
  ev_dtype : forall n, not_promoted n evs ->
                       col_dtype <$> tbl_columns tbl' !! n
                       = col_dtype <$> tbl_columns tbl !! n
}.

(** The ten fixed-width numeric element types and their widths in bytes. *)
Definition is_fixed_width_numeric (t : t_dtype) : bool :=
  match t with
  | DTYPE_UINT8 | DTYPE_UINT16 | DTYPE_UINT32 | DTYPE_UINT64
  | DTYPE_INT8 | DTYPE_INT16 | DTYPE_INT32 | DTYPE_INT64
  | DTYPE_FLOAT32 | DTYPE_FLOAT64 => true
  | _ => false
  end.

Definition dtype_width (t : t_dtype) : nat :=
  match t with
  | DTYPE_UINT8 | DTYPE_INT8 => 1
  | DTYPE_UINT16 | DTYPE_INT16 => 2
  | DTYPE_UINT32 | DTYPE_INT32 | DTYPE_FLOAT32 => 4
  | DTYPE_UINT64 | DTYPE_INT64 | DTYPE_FLOAT64 => 8
  | _ => 0
  end%nat.

(** The inferred element type of the source column [name]: [m_types[nidx]]. *)
Definition np_dtype_of (ldr : NumpyLoader) (name : string) : option t_dtype :=
  match find_name name (m_names ldr) with
  | Some nidx => m_types ldr !! nidx
  | None => None
  end.

(** The two ways [fill_column] fills a column. *)
Inductive t_path : Type :=
| PATH_BULK
| PATH_ITER.

(** The path taken for an inferred source type and a destination type: the
    bulk copy needs the guard to be off and a numeric source type. *)
Definition fill_path (np_dtype type : t_dtype) : t_path :=
  if width_mismatch np_dtype type then PATH_ITER
  else if is_fixed_width_numeric np_dtype then PATH_BULK
  else PATH_ITER.

(** The per-row condition under which the iterative fill of a column of
    destination type [type] marks row [i] absent: a NaN element on the numeric
    path, a [None] from [marshal] on the date, string and bool paths. *)
Definition iter_absent (ldr : NumpyLoader) (array : t_buffer) (type : t_dtype)
           (cidx : nat) (i : nat) : Prop :=
  match type with
  | DTYPE_TIME => False
  | DTYPE_DATE | DTYPE_BOOL | DTYPE_STR =>
      acc_marshal (m_accessor ldr) cidx i type = PY_NONE
  | _ => npy_isnan (double_at array i) = true
  end.

(** Row [i] is marked absent by [fill_column]: listed in the mask after a
    bulk copy, or meeting the per-row condition on the iterative path. *)
Definition row_marked_absent (ldr : NumpyLoader) (tbl : t_data_table)
           (col name : string) (type : t_dtype) (cidx : nat) (i : nat) : Prop :=
  let source := acc_get_numpy_column (m_accessor ldr) name type in
  match np_dtype_of ldr name, array_ensure (fst source), Column.size tbl col with
  | Some np_dtype, Some array, Ok nrows =>
      match fill_path np_dtype type with
      | PATH_BULK => In i (snd source)
      | PATH_ITER => (i < nrows)%nat /\ iter_absent ldr array type cidx i
      end
  | _, _, _ => False
  end.

(** The table [tbl] with the type tag of the column [col] replaced by [ty]. *)
Definition retype (tbl : t_data_table) (col : string) (ty : t_dtype) : t_data_table :=
  mk_table (tbl_size tbl)
           (alter (fun c => mk_column ty (col_cells c)) col (tbl_columns tbl))
           (tbl_history tbl).

(** The loader [ldr] with the null-position lists of its accessor replaced
    by [mask]; buffers, names, types and [marshal] are kept. *)
Definition with_mask (mask : string -> t_dtype -> list nat) (ldr : NumpyLoader)
  : NumpyLoader :=
  let a := m_accessor ldr in
  mk_loader (m_init ldr)
            (mk_accessor (acc_row_count a) (acc_data a)
                         (fun n t => (fst (acc_get_numpy_column a n t), mask n t))
                         (acc_marshal a))
            (m_names ldr) (m_types ldr).

(** The status [copy_array] is to return for a source type tag. *)
Definition expected_status (np_dtype : t_dtype) : t_fill_status :=
  if is_fixed_width_numeric np_dtype then FILL_SUCCEED else FILL_FAIL.

(** The width in bits of an integer type tag, and of a numeric type tag. *)
Definition integer_bits (t : t_dtype) : option nat :=
  match t with
  | DTYPE_UINT8 | DTYPE_INT8 => Some 8
  | DTYPE_UINT16 | DTYPE_INT16 => Some 16
  | DTYPE_UINT32 | DTYPE_INT32 => Some 32
  | DTYPE_UINT64 | DTYPE_INT64 => Some 64
  | _ => None
  end%nat.

Definition numeric_bits (t : t_dtype) : option nat :=
  match t with
  | DTYPE_FLOAT32 => Some 32
  | DTYPE_FLOAT64 => Some 64
  | _ => integer_bits t
  end%nat.

(** The spec's mismatch condition: the source is a strictly wider integer
    type than the numeric destination, or a 64-bit source feeds a 32-bit
    integer or a 64-bit float destination. *)
Definition spec_mismatch (np_dtype type : t_dtype) : bool :=
  match integer_bits np_dtype, numeric_bits type with
  | Some a, Some b => (b <? a)%nat
  | _, _ => false
  end
  || (bool_decide (numeric_bits np_dtype = Some 64%nat)
      && (bool_decide (type = DTYPE_INT32) || bool_decide (type = DTYPE_FLOAT64))).

(** The value [fill_table] stores at row [row] of a generated index:
    [(ridx + offset) % limit] on [std::uint32_t], stored as [std::int32_t]. *)
Definition row_number_index (offset limit : Z) (row : nat) : t_scalar :=
  SC_INT C_INT32
         (wrap_signed 32 (wrap_unsigned 32 (Z.of_nat row + offset) mod limit)).

(** The test that promotes a 32-bit integer column:
    [item > 2147483647 || item < -2147483648]. *)
Definition out_of_int32_range (item : spec_float) : bool :=
  double_gt item INT32_MAX_AS_DOUBLE || double_lt item INT32_MIN_AS_DOUBLE.

(** What the numeric fill stores for row [i] of a 32-bit integer column
    before a promotion, and what it stores once the column is 64-bit float. *)
Definition int32_of_source (np_dtype : t_dtype) (ptr : t_buffer) (i : nat) : Z :=
  if bool_decide (np_dtype = DTYPE_INT64)
  then wrap_signed 32 (int_at 8 ptr i)
  else int_at 4 ptr i.

Definition double_of_source (np_dtype : t_dtype) (ptr : t_buffer) (i : nat)
  : spec_float :=
  if bool_decide (np_dtype = DTYPE_INT64)
  then double_of_Z (int_at 8 ptr i)
  else double_at ptr i.

(** Row [j] of a promoted column, after the triggering row: absent where the
    element reads as NaN, the element as a double elsewhere. *)
Definition float_row (is_update : bool) (np_dtype : t_dtype) (ptr : t_buffer)
           (j : nat) (x : t_cell) : Prop :=
  if npy_isnan (double_at ptr j)
  then cell_status x = absent_status is_update
  else x = mk_cell STATUS_VALID (SC_FLOAT64 (double_of_source np_dtype ptr j)).

(** * Example inputs *)

(** The value of an outcome known to be [Ok]. *)
Definition result_of {A : Type} (o : outcome A) (default : A) : A :=
  match o with
  | Ok a => a
  | Fail _ => default
  end.

(** Bit patterns: a quiet NaN, 2147483648.0, 1.5, and numpy's NaT. *)
Definition F64_NAN_BITS : Z := 0x7FF8000000000000.
Definition F64_2P31_BITS : Z := 0x41E0000000000000.
Definition F64_1_5_BITS : Z := 0x3FF8000000000000.
Definition NAT_BITS : Z := 0x8000000000000000.

(** Four 8-byte elements: the integer 7, the double 2147483648.0, a NaN and
    the integer 9. *)
Definition ex_buffer : t_buffer :=
  le_bytes 8 7 ++ le_bytes 8 F64_2P31_BITS ++ le_bytes 8 F64_NAN_BITS ++ le_bytes 8 9.

(** Four doubles: 1.5, NaN, 1.5, 2147483648.0. *)
Definition ex_doubles : t_buffer :=
  le_bytes 8 F64_1_5_BITS ++ le_bytes 8 F64_NAN_BITS ++ le_bytes 8 F64_1_5_BITS
  ++ le_bytes 8 F64_2P31_BITS.

(** Four timestamps: 1, NaT, the bits of a NaN, 3. *)
Definition ex_times : t_buffer :=
  le_bytes 8 1 ++ le_bytes 8 NAT_BITS ++ le_bytes 8 F64_NAN_BITS ++ le_bytes 8 3.

(** Four 32-bit integers 1, 2, 3, 4, and four 64-bit integers 10, 20, 30, 40. *)
Definition ex_int32s : t_buffer :=
  le_bytes 4 1 ++ le_bytes 4 2 ++ le_bytes 4 3 ++ le_bytes 4 4.
Definition ex_int64s : t_buffer :=
  le_bytes 8 10 ++ le_bytes 8 20 ++ le_bytes 8 30 ++ le_bytes 8 40.

Definition ex_columns : list (string * py_object) :=
  [ ("a", PY_ARRAY NP_INT64 ex_buffer);
    ("f", PY_ARRAY NP_FLOAT64 ex_doubles);
    ("s", PY_ARRAY NP_OBJECT ex_int64s);
    ("t", PY_ARRAY NP_DATETIME64 ex_times);
    ("n32", PY_ARRAY NP_INT32 ex_int32s);
    ("u64", PY_ARRAY NP_UINT64 ex_int64s);
    ("__INDEX__", PY_ARRAY NP_INT64 ex_int64s);
    ("psp_okey", PY_ARRAY NP_INT64 ex_buffer) ].

Fixpoint ex_lookup (name : string) (l : list (string * py_object)) : py_object :=
  match l with
  | [] => PY_NOT_ARRAY
  | (k, v) :: r => if String.eqb k name then v else ex_lookup name r
  end.

(** An accessor over these columns; its mask lists row 1, and [marshal]
    returns [None] at row 1 and a text elsewhere. *)
Definition ex_accessor : t_accessor :=
  mk_accessor 4 ex_columns
              (fun name _ => (ex_lookup name ex_columns, [1%nat]))
              (fun _ i _ => match i with 1%nat => PY_NONE | _ => PY_STR "x" end).

Definition ex_loader : NumpyLoader :=
  result_of (init (new_loader ex_accessor)) (new_loader ex_accessor).

(** A table of [n] rows with one fresh column per schema entry. *)
Fixpoint ex_table_of (cols : list (string * t_dtype)) (tbl : t_data_table)
  : t_data_table :=
  match cols with
  | [] => tbl
  | (name, ty) :: r => ex_table_of r (fst (Table.add_column tbl name ty true))
  end.

Definition ex_table (n : nat) (cols : list (string * t_dtype)) : t_data_table :=
  ex_table_of cols (mk_table n ∅ []).

(** The abort of [PSP_VERBOSE_ASSERT(m_init, ...)]. *)
Definition UNINITED : t_error := PSP_ABORT "touching uninited object".

(** The abort of [make_types] on an object that is not an array. *)
Definition MIXED_COLUMNS : t_error :=
  PSP_ABORT "Cannot fill mixed dictionaries of numpy.array and list!".

(** The abort of [fill_column] on a name the source does not have. *)
Definition UNKNOWN_COLUMN : t_error :=
  PSP_ABORT "Cannot fill column as it is not in the table schema.".

(** * Vocabulary of the row-by-row properties *)

(** A row marked absent keeps the element stored in it. *)
Definition absent_cell (is_update : bool) (x : t_cell) : t_cell :=
  mk_cell (absent_status is_update) (cell_data x).

(** The element type [copy_array] instantiates [copy_array_helper] at. *)
Definition source_elem (t : t_dtype) : option t_elem :=
  match t with
  | DTYPE_UINT8 => Some (E_INT C_UINT8)
  | DTYPE_UINT16 => Some (E_INT C_UINT16)
  | DTYPE_UINT32 => Some (E_INT C_UINT32)
  | DTYPE_UINT64 => Some (E_INT C_UINT64)
  | DTYPE_INT8 => Some (E_INT C_INT8)
  | DTYPE_INT16 => Some (E_INT C_INT16)
  | DTYPE_INT32 => Some (E_INT C_INT32)
  | DTYPE_INT64 => Some (E_INT C_INT64)
  | DTYPE_FLOAT32 => Some E_FLOAT
  | DTYPE_FLOAT64 => Some E_DOUBLE
  | _ => None
  end.

(** The 64-bit integers whose bit pattern, read as a double, is a NaN. *)
Definition int64_bits_are_nan (v : Z) : bool :=
  ((- 2 ^ 52 <? v) && (v <? 0)) || (2 ^ 63 - 2 ^ 52 <? v).

(** The element the numeric fill writes at row [i] of a column of type [type]
    that it does not promote; [None] for a type the [switch] does not list. *)
Definition numeric_store (np_dtype type : t_dtype) (ptr : t_buffer) (i : nat)
  : option t_scalar :=
  match type with
  | DTYPE_INT32 => Some (SC_INT C_INT32 (int32_of_source np_dtype ptr i))
  | DTYPE_FLOAT64 => Some (SC_FLOAT64 (double_of_source np_dtype ptr i))
  | _ => (fun E => elem_at E ptr i) <$> source_elem type
  end.

(** Row [i] after the numeric fill of a column it does not promote: absent
    where the 8 bytes at [8 * i] read as a NaN, else written, else as it was. *)
Definition numeric_cell (is_update : bool) (np_dtype type : t_dtype)
           (ptr : t_buffer) (i : nat) (x0 : t_cell) : t_cell :=
  if npy_isnan (double_at ptr i) then absent_cell is_update x0
  else match numeric_store np_dtype type ptr i with
       | Some v => mk_cell STATUS_VALID v
       | None => x0
       end.

(** * Further example inputs *)

(** Four 64-bit integers: 5, -1, 2147483648 and -7. *)
Definition ex_signed : t_buffer :=
  le_bytes 8 5 ++ le_bytes 8 (-1) ++ le_bytes 8 2147483648 ++ le_bytes 8 (-7).

(** An accessor whose [marshal] answers by destination type: a boolean, a
    dictionary with a year and a month, or a text; [None] at row 1. *)
Definition ex_typed_accessor : t_accessor :=
  mk_accessor 4 ex_columns
              (fun name _ => (ex_lookup name ex_columns, [1%nat]))
              (fun _ i ty =>
                 match i with
                 | 1%nat => PY_NONE
                 | _ =>
                     match ty with
                     | DTYPE_BOOL => PY_BOOL true
                     | DTYPE_DATE => PY_DICT [("year", 2020); ("month", 2)]
                     | _ => PY_STR "x"
                     end
                 end).

Definition ex_typed_loader : NumpyLoader :=
  result_of (init (new_loader ex_typed_accessor)) (new_loader ex_typed_accessor).

(** A source with one column of 64-bit integers, [ex_signed]. *)
Definition ex_signed_columns : list (string * py_object) :=
  [ ("v", PY_ARRAY NP_INT64 ex_signed) ].

Definition ex_signed_accessor : t_accessor :=
  mk_accessor 4 ex_signed_columns
              (fun name _ => (ex_lookup name ex_signed_columns, []))
              (fun _ _ _ => PY_NONE).

Definition ex_signed_loader : NumpyLoader :=
  result_of (init (new_loader ex_signed_accessor)) (new_loader ex_signed_accessor).

(** An accessor that knows the columns of [ex_columns] but hands over no
    array for any of them. *)
Definition ex_broken_accessor : t_accessor :=
  mk_accessor 4 ex_columns (fun _ _ => (PY_NOT_ARRAY, [])) (fun _ _ _ => PY_NONE).

Definition ex_broken_loader : NumpyLoader :=
  result_of (init (new_loader ex_broken_accessor)) (new_loader ex_broken_accessor).

(** A source whose [__INDEX__] column holds the 64-bit integers of
    [ex_buffer]; the second reads, as a double, as 2147483648.0. *)
Definition ex_index_columns : list (string * py_object) :=
  [ ("__INDEX__", PY_ARRAY NP_INT64 ex_buffer) ].

Definition ex_index_accessor : t_accessor :=
  mk_accessor 4 ex_index_columns
              (fun name _ => (ex_lookup name ex_index_columns, []))
              (fun _ _ _ => PY_NONE).

Definition ex_index_loader : NumpyLoader :=
  result_of (init (new_loader ex_index_accessor)) (new_loader ex_index_accessor).

(** No event of [evs] is a promotion. *)
Definition no_promotion (evs : list t_event) : bool :=
  forallb (fun ev => match ev with
                     | EV_PROMOTE_COLUMN _ _ _ _ => false
                     | _ => true
                     end) evs.
(** * Properties *)

(** ** The error monad and the loops *)

Lemma bind_Ok {A B : Type} (m : outcome A) (k : A -> outcome B) (r : B) :
  bind m k = Ok r -> exists a, m = Ok a /\ k a = Ok r.
Proof. destruct m as [a|e]; simpl; [eauto | discriminate]. Qed.

Ltac inv_bind :=
  repeat match goal with
         | H : bind _ _ = Ok _ |- _ =>
             let a := fresh "a" in
             let Ha := fresh "Ha" in
             apply bind_Ok in H; destruct H as (a & Ha & H)
         | H : Ok _ = Ok _ |- _ => injection H as H
         | H : Fail _ = Ok _ |- _ => discriminate H
         end.

(** Partial correctness of a loop: an invariant carried by [Continue], a
    postcondition reached by [Return] or by running off the range. *)
Lemma for_range_inv {S : Type} (body : nat -> S -> outcome (t_flow S))
      (I : nat -> S -> Prop) (Q : S -> Prop) (hi : nat) :
  (forall i s s', (i < hi)%nat -> I i s -> body i s = Ok (Continue s') ->
                  I (Datatypes.S i) s') ->
  (forall i s s', (i < hi)%nat -> I i s -> body i s = Ok (Return s') -> Q s') ->
  (forall s, I hi s -> Q s) ->
  forall n i s r, (i + n = hi)%nat -> I i s -> for_range body i n s = Ok r -> Q r.
Proof.
  intros Hc Hr Hend n.
  induction n as [|n IH]; intros i s r Hi HI Hrun; simpl in Hrun.
  - injection Hrun as <-. apply Hend. replace hi with i by lia. exact HI.
  - destruct (body i s) as [[s'|s']|e] eqn:Hb; try discriminate.
    + apply (IH (Datatypes.S i) s'); [lia | | exact Hrun].
      apply (Hc i s); [lia | exact HI | exact Hb].
    + injection Hrun as <-. apply (Hr i s); [lia | exact HI | exact Hb].
Qed.

(** Total correctness of a loop whose body always continues. *)
Lemma for_range_total {S : Type} (body : nat -> S -> outcome (t_flow S))
      (I : nat -> S -> Prop) (hi : nat) :
  (forall i s, (i < hi)%nat -> I i s ->
               exists s', body i s = Ok (Continue s') /\ I (Datatypes.S i) s') ->
  forall n i s, (i + n = hi)%nat -> I i s ->
                exists r, for_range body i n s = Ok r /\ I hi r.
Proof.
  intros Hstep n.
  induction n as [|n IH]; intros i s Hi HI; simpl.
  - exists s. split; [reflexivity|]. replace hi with i by lia. exact HI.
  - destruct (Hstep i s) as (s' & Hb & HI'); [lia | exact HI |].
    rewrite Hb. apply IH; [lia | exact HI'].
Qed.

(** ** Conversions to [double] *)

Lemma shr_1_nonneg (mrs : shr_record) : 0 <= shr_m mrs -> 0 <= shr_m (shr_1 mrs).
Proof.
  destruct mrs as [m r s]. simpl.
  destruct m as [|p|p]; [easy | | lia].
  intros _. destruct p; simpl; lia.
Qed.

Lemma iter_pos_shr_1_nonneg (p : positive) (mrs : shr_record) :
  0 <= shr_m mrs -> 0 <= shr_m (SpecFloat.iter_pos shr_1 p mrs).
Proof.
  revert mrs. induction p as [p IH|p IH|]; intros mrs H; simpl.
  - apply IH, IH, shr_1_nonneg, H.
  - apply IH, IH, H.
  - apply shr_1_nonneg, H.
Qed.

Lemma shr_fexp_nonneg (prec emax m e : Z) (l : location) :
  0 <= m -> 0 <= shr_m (fst (shr_fexp prec emax m e l)).
Proof.
  intros Hm. unfold shr_fexp, shr.
  assert (H0 : 0 <= shr_m (shr_record_of_loc m l)).
  { destruct l as [|[]]; simpl; exact Hm. }
  destruct (fexp prec emax (Zdigits2 m + e) - e); simpl; try exact H0.
  apply iter_pos_shr_1_nonneg, H0.
Qed.

Lemma round_nearest_even_nonneg (m : Z) (l : location) :
  0 <= m -> 0 <= round_nearest_even m l.
Proof.
  intros Hm. destruct l as [|[]]; simpl; try lia.
  destruct (Z.even m); lia.
Qed.

Lemma binary_round_aux_not_nan (prec emax : Z) (s : bool) (m e : Z) (l : location) :
  0 <= m -> is_nan (binary_round_aux prec emax s m e l) = false.
Proof.
  intros Hm. unfold binary_round_aux.
  pose proof (shr_fexp_nonneg prec emax m e l Hm) as H1.
  destruct (shr_fexp prec emax m e l) as [mrs' e']. simpl in H1.
  pose proof (shr_fexp_nonneg prec emax
                (round_nearest_even (shr_m mrs') (loc_of_shr_record mrs')) e'
                loc_Exact (round_nearest_even_nonneg _ _ H1)) as H2.
  destruct (shr_fexp prec emax _ e' loc_Exact) as [mrs'' e'']. simpl in H2.
  destruct (shr_m mrs'') as [|p|p]; [reflexivity | | lia].
  destruct (e'' <=? emax - prec); reflexivity.
Qed.

(** A converted integer is never NaN. *)
Lemma double_of_Z_not_nan (z : Z) : is_nan (double_of_Z z) = false.
Proof.
  unfold double_of_Z, binary_normalize.
  destruct z as [|p|p]; [reflexivity | |];
    unfold binary_round;
    destruct (shl_align _ _ _) as [mz ez];
    apply binary_round_aux_not_nan; lia.
Qed.

Lemma npy_isnan_int_false (z : Z) : npy_isnan_int z = false.
Proof. apply double_of_Z_not_nan. Qed.

Lemma digits2_pos_iter_xO (p k : positive) :
  Z.pos (digits2_pos (Pos.iter xO p k)) = Z.pos (digits2_pos p) + Z.pos k.
Proof.
  induction k as [|k IH] using Pos.peano_ind.
  - simpl. lia.
  - rewrite Pos.iter_succ. simpl. lia.
Qed.

Lemma Zpos_iter_xO (p k : positive) :
  Z.pos (Pos.iter xO p k) = Z.pos p * 2 ^ Z.pos k.
Proof.
  induction k as [|k IH] using Pos.peano_ind.
  - simpl. lia.
  - rewrite Pos.iter_succ, Pos2Z.inj_succ, Z.pow_succ_r by lia.
    rewrite Pos2Z.inj_xO, IH. lia.
Qed.

Lemma digits2_pos_le (p : positive) (n : Z) :
  0 <= n -> Z.pos p < 2 ^ n -> Z.pos (digits2_pos p) <= n.
Proof.
  revert n. induction p as [p IH|p IH|]; intros n Hn Hp; simpl.
  - assert (n <> 0) by (intros ->; simpl in Hp; lia).
    replace n with (Z.succ (n - 1)) in Hp by lia.
    rewrite Z.pow_succ_r in Hp by lia.
    specialize (IH (n - 1)). lia.
  - assert (n <> 0) by (intros ->; simpl in Hp; lia).
    replace n with (Z.succ (n - 1)) in Hp by lia.
    rewrite Z.pow_succ_r in Hp by lia.
    specialize (IH (n - 1)). lia.
  - assert (n <> 0) by (intros ->; simpl in Hp; lia). lia.
Qed.

(** Rounding a mantissa of at most 52 bits at exponent 0 only aligns it. *)
Lemma binary_round_small (s : bool) (p k : positive) :
  Z.pos (digits2_pos p) + Z.pos k = 53 ->
  binary_round 53 1024 s p 0 = S754_finite s (Pos.iter xO p k) (Z.neg k).
Proof.
  intros Hk.
  assert (Hf : forall d, d + Z.pos k = 53 -> fexp 53 1024 d = Z.neg k).
  { intros d Hd. unfold fexp, emin. lia. }
  unfold binary_round.
  rewrite Z.add_0_r, (Hf _ Hk).
  unfold shl_align. change (Z.neg k - 0) with (Z.neg k). cbv iota beta.
  unfold binary_round_aux, shr_fexp.
  simpl Zdigits2. simpl shr_record_of_loc.
  rewrite (Hf (Z.pos (digits2_pos (Pos.iter xO p k)) + Z.neg k)).
  2:{ rewrite digits2_pos_iter_xO. lia. }
  rewrite Z.sub_diag. simpl.
  rewrite (Hf (Z.pos (digits2_pos (Pos.iter xO p k)) + Z.neg k)).
  2:{ rewrite digits2_pos_iter_xO. lia. }
  rewrite Z.sub_diag. simpl. reflexivity.
Qed.

(** An integer of at most 52 bits converts to the [double] of that value. *)
Lemma double_of_Z_exact (z : Z) :
  Z.abs z < 2 ^ 52 -> SF_to_Z (double_of_Z z) = Some z.
Proof.
  intros Hz. unfold double_of_Z, binary_normalize.
  destruct z as [|p|p]; [reflexivity | |].
  all: pose proof (digits2_pos_le p 52 ltac:(lia) ltac:(lia)) as Hd.
  all: destruct (53 - Z.pos (digits2_pos p)) as [|k|k] eqn:Hk; try lia.
  all: rewrite (binary_round_small _ p k) by lia.
  all: unfold SF_to_Z.
  all: replace (0 <=? Z.neg k) with false by (symmetry; apply Z.leb_gt; lia).
  all: simpl Z.opp.
  - rewrite Zpos_iter_xO.
    rewrite Z.mod_mul by lia. simpl.
    rewrite Z.div_mul by lia. reflexivity.
  - change (Z.neg (Pos.iter xO p k)) with (- Z.pos (Pos.iter xO p k)).
    rewrite Zpos_iter_xO.
    replace (- (Z.pos p * 2 ^ Z.pos k)) with (Z.neg p * 2 ^ Z.pos k) by lia.
    rewrite Z.mod_mul by lia. simpl.
    rewrite Z.div_mul by lia. reflexivity.
Qed.

(** ** The column store *)

Lemma evolves_refl (T : string -> Prop) (P : t_event -> Prop) (tbl : t_data_table) :
  evolves T P [] tbl tbl.
Proof. split; try reflexivity. constructor. Qed.


Lemma evolves_trans (T : string -> Prop) (P : t_event -> Prop)
      (e1 e2 : list t_event) (t1 t2 t3 : t_data_table) :
  evolves T P e1 t1 t2 -> evolves T P e2 t2 t3 -> evolves T P (e2 ++ e1) t1 t3.
Proof.
  intros [S1 H1 F1 R1 L1 D1] [S2 H2 F2 R2 L2 D2]. split.
  - congruence.
  - rewrite H2, H1. apply app_assoc.
  - apply Forall_app. split; assumption.
  - intros n Hn. rewrite R2, R1 by assumption. reflexivity.
  - intros n. rewrite L2, L1. reflexivity.
  - intros n Hn. rewrite D2, D1; [reflexivity | |];
      intros ty row fill Hin; apply (Hn ty row fill), in_or_app; auto.
Qed.

Lemma evolves_weaken (T T' : string -> Prop) (P P' : t_event -> Prop)
      (evs : list t_event) (t1 t2 : t_data_table) :
  (forall n, T n -> T' n) -> (forall ev, P ev -> P' ev) ->
  evolves T P evs t1 t2 -> evolves T' P' evs t1 t2.
Proof.
  intros HT HP [S1 H1 F1 R1 L1 D1]. split; try assumption.
  - eapply Forall_impl; eauto.
  - intros n Hn. apply R1. intros Hc. apply Hn, HT, Hc.
Qed.

Lemma evolves_wf (T : string -> Prop) (P : t_event -> Prop) (evs : list t_event)
      (t1 t2 : t_data_table) :
  evolves T P evs t1 t2 -> table_wf t1 -> table_wf t2.
Proof.
  intros [S1 _ _ _ L1 _] Hwf n c Hc.
  specialize (L1 n). unfold col_len in L1. rewrite Hc in L1. simpl in L1.
  destruct (tbl_columns t1 !! n) as [c1|] eqn:H1; simpl in L1; [|discriminate].
  injection L1 as L1. rewrite L1, S1. apply (Hwf n c1 H1).
Qed.

Lemma update_column_Ok (tbl : t_data_table) (h : string) (ev : t_event)
      (f : t_column -> outcome t_column) (tbl' : t_data_table) :
  update_column tbl h ev f = Ok tbl' ->
  exists c c', tbl_columns tbl !! h = Some c /\ f c = Ok c' /\
               tbl' = mk_table (tbl_size tbl) (<[h := c']> (tbl_columns tbl))
                               (ev :: tbl_history tbl).
Proof.
  unfold update_column. destruct (tbl_columns tbl !! h) as [c|]; [|discriminate].
  intros H. apply bind_Ok in H as (c' & Hf & H). injection H as <-. eauto.
Qed.

Lemma update_column_evolves (T : string -> Prop) (P : t_event -> Prop)
      (tbl : t_data_table) (h : string) (ev : t_event)
      (f : t_column -> outcome t_column) (tbl' : t_data_table) :
  (forall c c', f c = Ok c' -> length (col_cells c') = length (col_cells c)) ->
  (forall c c', f c = Ok c' ->
                col_dtype c' = col_dtype c \/
                exists ty row fill, ev = EV_PROMOTE_COLUMN h ty row fill) ->
  T h -> P ev ->
  update_column tbl h ev f = Ok tbl' -> evolves T P [ev] tbl tbl'.
Proof.
  intros Hlen Hty HT HP H.
  apply update_column_Ok in H as (c & c' & Hc & Hf & ->). split; simpl.
  - reflexivity.
  - reflexivity.
  - repeat constructor; exact HP.
  - intros n Hn. apply lookup_insert_ne. intros ->. exact (Hn HT).
  - intros n. unfold col_len. simpl.
    destruct (decide (h = n)) as [->|Hne].
    + rewrite lookup_insert_eq, Hc. simpl. f_equal. eapply Hlen, Hf.
    + rewrite lookup_insert_ne by exact Hne. reflexivity.
  - intros n Hn.
    destruct (decide (h = n)) as [->|Hne].
    + rewrite lookup_insert_eq, Hc. simpl. f_equal.
      destruct (Hty c c' Hf) as [E|(ty & row & fill & ->)]; [exact E|].
      exfalso. apply (Hn ty row fill). left. reflexivity.
    + rewrite lookup_insert_ne by exact Hne. reflexivity.
Qed.

Lemma update_cell_dtype (i : nat) (g : t_cell -> t_cell) (c c' : t_column) :
  update_cell i g c = Ok c' -> col_dtype c' = col_dtype c.
Proof.
  unfold update_cell. destruct (col_cells c !! i); [|discriminate].
  intros H. injection H as <-. reflexivity.
Qed.

Lemma update_cell_length (i : nat) (g : t_cell -> t_cell) (c c' : t_column) :
  update_cell i g c = Ok c' -> length (col_cells c') = length (col_cells c).
Proof.
  unfold update_cell. destruct (col_cells c !! i); [|discriminate].
  intros H. injection H as <-. simpl. apply length_insert.
Qed.

Lemma set_nth_evolves (T : string -> Prop) (P : t_event -> Prop)
      (tbl : t_data_table) (col : string) (i : nat) (v : t_scalar)
      (tbl' : t_data_table) :
  T col -> P (EV_SET_NTH col i v) ->
  Column.set_nth tbl col i v = Ok tbl' ->
  evolves T P [EV_SET_NTH col i v] tbl tbl'.
Proof.
  intros HT HP. apply update_column_evolves; [ | |exact HT|exact HP].
  - intros c c'. apply update_cell_length.
  - intros c c' H. left. eapply update_cell_dtype, H.
Qed.

Lemma mark_absent_evolves (T : string -> Prop) (P : t_event -> Prop)
      (is_update : bool) (tbl : t_data_table) (col : string) (i : nat)
      (tbl' : t_data_table) :
  T col -> P (absent_event is_update col i) ->
  mark_absent is_update tbl col i = Ok tbl' ->
  evolves T P [absent_event is_update col i] tbl tbl'.
Proof.
  intros HT HP. unfold mark_absent, absent_event in *.
  destruct is_update; (apply update_column_evolves; [ | |exact HT|exact HP]);
    intros c c' H;
    first [ eapply update_cell_length, H | left; eapply update_cell_dtype, H ].
Qed.

Lemma valid_raw_fill_evolves (T : string -> Prop) (P : t_event -> Prop)
      (tbl : t_data_table) (col : string) (tbl' : t_data_table) :
  T col -> P (EV_VALID_RAW_FILL col) ->
  Column.valid_raw_fill tbl col = Ok tbl' ->
  evolves T P [EV_VALID_RAW_FILL col] tbl tbl'.
Proof.
  intros HT HP. apply update_column_evolves; [ | |exact HT|exact HP].
  - intros c c' H. injection H as <-. simpl. apply length_map.
  - intros c c' H. injection H as <-. left. reflexivity.
Qed.

Lemma length_raw_store (E : t_elem) (width : option nat) (offset : nat)
      (bs : list byte) (cells : list t_cell) :
  length (raw_store E width offset bs cells) = length cells.
Proof.
  unfold raw_store. destruct width as [w|]; [apply length_imap|].
  destruct bs; [reflexivity | apply length_map].
Qed.

Lemma memcpy_evolves (T : string -> Prop) (P : t_event -> Prop)
      (tbl : t_data_table) (col : string) (E : t_elem) (offset : nat)
      (bs : list byte) (tbl' : t_data_table) :
  T col -> P (EV_MEMCPY col E offset) ->
  Column.memcpy tbl col E offset bs = Ok tbl' ->
  evolves T P [EV_MEMCPY col E offset] tbl tbl'.
Proof.
  intros HT HP. apply update_column_evolves; [ | |exact HT|exact HP].
  - intros c c' H. injection H as <-. simpl. apply length_raw_store.
  - intros c c' H. left. injection H as <-. reflexivity.
Qed.

Lemma promote_column_evolves (T : string -> Prop) (P : t_event -> Prop)
      (tbl : t_data_table) (name : string) (ty : t_dtype) (row : nat)
      (fill : bool) (tbl' : t_data_table) :
  T name -> P (EV_PROMOTE_COLUMN name ty row fill) ->
  Table.promote_column tbl name ty row fill = Ok tbl' ->
  evolves T P [EV_PROMOTE_COLUMN name ty row fill] tbl tbl'.
Proof.
  intros HT HP. apply update_column_evolves; [ | |exact HT|exact HP].
  - intros c c' H. injection H as <-. simpl.
    destruct fill; [apply length_imap | reflexivity].
  - intros c c' H. right. eauto.
Qed.

(** ** Rows of a column under the handle operations *)

Lemma update_column_lookup (tbl : t_data_table) (h : string) (ev : t_event)
      (f : t_column -> outcome t_column) (tbl' : t_data_table) :
  update_column tbl h ev f = Ok tbl' ->
  exists c c', tbl_columns tbl !! h = Some c /\ f c = Ok c' /\
               tbl_columns tbl' !! h = Some c' /\
               forall n, n <> h -> tbl_columns tbl' !! n = tbl_columns tbl !! n.
Proof.
  intros H. apply update_column_Ok in H as (c & c' & Hc & Hf & ->).
  exists c, c'. simpl. rewrite lookup_insert_eq.
  repeat (split; [assumption || reflexivity|]).
  intros n Hn. apply lookup_insert_ne. congruence.
Qed.

Lemma update_cell_cell_at (tbl : t_data_table) (col : string) (ev : t_event)
      (i : nat) (g : t_cell -> t_cell) (tbl' : t_data_table) :
  update_column tbl col ev (update_cell i g) = Ok tbl' ->
  (exists x, cell_at tbl col i = Some x /\ cell_at tbl' col i = Some (g x)) /\
  (forall n j, n <> col \/ j <> i -> cell_at tbl' n j = cell_at tbl n j).
Proof.
  intros H. apply update_column_lookup in H as (c & c' & Hc & Hf & Hc' & Hother).
  unfold update_cell in Hf. destruct (col_cells c !! i) as [x|] eqn:Hx; [|discriminate].
  injection Hf as <-. unfold cell_at. split.
  - exists x. rewrite Hc, Hc'. simpl. split; [exact Hx|].
    apply list_lookup_insert_eq. eapply lookup_lt_Some, Hx.
  - intros n j Hnj. destruct (decide (n = col)) as [->|Hn].
    + rewrite Hc, Hc'. simpl. apply list_lookup_insert_ne.
      destruct Hnj as [Hc0|Hj]; congruence.
    + rewrite Hother by exact Hn. reflexivity.
Qed.

Lemma set_nth_cell_at (tbl : t_data_table) (col : string) (i : nat) (v : t_scalar)
      (tbl' : t_data_table) :
  Column.set_nth tbl col i v = Ok tbl' ->
  cell_at tbl' col i = Some (mk_cell STATUS_VALID v) /\
  (forall n j, n <> col \/ j <> i -> cell_at tbl' n j = cell_at tbl n j).
Proof.
  intros H. apply update_cell_cell_at in H as [(x & _ & Hx) Hother]. auto.
Qed.

Lemma mark_absent_cell_at (is_update : bool) (tbl : t_data_table) (col : string)
      (i : nat) (tbl' : t_data_table) :
  mark_absent is_update tbl col i = Ok tbl' ->
  (exists x, cell_at tbl col i = Some x /\
             cell_at tbl' col i = Some (mk_cell (absent_status is_update) (cell_data x))) /\
  (forall n j, n <> col \/ j <> i -> cell_at tbl' n j = cell_at tbl n j).
Proof.
  unfold mark_absent, Column.unset, Column.clear, absent_status.
  destruct is_update; apply update_cell_cell_at.
Qed.

Lemma col_len_cell_at (tbl : t_data_table) (col : string) (n i : nat) :
  col_len tbl col = Some n -> (i < n)%nat -> exists x, cell_at tbl col i = Some x.
Proof.
  unfold col_len, cell_at. destruct (tbl_columns tbl !! col) as [c|]; [|discriminate].
  simpl. intros [= <-] Hi. apply lookup_lt_is_Some_2 in Hi as [x Hx]. eauto.
Qed.

Lemma size_col_len (tbl : t_data_table) (col : string) (n : nat) :
  Column.size tbl col = Ok n <-> col_len tbl col = Some n.
Proof.
  unfold Column.size, col_len. destruct (tbl_columns tbl !! col); simpl;
    split; intros H; try discriminate; injection H as <-; reflexivity.
Qed.

Lemma update_cell_in_range (tbl : t_data_table) (col : string) (ev : t_event)
      (i n : nat) (g : t_cell -> t_cell) :
  col_len tbl col = Some n -> (i < n)%nat ->
  exists tbl', update_column tbl col ev (update_cell i g) = Ok tbl'.
Proof.
  unfold col_len, update_column, update_cell.
  destruct (tbl_columns tbl !! col) as [c|]; [|discriminate].
  simpl. intros [= <-] Hi. apply lookup_lt_is_Some_2 in Hi as [x Hx].
  rewrite Hx. simpl. eauto.
Qed.

Lemma set_nth_in_range (tbl : t_data_table) (col : string) (i n : nat) (v : t_scalar) :
  col_len tbl col = Some n -> (i < n)%nat ->
  exists tbl', Column.set_nth tbl col i v = Ok tbl'.
Proof. apply update_cell_in_range. Qed.

Lemma mark_absent_in_range (is_update : bool) (tbl : t_data_table) (col : string)
      (i n : nat) :
  col_len tbl col = Some n -> (i < n)%nat ->
  exists tbl', mark_absent is_update tbl col i = Ok tbl'.
Proof. unfold mark_absent. destruct is_update; apply update_cell_in_range. Qed.

Lemma promote_column_cell_at (tbl : t_data_table) (name : string) (ty : t_dtype)
      (row : nat) (tbl' : t_data_table) :
  Table.promote_column tbl name ty row true = Ok tbl' ->
  (forall j, cell_at tbl' name j
             = (fun x => if (j <? row)%nat
                         then mk_cell (cell_status x) (promote_scalar ty (cell_data x))
                         else x) <$> cell_at tbl name j) /\
  (forall n j, n <> name -> cell_at tbl' n j = cell_at tbl n j) /\
  col_dtype <$> tbl_columns tbl' !! name = Some ty.
Proof.
  intros H. apply update_column_lookup in H as (c & c' & Hc & Hf & Hc' & Hother).
  injection Hf as <-. unfold cell_at. rewrite Hc, Hc'. simpl. split; [|split].
  - intros j. apply list_lookup_imap.
  - intros n j Hn. rewrite Hother by exact Hn. reflexivity.
  - reflexivity.
Qed.

Lemma promote_column_exists (tbl : t_data_table) (name : string) (ty : t_dtype)
      (row : nat) (fill : bool) (n : nat) :
  col_len tbl name = Some n ->
  exists tbl', Table.promote_column tbl name ty row fill = Ok tbl'.
Proof.
  unfold col_len, Table.promote_column, update_column.
  destruct (tbl_columns tbl !! name); [|discriminate]. simpl. eauto.
Qed.

(** ** Row loops *)

(** A row loop over a state that carries the table: when every turn continues,
    evolves the table and logs an event in [E i] at the rows satisfying [A],
    so does the loop. *)
Lemma row_loop_evolves {S : Type} (tb : S -> t_data_table) (J : S -> Prop)
      (body : nat -> S -> outcome (t_flow S))
      (T : string -> Prop) (P : t_event -> Prop)
      (A : nat -> Prop) (E : nat -> t_event -> Prop) (hi : nat) :
  (forall i s fl, (i < hi)%nat -> J s -> body i s = Ok fl ->
     exists s' evs, fl = Continue s' /\ J s' /\ evolves T P evs (tb s) (tb s') /\
                    (A i -> exists ev, E i ev /\ In ev evs)) ->
  forall s r, J s -> for_range body 0 hi s = Ok r ->
    J r /\ exists evs, evolves T P evs (tb s) (tb r) /\
                       forall i, (i < hi)%nat -> A i -> exists ev, E i ev /\ In ev evs.
Proof.
  intros Hbody s r HJ Hrun.
  pose (I := fun (i : nat) (x : S) =>
               J x /\ exists evs, evolves T P evs (tb s) (tb x) /\
                 forall j, (j < i)%nat -> A j -> exists ev, E j ev /\ In ev evs).
  apply (for_range_inv body I (I hi) hi) with (n := hi) (i := O) (s := s);
    [ | | auto | lia | | exact Hrun].
  - intros i x x' Hi (HJx & evs & Hev & Hlog) Hb.
    destruct (Hbody i x _ Hi HJx Hb) as (s' & evs' & Heq & HJ' & Hev' & Hlog').
    injection Heq as <-. split; [exact HJ'|].
    exists (evs' ++ evs). split; [eapply evolves_trans; eassumption|].
    intros j Hj HA.
    destruct (decide (j = i)) as [->|Hne].
    + destruct (Hlog' HA) as (ev & HE & Hin). exists ev. split; [exact HE|].
      apply in_or_app. left. exact Hin.
    + destruct (Hlog j ltac:(lia) HA) as (ev & HE & Hin). exists ev.
      split; [exact HE|]. apply in_or_app. right. exact Hin.
  - intros i x x' Hi (HJx & _) Hb.
    destruct (Hbody i x _ Hi HJx Hb) as (s' & evs' & Heq & _). discriminate.
  - split; [exact HJ|]. exists []. split; [apply evolves_refl|]. intros j Hj. lia.
Qed.

Section MarshalLoops.

Context (ldr : NumpyLoader) (col : string) (type : t_dtype) (cidx : nat)
        (is_update : bool) (T : string -> Prop) (P : t_event -> Prop).
Hypothesis HT : T col.
Hypothesis Hset : forall i v, P (EV_SET_NTH col i v).

Let absent (i : nat) : Prop := acc_marshal (m_accessor ldr) cidx i type = PY_NONE.

Ltac marshal_row row :=
  intros i tbl fl Habs Hrow; unfold row in Hrow; unfold absent in *;
  destruct (acc_marshal (m_accessor ldr) cidx i type) eqn:Hm;
  simpl in Hrow; inv_bind; subst; eexists _, _;
  (split; [reflexivity|]);
  (split;
   [ first [ eapply mark_absent_evolves; [exact HT | apply Habs; reflexivity | eassumption]
           | eapply set_nth_evolves; [exact HT | apply Hset | eassumption] ]
   | first [ intros _; eexists; split; [reflexivity | left; reflexivity]
           | discriminate ] ]).

Lemma fill_string_row_spec (i : nat) (tbl : t_data_table) (fl : t_flow t_data_table) :
  (absent i -> P (absent_event is_update col i)) ->
  fill_string_row ldr col type cidx is_update i tbl = Ok fl ->
  exists tbl' evs, fl = Continue tbl' /\ evolves T P evs tbl tbl' /\
                   (absent i -> exists ev, ev = absent_event is_update col i /\
                                           In ev evs).
Proof. revert i tbl fl. marshal_row fill_string_row. Qed.

Lemma fill_bool_row_spec (i : nat) (tbl : t_data_table) (fl : t_flow t_data_table) :
  (absent i -> P (absent_event is_update col i)) ->
  fill_bool_row ldr col type cidx is_update i tbl = Ok fl ->
  exists tbl' evs, fl = Continue tbl' /\ evolves T P evs tbl tbl' /\
                   (absent i -> exists ev, ev = absent_event is_update col i /\
                                           In ev evs).
Proof. revert i tbl fl. marshal_row fill_bool_row. Qed.

Lemma fill_date_row_spec (i : nat) (tbl : t_data_table) (fl : t_flow t_data_table) :
  (absent i -> P (absent_event is_update col i)) ->
  fill_date_row ldr col type cidx is_update i tbl = Ok fl ->
  exists tbl' evs, fl = Continue tbl' /\ evolves T P evs tbl tbl' /\
                   (absent i -> exists ev, ev = absent_event is_update col i /\
                                           In ev evs).
Proof. revert i tbl fl. marshal_row fill_date_row. Qed.

Lemma marshal_loop_spec (row : nat -> t_data_table -> outcome (t_flow t_data_table))
      (nrows : nat) (tbl tbl' : t_data_table) :
  (forall i t fl,
      (absent i -> P (absent_event is_update col i)) -> row i t = Ok fl ->
      exists t' evs, fl = Continue t' /\ evolves T P evs t t' /\
        (absent i -> exists ev, ev = absent_event is_update col i /\ In ev evs)) ->
  (forall i, (i < nrows)%nat -> absent i -> P (absent_event is_update col i)) ->
  for_range row 0 nrows tbl = Ok tbl' ->
  exists evs, evolves T P evs tbl tbl' /\
    forall i, (i < nrows)%nat -> absent i -> In (absent_event is_update col i) evs.
Proof.
  intros Hrow Habs Hrun.
  apply (row_loop_evolves (fun t => t) (fun _ => True) _ T P absent
           (fun i ev => ev = absent_event is_update col i) _) in Hrun.
  - destruct Hrun as (_ & evs & Hev & Hlog). exists evs. split; [exact Hev|].
    intros i Hi Ha. destruct (Hlog i Hi Ha) as (ev & -> & Hin). exact Hin.
  - intros i s fl Hi _ Hb.
    destruct (Hrow i s fl (Habs i Hi) Hb) as (s' & evs & -> & Hev & Hlog).
    eauto 8.
  - exact Logic.I.
Qed.

Ltac marshal_loop row_spec :=
  intros Hsize Habs Hrun; inv_bind;
  match goal with
  | Hs : Column.size _ _ = Ok ?n, Hf : for_range _ _ ?n _ = Ok _ |- _ =>
      rewrite Hsize in Hs; injection Hs as <-;
      eapply marshal_loop_spec; [apply row_spec | exact Habs | exact Hf]
  end.

Lemma fill_string_iter_spec (array : t_buffer) (tbl : t_data_table) (name : string)
      (np_dtype : t_dtype) (nrows : nat) (tbl' : t_data_table) :
  Column.size tbl col = Ok nrows ->
  (forall i, (i < nrows)%nat -> absent i -> P (absent_event is_update col i)) ->
  fill_string_iter ldr array tbl col name np_dtype type cidx is_update = Ok tbl' ->
  exists evs, evolves T P evs tbl tbl' /\
    forall i, (i < nrows)%nat -> absent i -> In (absent_event is_update col i) evs.
Proof. unfold fill_string_iter. marshal_loop fill_string_row_spec. Qed.

Lemma fill_bool_iter_spec (array : t_buffer) (tbl : t_data_table) (name : string)
      (np_dtype : t_dtype) (nrows : nat) (tbl' : t_data_table) :
  Column.size tbl col = Ok nrows ->
  (forall i, (i < nrows)%nat -> absent i -> P (absent_event is_update col i)) ->
  fill_bool_iter ldr array tbl col name np_dtype type cidx is_update = Ok tbl' ->
  exists evs, evolves T P evs tbl tbl' /\
    forall i, (i < nrows)%nat -> absent i -> In (absent_event is_update col i) evs.
Proof. unfold fill_bool_iter. marshal_loop fill_bool_row_spec. Qed.

Lemma fill_date_iter_spec (array : t_buffer) (tbl : t_data_table) (name : string)
      (np_dtype : t_dtype) (nrows : nat) (tbl' : t_data_table) :
  Column.size tbl col = Ok nrows ->
  (forall i, (i < nrows)%nat -> absent i -> P (absent_event is_update col i)) ->
  fill_date_iter ldr array tbl col name np_dtype type cidx is_update = Ok tbl' ->
  exists evs, evolves T P evs tbl tbl' /\
    forall i, (i < nrows)%nat -> absent i -> In (absent_event is_update col i) evs.
Proof. unfold fill_date_iter. marshal_loop fill_date_row_spec. Qed.

End MarshalLoops.

(** ** Typed views of a buffer *)

Lemma load_Ok (ptr : t_buffer) (w off : nat) (z : Z) :
  load ptr w off = Ok z -> z = peek ptr w off /\ (off + w <= length ptr)%nat.
Proof.
  unfold load. destruct (off + w <=? length ptr)%nat eqn:H; [|discriminate].
  intros [= <-]. split; [reflexivity|]. apply Nat.leb_le, H.
Qed.

Lemma load_in_bounds (ptr : t_buffer) (w off : nat) :
  (off + w <= length ptr)%nat -> load ptr w off = Ok (peek ptr w off).
Proof. intros H. unfold load. apply Nat.leb_le in H. rewrite H. reflexivity. Qed.

Lemma read_double_Ok (ptr : t_buffer) (i : nat) (x : spec_float) :
  read_double ptr i = Ok x -> x = double_at ptr i /\ (i * 8 + 8 <= length ptr)%nat.
Proof.
  unfold read_double. intros H. inv_bind. apply load_Ok in Ha as [-> Hb].
  split; [symmetry; exact H | exact Hb].
Qed.

Lemma read_double_in_bounds (ptr : t_buffer) (i : nat) :
  (i * 8 + 8 <= length ptr)%nat -> read_double ptr i = Ok (double_at ptr i).
Proof. intros H. unfold read_double. rewrite load_in_bounds by exact H. reflexivity. Qed.

Lemma read_int_Ok (w : nat) (ptr : t_buffer) (i : nat) (z : Z) :
  read_int w ptr i = Ok z -> z = int_at w ptr i /\ (i * w + w <= length ptr)%nat.
Proof.
  unfold read_int. intros H. inv_bind. apply load_Ok in Ha as [-> Hb].
  split; [symmetry; exact H | exact Hb].
Qed.

Lemma read_int_in_bounds (w : nat) (ptr : t_buffer) (i : nat) :
  (i * w + w <= length ptr)%nat -> read_int w ptr i = Ok (int_at w ptr i).
Proof. intros H. unfold read_int. rewrite load_in_bounds by exact H. reflexivity. Qed.

(** ** The numeric fill *)

Section NumericLoop.

Context (ldr : NumpyLoader) (ptr : t_buffer) (name : string) (np_dtype : t_dtype)
        (cidx : nat) (is_update : bool) (T : string -> Prop) (P : t_event -> Prop).
Hypothesis HTname : T name.
Hypothesis Hset : forall c i v, P (EV_SET_NTH c i v).

Let nan_at (i : nat) : Prop := npy_isnan (double_at ptr i) = true.

Lemma fill_numeric_row_spec (i : nat) (tbl : t_data_table) (col : string)
      (type : t_dtype) (fl : t_flow t_numeric_state) :
  T col ->
  (type = DTYPE_INT32 -> P (EV_PROMOTE_COLUMN name DTYPE_FLOAT64 i true)) ->
  (nan_at i -> P (absent_event is_update col i)) ->
  fill_numeric_row ldr ptr name np_dtype cidx is_update i (tbl, col, type) = Ok fl ->
  exists tbl' col' type' evs,
    fl = Continue (tbl', col', type') /\ T col' /\
    (type' = type \/ (type = DTYPE_INT32 /\ type' = DTYPE_FLOAT64)) /\
    evolves T P evs tbl tbl' /\
    (nan_at i -> In (absent_event is_update col i) evs).
Proof.
  intros HT Hprom Habs Hrow. unfold fill_numeric_row in Hrow.
  apply bind_Ok in Hrow as (x & Hx & Hrow).
  pose proof (read_double_Ok _ _ _ Hx) as [-> _]. unfold nan_at in *.
  destruct (npy_isnan (double_at ptr i)) eqn:Hnan.
  - inv_bind. subst. eexists _, _, _, _. split; [reflexivity|].
    split; [exact HT|]. split; [left; reflexivity|]. split.
    + eapply mark_absent_evolves; [exact HT | apply Habs; reflexivity | eassumption].
    + intros _. left. reflexivity.
  - destruct type; cbv beta iota in Hrow.
    all: try (injection Hrow as <-; eexists _, _, _, _; split; [reflexivity|];
              split; [exact HT|]; split; [left; reflexivity|];
              split; [apply evolves_refl | discriminate]).
    all: try (rewrite Hx in Hrow; unfold bind at 1 in Hrow).
    all: repeat match goal with
           | H : context [bind (read_int ?w ?p ?j) _] |- _ =>
               destruct (read_int w p j) eqn:?; unfold bind at 1 in H;
               [|discriminate H]
           | H : (if ?b then _ else _) = Ok _ |- _ => destruct b eqn:?
           end.
    all: inv_bind; subst.
    all: try match goal with
           | H : npy_isnan_int _ = true |- _ =>
               rewrite npy_isnan_int_false in H; discriminate H
           end.
    all: try congruence.
    all: try (eexists _, _, _, _; split; [reflexivity|];
              split; [exact HT|]; split; [left; reflexivity|];
              split; [eapply set_nth_evolves; [exact HT | apply Hset | eassumption]
                     | discriminate]).
    (* the promotion of a 32-bit integer column *)
    unfold Table.get_column in *.
    destruct (tbl_columns a !! name); [|discriminate]. inv_bind. subst.
    eexists _, _, _, _. split; [reflexivity|].
    split; [exact HTname|]. split; [right; split; reflexivity|].
    split; [|discriminate].
    eapply evolves_trans.
    + eapply promote_column_evolves; [exact HTname | apply Hprom; reflexivity | eassumption].
    + eapply set_nth_evolves; [exact HTname | apply Hset | eassumption].
Qed.

Lemma fill_numeric_iter_spec (tbl : t_data_table) (col : string) (type : t_dtype)
      (nrows : nat) (tbl' : t_data_table) :
  T col ->
  (type = DTYPE_INT32 -> forall i, P (EV_PROMOTE_COLUMN name DTYPE_FLOAT64 i true)) ->
  (forall i h, (i < nrows)%nat -> nan_at i -> P (absent_event is_update h i)) ->
  Column.size tbl col = Ok nrows ->
  fill_numeric_iter ldr ptr tbl col name np_dtype type cidx is_update = Ok tbl' ->
  exists evs, evolves T P evs tbl tbl' /\
    forall i, (i < nrows)%nat -> nan_at i ->
              exists h, In (absent_event is_update h i) evs.
Proof.
  intros HT Hprom Habs Hsize Hrun. unfold fill_numeric_iter in Hrun. inv_bind.
  rewrite Hsize in Ha0. injection Ha0 as <-. subst tbl'.
  pose (J := fun s : t_numeric_state =>
               T (snd (fst s)) /\
               (snd s = type \/ (type = DTYPE_INT32 /\ snd s = DTYPE_FLOAT64))).
  apply (row_loop_evolves (fun s : t_numeric_state => fst (fst s)) J _ T P nan_at
           (fun i ev => exists h, ev = absent_event is_update h i) _) in Ha1.
  - destruct Ha1 as (_ & evs & Hev & Hlog). exists evs. split; [exact Hev|].
    intros i Hi Hn. destruct (Hlog i Hi Hn) as (ev & (h & ->) & Hin). eauto.
  - intros i [[t c] ty] fl Hi [HTc Hty] Hb. simpl in HTc, Hty.
    apply fill_numeric_row_spec in Hb
      as (t' & c' & ty' & evs & -> & HTc' & Hty' & Hev & Hlog).
    + exists (t', c', ty'), evs. split; [reflexivity|]. split.
      * split; [exact HTc'|]. simpl.
        destruct Hty as [->|[-> ->]], Hty' as [->|[E ->]]; auto; discriminate.
      * split; [exact Hev|]. intros Hn. eexists. split; [eexists; reflexivity|].
        apply Hlog, Hn.
    + exact HTc.
    + intros ->. apply Hprom. destruct Hty as [<-|[_ E]]; [reflexivity|discriminate].
    + intros Hn. apply Habs; [exact Hi | exact Hn].
  - split; [exact HT | left; reflexivity].
Qed.

End NumericLoop.

(** ** The datetime fill *)

Lemma fill_datetime_iter_spec (T : string -> Prop) (P : t_event -> Prop)
      (ldr : NumpyLoader) (array : t_buffer) (tbl : t_data_table) (col name : string)
      (np_dtype type : t_dtype) (cidx : nat) (is_update : bool) (tbl' : t_data_table) :
  T col -> (forall i v, P (EV_SET_NTH col i v)) ->
  fill_datetime_iter ldr array tbl col name np_dtype type cidx is_update = Ok tbl' ->
  exists evs, evolves T P evs tbl tbl'.
Proof.
  intros HT Hset Hrun. unfold fill_datetime_iter in Hrun. inv_bind.
  apply (row_loop_evolves (fun t => t) (fun _ => True) _ T P (fun _ => False)
           (fun _ _ => True) _) in Hrun.
  - destruct Hrun as (_ & evs & Hev & _). eauto.
  - intros i s fl _ _ Hb. unfold fill_datetime_row in Hb. inv_bind.
    rewrite npy_isnan_int_false in Hb. inv_bind. subst.
    eexists _, _. split; [reflexivity|]. split; [exact Logic.I|]. split; [|tauto].
    eapply set_nth_evolves; [exact HT | apply Hset | eassumption].
  - exact Logic.I.
Qed.

(** ** The bulk copy and the mask *)

Lemma apply_mask_spec (T : string -> Prop) (P : t_event -> Prop) (is_update : bool)
      (col : string) (mask : list nat) (tbl tbl' : t_data_table) :
  T col -> (forall idx, In idx mask -> P (absent_event is_update col idx)) ->
  apply_mask is_update mask tbl col = Ok tbl' ->
  exists evs, evolves T P evs tbl tbl' /\
    forall idx, In idx mask -> In (absent_event is_update col idx) evs.
Proof.
  intros HT. revert tbl.
  induction mask as [|idx rest IH]; intros tbl HP Hrun; simpl in Hrun.
  - injection Hrun as <-. exists []. split; [apply evolves_refl | intros ? []].
  - inv_bind.
    apply mark_absent_evolves with (T := T) (P := P) in Ha;
      [ | exact HT | apply HP; left; reflexivity].
    destruct (IH a) as (evs & Hev & Hlog); [intros; apply HP; right; assumption | exact Hrun |].
    exists (evs ++ [absent_event is_update col idx]). split.
    + eapply evolves_trans; eassumption.
    + intros j [<-|Hj]; apply in_or_app; [right; left; reflexivity | left; auto].
Qed.

(** The element type [copy_array] copies at, for each numeric tag. *)
Lemma copy_array_Ok (ldr : NumpyLoader) (src : t_buffer) (tbl : t_data_table)
      (dest : string) (np_dtype : t_dtype) (offset : nat)
      (st : t_fill_status) (tbl' : t_data_table) :
  copy_array ldr src tbl dest np_dtype offset = Ok (st, tbl') ->
  (is_fixed_width_numeric np_dtype = false /\ st = FILL_FAIL /\ tbl' = tbl) \/
  (is_fixed_width_numeric np_dtype = true /\ st = FILL_SUCCEED /\
   exists E, copy_array_helper E src tbl dest offset = Ok tbl').
Proof.
  unfold copy_array. intros H. inv_bind.
  destruct np_dtype; simpl in H; inv_bind; subst;
    first [ left; repeat split; reflexivity
          | right; split; [reflexivity|]; split; [reflexivity|]; eauto ].
Qed.

Lemma copy_array_helper_evolves (T : string -> Prop) (P : t_event -> Prop)
      (E : t_elem) (src : t_buffer) (tbl : t_data_table) (dest : string)
      (offset : nat) (tbl' : t_data_table) :
  T dest -> P (EV_MEMCPY dest E offset) ->
  copy_array_helper E src tbl dest offset = Ok tbl' ->
  evolves T P [EV_MEMCPY dest E offset] tbl tbl'.
Proof.
  intros HT HP H. unfold copy_array_helper in H. inv_bind.
  eapply memcpy_evolves; eassumption.
Qed.

(** ** The fill dispatcher *)

Lemma assert_init_Ok (ldr : NumpyLoader) (u : unit) :
  assert_init ldr = Ok u -> m_init ldr = true.
Proof. unfold assert_init. destruct (m_init ldr); [reflexivity | discriminate]. Qed.

Lemma fill_column_iter_spec (T : string -> Prop) (P : t_event -> Prop)
      (ldr : NumpyLoader) (array : t_buffer) (tbl : t_data_table) (col name : string)
      (np_dtype type : t_dtype) (cidx : nat) (is_update : bool) (nrows : nat)
      (tbl' : t_data_table) :
  T col -> T name ->
  (forall c i v, P (EV_SET_NTH c i v)) ->
  (type = DTYPE_INT32 -> forall i, P (EV_PROMOTE_COLUMN name DTYPE_FLOAT64 i true)) ->
  (forall i h, (i < nrows)%nat -> iter_absent ldr array type cidx i ->
               P (absent_event is_update h i)) ->
  Column.size tbl col = Ok nrows ->
  fill_column_iter ldr array tbl col name np_dtype type cidx is_update = Ok tbl' ->
  exists evs, evolves T P evs tbl tbl' /\
    forall i, (i < nrows)%nat -> iter_absent ldr array type cidx i ->
              exists h, In (absent_event is_update h i) evs.
Proof.
  intros HT HTn Hset Hprom Habs Hsize Hrun. unfold fill_column_iter in Hrun.
  apply bind_Ok in Hrun as (u & _ & Hrun).
  assert (Hnum :
    fill_numeric_iter ldr array tbl col name np_dtype type cidx is_update = Ok tbl' ->
    (forall i, iter_absent ldr array type cidx i -> npy_isnan (double_at array i) = true) ->
    (forall i, npy_isnan (double_at array i) = true -> iter_absent ldr array type cidx i) ->
    exists evs, evolves T P evs tbl tbl' /\
      forall i, (i < nrows)%nat -> iter_absent ldr array type cidx i ->
                exists h, In (absent_event is_update h i) evs).
  { intros Hn H1 H2.
    eapply fill_numeric_iter_spec with (T := T) (P := P) in Hn;
      [ | exact HTn | exact Hset | exact HT | exact Hprom | | exact Hsize].
    - destruct Hn as (evs & Hev & Hlog). exists evs. split; [exact Hev|].
      intros i Hi Ha. apply Hlog; [exact Hi | apply H1, Ha].
    - intros i h Hi Hn'. apply Habs; [exact Hi | apply H2, Hn']. }
  destruct type; try (apply Hnum; [exact Hrun | intros i Hi; exact Hi | intros i Hi; exact Hi]).
  - (* DTYPE_BOOL *)
    eapply fill_bool_iter_spec with (T := T) (P := P) in Hrun;
      [ | exact HT | intros; apply Hset | exact Hsize | intros i Hi Ha; apply Habs; assumption].
    destruct Hrun as (evs & Hev & Hlog). exists evs. split; [exact Hev|].
    intros i Hi Ha. eexists. apply Hlog; assumption.
  - (* DTYPE_TIME *)
    eapply fill_datetime_iter_spec with (T := T) (P := P) in Hrun;
      [ | exact HT | intros; apply Hset].
    destruct Hrun as (evs & Hev). exists evs. split; [exact Hev|]. intros i _ [].
  - (* DTYPE_DATE *)
    eapply fill_date_iter_spec with (T := T) (P := P) in Hrun;
      [ | exact HT | intros; apply Hset | exact Hsize | intros i Hi Ha; apply Habs; assumption].
    destruct Hrun as (evs & Hev & Hlog). exists evs. split; [exact Hev|].
    intros i Hi Ha. eexists. apply Hlog; assumption.
  - (* DTYPE_STR *)
    eapply fill_string_iter_spec with (T := T) (P := P) in Hrun;
      [ | exact HT | intros; apply Hset | exact Hsize | intros i Hi Ha; apply Habs; assumption].
    destruct Hrun as (evs & Hev & Hlog). exists evs. split; [exact Hev|].
    intros i Hi Ha. eexists. apply Hlog; assumption.
Qed.

(** What a successful [fill_column] has done. *)
Lemma fill_column_Ok (ldr : NumpyLoader) (tbl : t_data_table) (col name : string)
      (type : t_dtype) (cidx : nat) (is_update : bool) (tbl' : t_data_table) :
  fill_column ldr tbl col name type cidx is_update = Ok tbl' ->
  exists np_dtype array,
    m_init ldr = true /\
    np_dtype_of ldr name = Some np_dtype /\
    array_ensure (fst (acc_get_numpy_column (m_accessor ldr) name type)) = Some array /\
    ((fill_path np_dtype type = PATH_ITER /\
      fill_column_iter ldr array tbl col name np_dtype type cidx is_update = Ok tbl') \/
     (fill_path np_dtype type = PATH_BULK /\
      exists E t1 t2,
        copy_array_helper E array tbl col 0 = Ok t1 /\
        Column.valid_raw_fill t1 col = Ok t2 /\
        apply_mask is_update
                   (snd (acc_get_numpy_column (m_accessor ldr) name type)) t2 col
        = Ok tbl')).
Proof.
  unfold fill_column, np_dtype_of, fill_path. intros H.
  apply bind_Ok in H as (u & Hinit%assert_init_Ok & H).
  destruct (find_name name (m_names ldr)) as [nidx|]; [|discriminate].
  destruct (array_ensure _) as [array|]; [|discriminate].
  destruct (m_types ldr !! nidx) as [np_dtype|]; [|discriminate].
  exists np_dtype, array. repeat (split; [reflexivity || assumption|]).
  destruct (width_mismatch np_dtype type); [left; split; [reflexivity | exact H]|].
  apply bind_Ok in H as ([st t1] & Hcopy & H).
  apply copy_array_Ok in Hcopy as [(-> & -> & ->)|(-> & -> & E & Hcopy)].
  - left. split; [reflexivity | exact H].
  - right. split; [reflexivity|]. inv_bind. eauto 8.
Qed.

Lemma fill_column_iter_size (ldr : NumpyLoader) (array : t_buffer) (tbl : t_data_table)
      (col name : string) (np_dtype type : t_dtype) (cidx : nat) (is_update : bool)
      (tbl' : t_data_table) :
  fill_column_iter ldr array tbl col name np_dtype type cidx is_update = Ok tbl' ->
  exists nrows, Column.size tbl col = Ok nrows.
Proof.
  unfold fill_column_iter, fill_datetime_iter, fill_date_iter, fill_bool_iter,
    fill_string_iter, fill_numeric_iter.
  intros H. destruct type; inv_bind; eauto.
Qed.

Lemma absent_event_cases (is_update : bool) (h : string) (i : nat) (P : t_event -> Prop) :
  (is_update = true -> P (EV_UNSET h i)) ->
  (is_update = false -> P (EV_CLEAR h i)) ->
  P (absent_event is_update h i).
Proof. destruct is_update; simpl; auto. Qed.

(** The absent markings of a [fill_column] call: [unset] on update, [clear]
    on load, at the rows marked absent and at no other row. *)
Lemma fill_column_absent_events (ldr : NumpyLoader) (tbl : t_data_table)
        (col name : string) (type : t_dtype) (cidx : nat) (is_update : bool)
        (tbl' : t_data_table) :
  fill_column ldr tbl col name type cidx is_update = Ok tbl' ->
  exists evs,
    tbl_history tbl' = evs ++ tbl_history tbl /\
    (forall h i, In (EV_UNSET h i) evs ->
                 is_update = true /\ row_marked_absent ldr tbl col name type cidx i) /\
    (forall h i, In (EV_CLEAR h i) evs ->
                 is_update = false /\ row_marked_absent ldr tbl col name type cidx i) /\
    (forall i, row_marked_absent ldr tbl col name type cidx i ->
               exists h, In (absent_event is_update h i) evs).
Proof.
  intros Hfill.
  pose (RMA := row_marked_absent ldr tbl col name type cidx).
  pose (P := fun ev : t_event =>
               match ev with
               | EV_UNSET _ i => is_update = true /\ RMA i
               | EV_CLEAR _ i => is_update = false /\ RMA i
               | _ => True
               end).
  pose (T := fun n : string => n = col \/ n = name).
  assert (HP : forall h i, RMA i -> P (absent_event is_update h i)).
  { intros h i Hi. apply absent_event_cases; intros ->; simpl; auto. }
  assert (Hgoal : exists evs, evolves T P evs tbl tbl' /\
                    forall i, RMA i -> exists h, In (absent_event is_update h i) evs).
  { apply fill_column_Ok in Hfill
      as (np & array & Hinit & Hnp & Harr & [[Hpath Hiter]|[Hpath Hbulk]]).
    - destruct (fill_column_iter_size _ _ _ _ _ _ _ _ _ _ Hiter) as (nrows & Hsize).
      assert (HR : forall i, RMA i <-> (i < nrows)%nat /\ iter_absent ldr array type cidx i).
      { intros i. unfold RMA, row_marked_absent.
        rewrite Hnp, Harr, Hsize, Hpath. reflexivity. }
      eapply fill_column_iter_spec with (T := T) (P := P) in Hiter;
        [ | left; reflexivity | right; reflexivity | intros; exact Logic.I
          | intros; exact Logic.I | | exact Hsize].
      + destruct Hiter as (evs & Hev & Hlog). exists evs. split; [exact Hev|].
        intros i Hi. apply HR in Hi as [Hi Ha]. apply Hlog; assumption.
      + intros i h Hi Ha. apply HP, HR. split; assumption.
    - destruct Hbulk as (E & t1 & t2 & Hcopy & Hvalid & Hmask).
      assert (Hsize : exists n, Column.size tbl col = Ok n).
      { unfold copy_array_helper in Hcopy. inv_bind. eauto. }
      destruct Hsize as (n & Hsize).
      assert (HR : forall i, RMA i <->
                             In i (snd (acc_get_numpy_column (m_accessor ldr) name type))).
      { intros i. unfold RMA, row_marked_absent.
        rewrite Hnp, Harr, Hsize, Hpath. reflexivity. }
      apply copy_array_helper_evolves with (T := T) (P := P) in Hcopy;
        [ | left; reflexivity | exact Logic.I].
      apply valid_raw_fill_evolves with (T := T) (P := P) in Hvalid;
        [ | left; reflexivity | exact Logic.I].
      apply apply_mask_spec with (T := T) (P := P) in Hmask;
        [ | left; reflexivity | intros idx Hidx; apply HP, HR, Hidx].
      destruct Hmask as (evs & Hev & Hlog).
      eexists. split.
      + eapply evolves_trans; [eapply evolves_trans; eassumption | exact Hev].
      + intros i Hi. exists col. apply in_or_app. left. apply Hlog, HR, Hi. }
  destruct Hgoal as (evs & [_ Hhist Hall _ _] & Hlog).
  exists evs. split; [exact Hhist|].
  rewrite Forall_forall in Hall.
  repeat split.
  - apply (Hall (EV_UNSET h i)). apply list_elem_of_In. assumption.
  - apply (Hall (EV_UNSET h i)). apply list_elem_of_In. assumption.
  - apply (Hall (EV_CLEAR h i)). apply list_elem_of_In. assumption.
  - apply (Hall (EV_CLEAR h i)). apply list_elem_of_In. assumption.
  - exact Hlog.
Qed.

(** ** Filling a table *)

Lemma fill_column_evolves (ldr : NumpyLoader) (tbl : t_data_table) (col name : string)
      (type : t_dtype) (cidx : nat) (is_update : bool) (tbl' : t_data_table) :
  fill_column ldr tbl col name type cidx is_update = Ok tbl' ->
  exists evs, evolves (fun n => n = col \/ n = name) (fun _ => True) evs tbl tbl'.
Proof.
  intros Hfill.
  pose (T := fun n : string => n = col \/ n = name).
  apply fill_column_Ok in Hfill
    as (np & array & Hinit & Hnp & Harr & [[Hpath Hiter]|[Hpath Hbulk]]).
  - destruct (fill_column_iter_size _ _ _ _ _ _ _ _ _ _ Hiter) as (nrows & Hsize).
    eapply fill_column_iter_spec with (T := T) (P := fun _ => True) in Hiter;
      [ | left; reflexivity | right; reflexivity | intros; exact Logic.I
        | intros; exact Logic.I | intros; exact Logic.I | exact Hsize].
    destruct Hiter as (evs & Hev & _). eauto.
  - destruct Hbulk as (E & t1 & t2 & Hcopy & Hvalid & Hmask).
    apply copy_array_helper_evolves with (T := T) (P := fun _ => True) in Hcopy;
      [ | left; reflexivity | exact Logic.I].
    apply valid_raw_fill_evolves with (T := T) (P := fun _ => True) in Hvalid;
      [ | left; reflexivity | exact Logic.I].
    apply apply_mask_spec with (T := T) (P := fun _ => True) in Hmask;
      [ | left; reflexivity | intros; exact Logic.I].
    destruct Hmask as (evs & Hev & _).
    eexists. eapply evolves_trans; [eapply evolves_trans; eassumption | exact Hev].
Qed.

Lemma add_column_spec (tbl : t_data_table) (name : string) (ty : t_dtype)
      (status_enabled : bool) (tbl' : t_data_table) (h : string) :
  Table.add_column tbl name ty status_enabled = (tbl', h) ->
  h = name /\ tbl_size tbl' = tbl_size tbl /\
  (table_wf tbl -> table_wf tbl') /\
  (exists c, tbl_columns tbl' !! name = Some c) /\
  (forall n, n <> name -> tbl_columns tbl' !! n = tbl_columns tbl !! n) /\
  (forall c, tbl_columns tbl !! name = Some c -> tbl' = tbl).
Proof.
  unfold Table.add_column.
  destruct (tbl_columns tbl !! name) as [c|] eqn:Hc; intros [= <- <-].
  - repeat split; eauto.
  - simpl. repeat split.
    + intros Hwf n c. simpl. destruct (decide (name = n)) as [->|Hn].
      * rewrite lookup_insert_eq. intros [= <-]. simpl. apply length_replicate.
      * rewrite lookup_insert_ne by exact Hn. apply Hwf.
    + rewrite lookup_insert_eq. eauto.
    + intros n Hn. apply lookup_insert_ne. congruence.
    + discriminate.
Qed.

Lemma clone_column_spec (tbl : t_data_table) (src dst : string) (tbl' : t_data_table) :
  Table.clone_column tbl src dst = Ok tbl' ->
  exists c, tbl_columns tbl !! src = Some c /\
            tbl_size tbl' = tbl_size tbl /\
            tbl_columns tbl' = <[dst := c]> (tbl_columns tbl).
Proof.
  unfold Table.clone_column. destruct (tbl_columns tbl !! src) as [c|]; [|discriminate].
  intros [= <-]. eauto.
Qed.

Lemma clone_column_wf (tbl : t_data_table) (src dst : string) (tbl' : t_data_table) :
  Table.clone_column tbl src dst = Ok tbl' -> table_wf tbl -> table_wf tbl'.
Proof.
  intros (c & Hc & Hs & Hcols)%clone_column_spec Hwf n c'.
  rewrite Hcols, Hs. destruct (decide (dst = n)) as [->|Hn].
  - rewrite lookup_insert_eq. intros [= <-]. eapply Hwf, Hc.
  - rewrite lookup_insert_ne by exact Hn. apply Hwf.
Qed.

Lemma get_column_Ok (tbl : t_data_table) (name h : string) :
  Table.get_column tbl name = Ok h -> h = name.
Proof.
  unfold Table.get_column. destruct (tbl_columns tbl !! name); [|discriminate].
  intros [= <-]. reflexivity.
Qed.

Lemma reserved_names_distinct :
  PSP_PKEY <> PSP_OKEY /\ INDEX_SENTINEL <> PSP_PKEY /\ INDEX_SENTINEL <> PSP_OKEY.
Proof. repeat split; discriminate. Qed.

(** The schema loop keeps the table well formed, and sets [implicit_index]
    only at a sentinel column. *)
Lemma fill_schema_columns_wf (ldr : NumpyLoader) (cols : list (string * t_dtype))
      (cidx : nat) (is_update : bool) (tbl : t_data_table) (b : bool)
      (tbl' : t_data_table) (b' : bool) :
  fill_schema_columns ldr cols cidx is_update tbl b = Ok (tbl', b') ->
  tbl_size tbl' = tbl_size tbl /\
  (table_wf tbl -> table_wf tbl') /\
  ((forall name ty, In (name, ty) cols -> name <> INDEX_SENTINEL) -> b' = b).
Proof.
  revert cidx tbl b. induction cols as [|[name ty] rest IH]; intros cidx tbl b H.
  - simpl in H. injection H as <- <-. auto.
  - simpl in H. destruct (String.eqb name INDEX_SENTINEL) eqn:Hs.
    + destruct (Table.add_column tbl PSP_PKEY ty true) as [t1 h] eqn:Hadd.
      apply add_column_spec in Hadd as (-> & Hs1 & Hwf1 & _).
      inv_bind.
      apply fill_column_evolves in Ha as (evs & Hev).
      pose proof (clone_column_spec _ _ _ _ Ha0) as (c & _ & Hs3 & _).
      apply IH in H as (Hs4 & Hwf4 & _).
      split; [pose proof (ev_size _ _ _ _ _ Hev); congruence|].
      split.
      * intros Hwf. apply Hwf4. eapply clone_column_wf; [exact Ha0|].
        eapply evolves_wf; [exact Hev | auto].
      * intros Hno. exfalso. apply (Hno name ty); [left; reflexivity|].
        apply String.eqb_eq, Hs.
    + inv_bind.
      apply fill_column_evolves in Ha0 as (evs & Hev).
      apply IH in H as (Hs4 & Hwf4 & Hb).
      split; [pose proof (ev_size _ _ _ _ _ Hev); congruence|].
      split.
      * intros Hwf. apply Hwf4. eapply evolves_wf; [exact Hev | auto].
      * intros Hno. apply Hb. intros n t Hin. apply (Hno n t). right. exact Hin.
Qed.

Section RowNumberIndex.

Context (pk ok : string) (offset limit : Z).
Hypothesis Hdistinct : pk <> ok.

Let index_cell (row : nat) : t_cell :=
  mk_cell STATUS_VALID (row_number_index offset limit row).

Lemma fill_index_row_Ok (ridx : nat) (tbl : t_data_table) (fl : t_flow t_data_table) :
  fill_index_row pk ok offset limit ridx tbl = Ok fl ->
  exists tbl',
    fl = Continue tbl' /\ limit <> 0 /\
    cell_at tbl' pk ridx = Some (index_cell ridx) /\
    cell_at tbl' ok ridx = Some (index_cell ridx) /\
    (forall n j, j <> ridx -> cell_at tbl' n j = cell_at tbl n j) /\
    (forall n, col_len tbl' n = col_len tbl n).
Proof.
  unfold fill_index_row, umod. intros H.
  destruct (limit =? 0) eqn:Hl; [discriminate|]. apply Z.eqb_neq in Hl.
  simpl in H. inv_bind. subst.
  match goal with
  | H1 : Column.set_nth tbl pk _ _ = Ok ?t1, H2 : Column.set_nth ?t1 ok _ _ = Ok ?t2 |- _ =>
      pose proof (set_nth_cell_at _ _ _ _ _ H1) as [Hc1 Ho1];
      pose proof (set_nth_cell_at _ _ _ _ _ H2) as [Hc2 Ho2];
      pose proof (set_nth_evolves (fun _ => True) (fun _ => True) _ _ _ _ _
                    Logic.I Logic.I H1) as E1;
      pose proof (set_nth_evolves (fun _ => True) (fun _ => True) _ _ _ _ _
                    Logic.I Logic.I H2) as E2;
      exists t2
  end.
  split; [reflexivity|]. split; [exact Hl|]. split; [|split; [|split]].
  - rewrite Ho2 by (left; exact Hdistinct). exact Hc1.
  - exact Hc2.
  - intros n j Hj. rewrite Ho2, Ho1 by (right; exact Hj). reflexivity.
  - intros n. rewrite (ev_len _ _ _ _ _ E2), (ev_len _ _ _ _ _ E1). reflexivity.
Qed.

Lemma fill_index_row_total (ridx n : nat) (tbl : t_data_table) :
  limit <> 0 -> col_len tbl pk = Some n -> col_len tbl ok = Some n ->
  (ridx < n)%nat ->
  exists fl, fill_index_row pk ok offset limit ridx tbl = Ok fl.
Proof.
  intros Hl Hpk Hok Hi. unfold fill_index_row, umod.
  apply Z.eqb_neq in Hl. rewrite Hl. simpl.
  destruct (set_nth_in_range tbl pk ridx n
              (SC_INT C_INT32
                 (wrap_signed 32 (wrap_unsigned 32 (Z.of_nat ridx + offset) mod limit)))
              Hpk Hi) as (t1 & H1).
  rewrite H1. simpl.
  pose proof (set_nth_evolves (fun _ => True) (fun _ => True) _ _ _ _ _
                Logic.I Logic.I H1) as E1.
  destruct (set_nth_in_range t1 ok ridx n
              (SC_INT C_INT32
                 (wrap_signed 32 (wrap_unsigned 32 (Z.of_nat ridx + offset) mod limit))))
    as (t2 & H2); [rewrite (ev_len _ _ _ _ _ E1); exact Hok | exact Hi |].
  rewrite H2. simpl. eauto.
Qed.

(** The loop, when it returns: every row holds the generated value in both
    columns. *)
Lemma fill_index_rows_Ok (n : nat) (tbl tbl' : t_data_table) :
  for_range (fill_index_row pk ok offset limit) 0 n tbl = Ok tbl' ->
  (forall row, (row < n)%nat ->
               cell_at tbl' pk row = Some (index_cell row) /\
               cell_at tbl' ok row = Some (index_cell row)) /\
  (forall c, col_len tbl' c = col_len tbl c) /\
  (forall c j, (n <= j)%nat -> cell_at tbl' c j = cell_at tbl c j) /\
  tbl_size tbl' = tbl_size tbl.
Proof.
  pose (I := fun (i : nat) (s : t_data_table) =>
               (forall row, (row < i)%nat ->
                            cell_at s pk row = Some (index_cell row) /\
                            cell_at s ok row = Some (index_cell row)) /\
               (forall c, col_len s c = col_len tbl c) /\
               (forall c j, (i <= j)%nat -> cell_at s c j = cell_at tbl c j) /\
               tbl_size s = tbl_size tbl).
  intros Hrun.
  apply (for_range_inv (fill_index_row pk ok offset limit) I (I n) n)
    with (n := n) (i := O) (s := tbl); [ | | auto | lia | | exact Hrun].
  - intros i s s' Hi (Hrows & Hlen & Hrest & Hsz) Hb.
    pose proof Hb as Hb'.
    apply fill_index_row_Ok in Hb as (t & [= <-] & _ & Hp & Ho & Hother & Hl).
    repeat split.
    + destruct (decide (row = i)) as [->|Hne]; [exact Hp|].
      rewrite Hother by exact Hne. apply Hrows. lia.
    + destruct (decide (row = i)) as [->|Hne]; [exact Ho|].
      rewrite Hother by exact Hne. apply Hrows. lia.
    + intros c. rewrite Hl. apply Hlen.
    + intros c j Hj. rewrite Hother by lia. apply Hrest. lia.
    + unfold fill_index_row in Hb'. inv_bind. subst.
      repeat match goal with
             | H : Column.set_nth _ _ _ _ = Ok _ |- _ =>
                 apply (set_nth_evolves (fun _ => True) (fun _ => True)) in H;
                 [apply ev_size in H | exact Logic.I | exact Logic.I]
             end.
      congruence.
  - intros i s s' Hi _ Hb.
    apply fill_index_row_Ok in Hb as (t & [=] & _).
  - repeat split; intros; try reflexivity; lia.
Qed.

Lemma fill_index_rows_total (n : nat) (tbl : t_data_table) :
  limit <> 0 \/ n = O ->
  col_len tbl pk = Some n -> col_len tbl ok = Some n ->
  exists tbl', for_range (fill_index_row pk ok offset limit) 0 n tbl = Ok tbl'.
Proof.
  intros [Hl | ->] Hpk Hok; [|simpl; eauto].
  pose (I := fun (i : nat) (s : t_data_table) =>
               col_len s pk = Some n /\ col_len s ok = Some n).
  destruct (for_range_total (fill_index_row pk ok offset limit) I n) with
    (n := n) (i := O) (s := tbl) as (r & Hr & _); [ | lia | split; assumption | eauto].
  intros i s Hi [Hp Ho].
  destruct (fill_index_row_total i n s Hl Hp Ho Hi) as (fl & Hfl).
  pose proof Hfl as Hfl'.
  apply fill_index_row_Ok in Hfl' as (t & -> & _ & _ & _ & _ & Hlen).
  exists t. split; [exact Hfl|]. split; rewrite Hlen; assumption.
Qed.

End RowNumberIndex.

Lemma wf_col_len (tbl : t_data_table) (n : string) (c : t_column) :
  table_wf tbl -> tbl_columns tbl !! n = Some c -> col_len tbl n = Some (tbl_size tbl).
Proof.
  intros Hwf Hc. unfold col_len. rewrite Hc. simpl. f_equal. eapply Hwf, Hc.
Qed.

(** The generated index of a well-formed table. *)
Lemma fill_index_row_numbers (tbl : t_data_table) (offset limit : Z) :
  table_wf tbl ->
  exists t2,
    col_len t2 PSP_PKEY = Some (tbl_size tbl) /\
    col_len t2 PSP_OKEY = Some (tbl_size tbl) /\
    tbl_size t2 = tbl_size tbl /\
    fill_index tbl false "" offset limit
    = for_range (fill_index_row PSP_PKEY PSP_OKEY offset limit) 0 (tbl_size tbl) t2.
Proof.
  intros Hwf. unfold fill_index. simpl negb. cbv iota.
  change (String.eqb "" "") with true. cbv iota.
  destruct (Table.add_column tbl PSP_PKEY DTYPE_INT32 true) as [t1 h1] eqn:H1.
  destruct (Table.add_column t1 PSP_OKEY DTYPE_INT32 true) as [t2 h2] eqn:H2.
  apply add_column_spec in H1 as (-> & Hs1 & Hwf1 & (c1 & Hc1) & _).
  apply add_column_spec in H2 as (-> & Hs2 & Hwf2 & (c2 & Hc2) & Hother & _).
  exists t2. unfold Table.size. rewrite Hs2, Hs1.
  assert (Hwf' : table_wf t2) by auto.
  split; [|split; [|split; reflexivity]].
  - rewrite <- Hs1, <- Hs2.
    destruct reserved_names_distinct as (Hd & _).
    eapply wf_col_len; [exact Hwf'|]. rewrite Hother by exact Hd. exact Hc1.
  - rewrite <- Hs1, <- Hs2. eapply wf_col_len; [exact Hwf' | exact Hc2].
Qed.

Lemma fill_table_unfold (ldr : NumpyLoader) (tbl : t_data_table)
      (schema : list (string * t_dtype)) (index : string) (offset limit : Z)
      (is_update : bool) (tbl1 : t_data_table) (b : bool) :
  m_init ldr = true ->
  fill_schema_columns ldr schema 0 is_update tbl false = Ok (tbl1, b) ->
  fill_table ldr tbl schema index offset limit is_update
  = fill_index tbl1 b index offset limit.
Proof.
  intros Hinit H. unfold fill_table, assert_init. rewrite Hinit. simpl.
  rewrite H. reflexivity.
Qed.

Lemma fill_table_Ok (ldr : NumpyLoader) (tbl : t_data_table)
      (schema : list (string * t_dtype)) (index : string) (offset limit : Z)
      (is_update : bool) (tbl' : t_data_table) :
  fill_table ldr tbl schema index offset limit is_update = Ok tbl' ->
  exists tbl1 b,
    fill_schema_columns ldr schema 0 is_update tbl false = Ok (tbl1, b) /\
    fill_index tbl1 b index offset limit = Ok tbl'.
Proof.
  unfold fill_table. intros H. inv_bind. destruct a0 as [tbl1 b]. eauto.
Qed.

(** Where a sentinel column was filled, the two index columns are one
    column's clone, as long as no later schema column carries their names. *)
Lemma fill_schema_columns_index (ldr : NumpyLoader) (cols : list (string * t_dtype))
      (cidx : nat) (is_update : bool) (tbl : t_data_table) (b : bool)
      (tbl' : t_data_table) (b' : bool) :
  (forall name ty, In (name, ty) cols -> name <> PSP_PKEY /\ name <> PSP_OKEY) ->
  fill_schema_columns ldr cols cidx is_update tbl b = Ok (tbl', b') ->
  (b = true -> exists c, tbl_columns tbl !! PSP_PKEY = Some c /\
                        tbl_columns tbl !! PSP_OKEY = Some c) ->
  (b' = true -> exists c, tbl_columns tbl' !! PSP_PKEY = Some c /\
                         tbl_columns tbl' !! PSP_OKEY = Some c).
Proof.
  destruct reserved_names_distinct as (Hd & _).
  revert cidx tbl b. induction cols as [|[name ty] rest IH]; intros cidx tbl b Hres H Hb.
  - simpl in H. injection H as <- <-. exact Hb.
  - assert (Hrest : forall n t, In (n, t) rest -> n <> PSP_PKEY /\ n <> PSP_OKEY).
    { intros n t Hin. apply (Hres n t). right. exact Hin. }
    simpl in H. destruct (String.eqb name INDEX_SENTINEL) eqn:Hs.
    + destruct (Table.add_column tbl PSP_PKEY ty true) as [t1 h] eqn:Hadd.
      inv_bind.
      apply clone_column_spec in Ha0 as (c & Hc & _ & Hcols).
      eapply IH; [exact Hrest | exact H |].
      intros _. exists c. rewrite Hcols. split.
      * rewrite lookup_insert_ne by congruence. exact Hc.
      * apply lookup_insert_eq.
    + inv_bind. apply get_column_Ok in Ha as ->.
      apply fill_column_evolves in Ha0 as (evs & Hev).
      destruct (Hres name ty) as [Hn1 Hn2]; [left; reflexivity|].
      eapply IH; [exact Hrest | exact H |].
      intros Hbt. destruct (Hb Hbt) as (c & Hp & Ho). exists c.
      rewrite !(ev_frame _ _ _ _ _ Hev) by (intros [E|E]; congruence). auto.
Qed.

Lemma ex_table_wf (n : nat) (cols : list (string * t_dtype)) : table_wf (ex_table n cols).
Proof.
  unfold ex_table.
  assert (H : forall tbl, table_wf tbl -> table_wf (ex_table_of cols tbl)).
  { induction cols as [|[name ty] r IH]; intros tbl Hwf; simpl; [exact Hwf|].
    apply IH.
    destruct (Table.add_column tbl name ty true) as [t h] eqn:E.
    apply add_column_spec in E as (_ & _ & Hw & _). simpl. auto. }
  apply H. intros c x Hc. simpl in Hc. rewrite lookup_empty in Hc. discriminate.
Qed.

(** ** The promotion of a 32-bit integer column *)

Lemma le_to_Z_bound (bs : list byte) : 0 <= le_to_Z bs < 256 ^ Z.of_nat (length bs).
Proof.
  induction bs as [|b r IH]; simpl le_to_Z.
  - simpl. lia.
  - rewrite length_cons, Nat2Z.inj_succ, Z.pow_succ_r by lia.
    assert (Hb : 0 <= Z.of_N (Byte.to_N b) < 256).
    { pose proof (Byte.to_N_bounded b). lia. }
    lia.
Qed.

Lemma peek_bound (ptr : t_buffer) (w off : nat) : 0 <= peek ptr w off < 256 ^ Z.of_nat w.
Proof.
  unfold peek. pose proof (le_to_Z_bound (take w (drop off ptr))) as H.
  assert (Hl : (length (take w (drop off ptr)) <= w)%nat) by (rewrite length_take; lia).
  assert (256 ^ Z.of_nat (length (take w (drop off ptr))) <= 256 ^ Z.of_nat w).
  { apply Z.pow_le_mono_r; lia. }
  lia.
Qed.

Lemma to_signed_32_range (u : Z) :
  0 <= u < 4294967296 -> -2147483648 <= to_signed 32 u < 2147483648.
Proof.
  intros Hu. unfold to_signed.
  change (2 ^ (32 - 1)) with 2147483648. change (2 ^ 32) with 4294967296.
  destruct (u <? 2147483648) eqn:E; [apply Z.ltb_lt in E | apply Z.ltb_ge in E]; lia.
Qed.

Lemma int32_of_source_range (np_dtype : t_dtype) (ptr : t_buffer) (i : nat) :
  -2147483648 <= int32_of_source np_dtype ptr i < 2147483648.
Proof.
  unfold int32_of_source. destruct (bool_decide _).
  - unfold wrap_signed, wrap_unsigned. apply to_signed_32_range.
    change (2 ^ 32) with 4294967296. apply Z.mod_pos_bound. lia.
  - unfold int_at. change (8 * Z.of_nat 4) with 32. apply to_signed_32_range.
    pose proof (peek_bound ptr 4 (i * 4)) as H.
    change (256 ^ Z.of_nat 4) with 4294967296 in H. exact H.
Qed.

Lemma out_of_int32_range_not_nan (x : spec_float) :
  out_of_int32_range x = true -> npy_isnan x = false.
Proof. destruct x; try reflexivity. vm_compute. discriminate. Qed.

Section Int32Rows.

Context (ldr : NumpyLoader) (ptr : t_buffer) (name : string) (np_dtype : t_dtype)
        (cidx : nat) (is_update : bool) (nrows : nat).
Hypothesis Hptr : (nrows * 8 <= length ptr)%nat.

Let row := fill_numeric_row ldr ptr name np_dtype cidx is_update.

Lemma numeric_row_nan (k : nat) (tbl : t_data_table) (col : string) (type : t_dtype) :
  (k < nrows)%nat -> col_len tbl col = Some nrows ->
  npy_isnan (double_at ptr k) = true ->
  exists tbl', row k (tbl, col, type) = Ok (Continue (tbl', col, type)) /\
               mark_absent is_update tbl col k = Ok tbl'.
Proof.
  intros Hk Hlen Hnan. unfold row, fill_numeric_row.
  rewrite read_double_in_bounds by lia. unfold bind at 1. rewrite Hnan.
  destruct (mark_absent_in_range is_update tbl col k nrows Hlen Hk) as (t & Ht).
  rewrite Ht. simpl. eauto.
Qed.

Lemma numeric_row_int32 (k : nat) (tbl : t_data_table) (col : string) :
  (k < nrows)%nat -> col_len tbl col = Some nrows ->
  npy_isnan (double_at ptr k) = false ->
  out_of_int32_range (double_at ptr k) = false ->
  exists tbl',
    row k (tbl, col, DTYPE_INT32) = Ok (Continue (tbl', col, DTYPE_INT32)) /\
    Column.set_nth tbl col k (SC_INT C_INT32 (int32_of_source np_dtype ptr k)) = Ok tbl'.
Proof.
  intros Hk Hlen Hnan Hin. unfold row, fill_numeric_row.
  rewrite read_double_in_bounds by lia. unfold bind at 1. rewrite Hnan.
  unfold bind at 1. unfold out_of_int32_range in Hin. rewrite Hin.
  unfold int32_of_source.
  destruct (bool_decide (np_dtype = DTYPE_INT64)).
  - rewrite read_int_in_bounds by lia. unfold bind at 1.
    destruct (set_nth_in_range tbl col k nrows
                (SC_INT C_INT32 (wrap_signed 32 (int_at 8 ptr k))) Hlen Hk) as (t & Ht).
    rewrite Ht. simpl. eauto.
  - rewrite read_int_in_bounds by lia. unfold bind at 1.
    destruct (set_nth_in_range tbl col k nrows
                (SC_INT C_INT32 (int_at 4 ptr k)) Hlen Hk) as (t & Ht).
    rewrite Ht. simpl. eauto.
Qed.

Lemma numeric_row_promote (k : nat) (tbl : t_data_table) (col : string) :
  (k < nrows)%nat -> col_len tbl name = Some nrows ->
  out_of_int32_range (double_at ptr k) = true ->
  exists t1 tbl',
    row k (tbl, col, DTYPE_INT32) = Ok (Continue (tbl', name, DTYPE_FLOAT64)) /\
    Table.promote_column tbl name DTYPE_FLOAT64 k true = Ok t1 /\
    Column.set_nth t1 name k (SC_FLOAT64 (double_at ptr k)) = Ok tbl'.
Proof.
  intros Hk Hlen Hout. unfold row, fill_numeric_row.
  rewrite read_double_in_bounds by lia. unfold bind at 1.
  rewrite (out_of_int32_range_not_nan _ Hout).
  unfold bind at 1. unfold out_of_int32_range in Hout. rewrite Hout.
  destruct (promote_column_exists tbl name DTYPE_FLOAT64 k true nrows Hlen) as (t1 & H1).
  rewrite H1. unfold bind at 1.
  pose proof (promote_column_evolves (fun _ => True) (fun _ => True) _ _ _ _ _ _
                Logic.I Logic.I H1) as E1.
  assert (Hlen1 : col_len t1 name = Some nrows)
    by (rewrite (ev_len _ _ _ _ _ E1); exact Hlen).
  assert (Hget : Table.get_column t1 name = Ok name).
  { unfold Table.get_column. unfold col_len in Hlen1.
    destruct (tbl_columns t1 !! name); [reflexivity | discriminate]. }
  rewrite Hget. unfold bind at 1.
  destruct (set_nth_in_range t1 name k nrows (SC_FLOAT64 (double_at ptr k)) Hlen1 Hk)
    as (t2 & H2).
  rewrite H2. simpl. eauto.
Qed.

Lemma numeric_row_float64 (k : nat) (tbl : t_data_table) (col : string) :
  (k < nrows)%nat -> col_len tbl col = Some nrows ->
  npy_isnan (double_at ptr k) = false ->
  exists tbl',
    row k (tbl, col, DTYPE_FLOAT64) = Ok (Continue (tbl', col, DTYPE_FLOAT64)) /\
    Column.set_nth tbl col k (SC_FLOAT64 (double_of_source np_dtype ptr k)) = Ok tbl'.
Proof.
  intros Hk Hlen Hnan. unfold row, fill_numeric_row.
  rewrite read_double_in_bounds by lia. unfold bind at 1. rewrite Hnan.
  unfold bind at 1. rewrite read_int_in_bounds by lia. unfold bind at 1.
  rewrite Hnan. unfold double_of_source.
  destruct (bool_decide (np_dtype = DTYPE_INT64)).
  - unfold bind at 1.
    destruct (set_nth_in_range tbl col k nrows
                (SC_FLOAT64 (double_of_Z (int_at 8 ptr k))) Hlen Hk) as (t & Ht).
    rewrite Ht. simpl. eauto.
  - destruct (set_nth_in_range tbl col k nrows
                (SC_FLOAT64 (double_at ptr k)) Hlen Hk) as (t & Ht).
    rewrite Ht. simpl. eauto.
Qed.

End Int32Rows.

Lemma update_cell_effect (tbl : t_data_table) (col : string) (ev : t_event)
      (i : nat) (g : t_cell -> t_cell) (tbl' : t_data_table) :
  update_column tbl col ev (update_cell i g) = Ok tbl' ->
  (exists x, cell_at tbl col i = Some x /\ cell_at tbl' col i = Some (g x)) /\
  (forall n j, n <> col \/ j <> i -> cell_at tbl' n j = cell_at tbl n j) /\
  (forall n, col_len tbl' n = col_len tbl n) /\
  (forall n, col_dtype <$> tbl_columns tbl' !! n = col_dtype <$> tbl_columns tbl !! n) /\
  tbl_history tbl' = ev :: tbl_history tbl.
Proof.
  intros H. pose proof (update_cell_cell_at _ _ _ _ _ _ H) as [Hc Ho].
  split; [exact Hc|]. split; [exact Ho|].
  pose proof H as H'.
  apply update_column_lookup in H' as (c & c' & Hc1 & Hf & Hc2 & Hother).
  apply update_column_Ok in H as (c0 & c0' & _ & _ & ->). simpl.
  pose proof (update_cell_length _ _ _ _ Hf) as Hl.
  pose proof (update_cell_dtype _ _ _ _ Hf) as Hd.
  simpl in Hc2, Hother.
  split; [|split; [|reflexivity]]; intros n; unfold col_len; simpl;
    (destruct (decide (n = col)) as [->|Hn];
     [rewrite Hc1, Hc2; simpl; congruence | rewrite Hother by exact Hn; reflexivity]).
Qed.

Lemma set_nth_effect (tbl : t_data_table) (col : string) (i : nat) (v : t_scalar)
      (tbl' : t_data_table) :
  Column.set_nth tbl col i v = Ok tbl' ->
  cell_at tbl' col i = Some (mk_cell STATUS_VALID v) /\
  (forall n j, n <> col \/ j <> i -> cell_at tbl' n j = cell_at tbl n j) /\
  (forall n, col_len tbl' n = col_len tbl n) /\
  (forall n, col_dtype <$> tbl_columns tbl' !! n = col_dtype <$> tbl_columns tbl !! n) /\
  tbl_history tbl' = EV_SET_NTH col i v :: tbl_history tbl.
Proof.
  intros H. apply update_cell_effect in H as ((x & _ & Hx) & H). tauto.
Qed.

Lemma mark_absent_effect (is_update : bool) (tbl : t_data_table) (col : string)
      (i : nat) (tbl' : t_data_table) :
  mark_absent is_update tbl col i = Ok tbl' ->
  (exists x, cell_at tbl' col i = Some x /\ cell_status x = absent_status is_update) /\
  (forall n j, n <> col \/ j <> i -> cell_at tbl' n j = cell_at tbl n j) /\
  (forall n, col_len tbl' n = col_len tbl n) /\
  (forall n, col_dtype <$> tbl_columns tbl' !! n = col_dtype <$> tbl_columns tbl !! n) /\
  tbl_history tbl' = absent_event is_update col i :: tbl_history tbl.
Proof.
  unfold mark_absent, Column.unset, Column.clear, absent_status, absent_event.
  destruct is_update; intros H;
    apply update_cell_effect in H as ((x & _ & Hx) & H);
    (split; [eexists; split; [exact Hx | reflexivity] | tauto]).
Qed.

Lemma promote_column_effect (tbl : t_data_table) (name : string) (ty : t_dtype)
      (row : nat) (tbl' : t_data_table) :
  Table.promote_column tbl name ty row true = Ok tbl' ->
  (forall j x, (j < row)%nat -> cell_at tbl name j = Some x ->
               cell_at tbl' name j
               = Some (mk_cell (cell_status x) (promote_scalar ty (cell_data x)))) /\
  (forall n, col_len tbl' n = col_len tbl n) /\
  col_dtype <$> tbl_columns tbl' !! name = Some ty /\
  tbl_history tbl' = EV_PROMOTE_COLUMN name ty row true :: tbl_history tbl.
Proof.
  intros H.
  pose proof (promote_column_cell_at _ _ _ _ _ H) as (Hc & _ & Hd).
  pose proof (promote_column_evolves (fun _ => True) (fun _ => True) _ _ _ _ _ _
                Logic.I Logic.I H) as E.
  split; [|split; [exact (ev_len _ _ _ _ _ E)|split; [exact Hd | exact (ev_hist _ _ _ _ _ E)]]].
  intros j x Hj Hx. rewrite Hc, Hx. simpl.
  apply Nat.ltb_lt in Hj. rewrite Hj. reflexivity.
Qed.

Section Int32Promotion.

Context (ldr : NumpyLoader) (ptr : t_buffer) (name : string) (np_dtype : t_dtype)
        (cidx : nat) (is_update : bool) (nrows : nat) (tbl0 : t_data_table)
        (t : nat).
Hypothesis Hptr : (nrows * 8 <= length ptr)%nat.
Hypothesis Ht : (t < nrows)%nat.
Hypothesis Hout : out_of_int32_range (double_at ptr t) = true.
Hypothesis Hfirst : forall j, (j < t)%nat -> out_of_int32_range (double_at ptr j) = false.

Let i32 (j : nat) : Z := int32_of_source np_dtype ptr j.

(** The rows before the trigger, while the column is 32-bit integer ... *)
Let before (tb : t_data_table) (evs : list t_event) (k : nat) : Prop :=
  forall j, (j < k)%nat -> npy_isnan (double_at ptr j) = false ->
    cell_at tb name j = Some (mk_cell STATUS_VALID (SC_INT C_INT32 (i32 j))) /\
    In (EV_SET_NTH name j (SC_INT C_INT32 (i32 j))) evs.

(** ... and the table from the trigger on. *)
Let after (tb : t_data_table) (evs : list t_event) (k : nat) : Prop :=
  col_dtype <$> tbl_columns tb !! name = Some DTYPE_FLOAT64 /\
  In (EV_PROMOTE_COLUMN name DTYPE_FLOAT64 t true) evs /\
  cell_at tb name t = Some (mk_cell STATUS_VALID (SC_FLOAT64 (double_at ptr t))) /\
  (forall j, (j < t)%nat -> npy_isnan (double_at ptr j) = false ->
     cell_at tb name j
     = Some (mk_cell STATUS_VALID (SC_FLOAT64 (double_of_Z (i32 j)))) /\
     In (EV_SET_NTH name j (SC_INT C_INT32 (i32 j))) evs) /\
  (forall j, (t < j < k)%nat ->
     exists x, cell_at tb name j = Some x /\ float_row is_update np_dtype ptr j x).

Let inv (k : nat) (s : t_numeric_state) : Prop :=
  snd (fst s) = name /\
  col_len (fst (fst s)) name = Some nrows /\
  exists evs, tbl_history (fst (fst s)) = evs ++ tbl_history tbl0 /\
    (((k <= t)%nat /\ snd s = DTYPE_INT32 /\ before (fst (fst s)) evs k) \/
     ((t < k)%nat /\ snd s = DTYPE_FLOAT64 /\ after (fst (fst s)) evs k)).

Lemma int32_promotion_step (k : nat) (s : t_numeric_state) :
  (k < nrows)%nat -> inv k s ->
  exists s', fill_numeric_row ldr ptr name np_dtype cidx is_update k s
             = Ok (Continue s') /\ inv (Datatypes.S k) s'.
Proof.
  intros Hk. destruct s as [[tb col] ty]. unfold inv. simpl.
  intros (-> & Hlen & evs & Hhist & Hphase).
  destruct Hphase as [(Hkt & -> & Hbefore)|(Hkt & -> & Hafter)].
  - destruct (decide (k = t)) as [->|Hne].
    + (* the triggering row *)
      destruct (numeric_row_promote ldr ptr name np_dtype cidx is_update nrows Hptr
                  t tb name Hk Hlen Hout) as (t1 & t2 & Hrow & Hp & Hs).
      exists (t2, name, DTYPE_FLOAT64). split; [exact Hrow|]. simpl.
      apply promote_column_effect in Hp as (Hpc & Hpl & Hpd & Hph).
      apply set_nth_effect in Hs as (Hsc & Hso & Hsl & Hsd & Hsh).
      split; [reflexivity|]. split; [rewrite Hsl, Hpl; exact Hlen|].
      eexists. split.
      { rewrite Hsh, Hph, Hhist. rewrite !app_comm_cons. reflexivity. }
      right. split; [lia|]. split; [reflexivity|]. unfold after.
      split; [rewrite Hsd; exact Hpd|].
      split; [right; left; reflexivity|].
      split; [exact Hsc|]. split; [|intros j Hj; lia].
      intros j Hj Hnan. destruct (Hbefore j Hj Hnan) as [Hc Hin].
      split; [|right; right; exact Hin].
      rewrite Hso by (right; lia). rewrite (Hpc j _ Hj Hc). reflexivity.
    + (* a row before the trigger *)
      assert (Hin : out_of_int32_range (double_at ptr k) = false) by (apply Hfirst; lia).
      destruct (npy_isnan (double_at ptr k)) eqn:Hnan.
      * destruct (numeric_row_nan ldr ptr name np_dtype cidx is_update nrows Hptr
                    k tb name DTYPE_INT32 Hk Hlen Hnan) as (t1 & Hrow & Hm).
        exists (t1, name, DTYPE_INT32). split; [exact Hrow|]. simpl.
        apply mark_absent_effect in Hm as (_ & Hmo & Hml & _ & Hmh).
        split; [reflexivity|]. split; [rewrite Hml; exact Hlen|].
        eexists. split; [rewrite Hmh, Hhist, app_comm_cons; reflexivity|].
        left. split; [lia|]. split; [reflexivity|].
        intros j Hj Hn. assert (j <> k) by (intros ->; congruence).
        destruct (Hbefore j ltac:(lia) Hn) as [Hc Hi].
        split; [rewrite Hmo by (right; assumption); exact Hc | right; exact Hi].
      * destruct (numeric_row_int32 ldr ptr name np_dtype cidx is_update nrows Hptr
                    k tb name Hk Hlen Hnan Hin) as (t1 & Hrow & Hs).
        exists (t1, name, DTYPE_INT32). split; [exact Hrow|]. simpl.
        apply set_nth_effect in Hs as (Hsc & Hso & Hsl & _ & Hsh).
        split; [reflexivity|]. split; [rewrite Hsl; exact Hlen|].
        eexists. split; [rewrite Hsh, Hhist, app_comm_cons; reflexivity|].
        left. split; [lia|]. split; [reflexivity|].
        intros j Hj Hn. destruct (decide (j = k)) as [->|Hjk].
        -- split; [exact Hsc | left; reflexivity].
        -- destruct (Hbefore j ltac:(lia) Hn) as [Hc Hi].
           split; [rewrite Hso by (right; assumption); exact Hc | right; exact Hi].
  - (* a row after the trigger *)
    destruct Hafter as (Hd & Hprom & Hct & Hold & Hnew).
    destruct (npy_isnan (double_at ptr k)) eqn:Hnan.
    + destruct (numeric_row_nan ldr ptr name np_dtype cidx is_update nrows Hptr
                  k tb name DTYPE_FLOAT64 Hk Hlen Hnan) as (t1 & Hrow & Hm).
      exists (t1, name, DTYPE_FLOAT64). split; [exact Hrow|]. simpl.
      apply mark_absent_effect in Hm as ((x & Hx & Hxs) & Hmo & Hml & Hmd & Hmh).
      split; [reflexivity|]. split; [rewrite Hml; exact Hlen|].
      eexists. split; [rewrite Hmh, Hhist, app_comm_cons; reflexivity|].
      right. split; [lia|]. split; [reflexivity|]. unfold after.
      split; [rewrite Hmd; exact Hd|]. split; [right; exact Hprom|].
      split; [rewrite Hmo by (right; lia); exact Hct|]. split.
      * intros j Hj Hn. destruct (Hold j Hj Hn) as [Hc Hi].
        split; [rewrite Hmo by (right; lia); exact Hc | right; exact Hi].
      * intros j Hj. destruct (decide (j = k)) as [->|Hjk].
        -- exists x. split; [exact Hx|]. unfold float_row. rewrite Hnan. exact Hxs.
        -- rewrite Hmo by (right; assumption). apply Hnew. lia.
    + destruct (numeric_row_float64 ldr ptr name np_dtype cidx is_update nrows Hptr
                  k tb name Hk Hlen Hnan) as (t1 & Hrow & Hs).
      exists (t1, name, DTYPE_FLOAT64). split; [exact Hrow|]. simpl.
      apply set_nth_effect in Hs as (Hsc & Hso & Hsl & Hsd & Hsh).
      split; [reflexivity|]. split; [rewrite Hsl; exact Hlen|].
      eexists. split; [rewrite Hsh, Hhist, app_comm_cons; reflexivity|].
      right. split; [lia|]. split; [reflexivity|]. unfold after.
      split; [rewrite Hsd; exact Hd|]. split; [right; exact Hprom|].
      split; [rewrite Hso by (right; lia); exact Hct|]. split.
      * intros j Hj Hn. destruct (Hold j Hj Hn) as [Hc Hi].
        split; [rewrite Hso by (right; lia); exact Hc | right; exact Hi].
      * intros j Hj. destruct (decide (j = k)) as [->|Hjk].
        -- eexists. split; [exact Hsc|]. unfold float_row. rewrite Hnan. reflexivity.
        -- rewrite Hso by (right; assumption). apply Hnew. lia.
Qed.

Lemma int32_promotion_run :
  m_init ldr = true ->
  Column.size tbl0 name = Ok nrows ->
  exists tbl' evs,
    fill_numeric_iter ldr ptr tbl0 name name np_dtype DTYPE_INT32 cidx is_update
    = Ok tbl' /\
    tbl_history tbl' = evs ++ tbl_history tbl0 /\
    after tbl' evs nrows.
Proof.
  intros Hinit Hsize. unfold fill_numeric_iter, assert_init.
  rewrite Hinit, Hsize. simpl.
  destruct (for_range_total
              (fill_numeric_row ldr ptr name np_dtype cidx is_update) inv nrows
              int32_promotion_step nrows O (tbl0, name, DTYPE_INT32))
    as ([[tb col] ty] & Hrun & Hinv); [lia | |].
  - unfold inv. simpl. split; [reflexivity|].
    split; [apply size_col_len; exact Hsize|].
    exists []. split; [reflexivity|]. left.
    split; [lia|]. split; [reflexivity|]. intros j Hj. lia.
  - rewrite Hrun. simpl.
    destruct Hinv as (_ & _ & evs & Hhist & [(Hle & _)|(_ & _ & Hafter)]); [lia|].
    simpl in Hhist, Hafter. eauto.
Qed.

End Int32Promotion.

Lemma first_true_below (f : nat -> bool) (n : nat) :
  (forall j, (j < n)%nat -> f j = false) \/
  exists t, (t < n)%nat /\ f t = true /\ forall j, (j < t)%nat -> f j = false.
Proof.
  induction n as [|n [IH|(t & Ht & Hft & Hmin)]].
  - left. intros j Hj. lia.
  - destruct (f n) eqn:E.
    + right. exists n. split; [lia|]. split; [exact E | exact IH].
    + left. intros j Hj. destruct (decide (j = n)) as [->|Hne]; [exact E|].
      apply IH. lia.
  - right. exists t. split; [lia | auto].
Qed.

Lemma first_true (f : nat -> bool) (i : nat) :
  f i = true ->
  exists t, (t <= i)%nat /\ f t = true /\ forall j, (j < t)%nat -> f j = false.
Proof.
  intros Hi. destruct (first_true_below f (Datatypes.S i)) as [Hno|(t & Ht & H)].
  - rewrite Hno in Hi by lia. discriminate.
  - exists t. split; [lia | exact H].
Qed.


(** * The claims *)

Lemma evolves_history_inj (evs evs' : list t_event) (h : list t_event) :
  evs ++ h = evs' ++ h -> evs = evs'.
Proof. apply app_inv_tail. Qed.

Lemma width_mismatch_spec (np_dtype type : t_dtype) :
  width_mismatch np_dtype type = true <->
  np_dtype = DTYPE_INT64 /\ (type = DTYPE_INT32 \/ type = DTYPE_FLOAT64).
Proof.
  unfold width_mismatch.
  rewrite andb_true_iff, orb_true_iff, !bool_decide_eq_true. reflexivity.
Qed.

(** C4 (amended): [fill_column] skips the bulk copy and fills iteratively
    whenever the inferred source type is [DTYPE_INT64] and the destination
    type is [DTYPE_INT32] or [DTYPE_FLOAT64]; for every other pair with a
    fixed-width numeric source type it performs the bulk copy. *)
Theorem fill_column_mismatch_guard (ldr : NumpyLoader) (tbl : t_data_table)
        (col name : string) (type : t_dtype) (cidx : nat) (is_update : bool)
        (np_dtype : t_dtype) (tbl' : t_data_table) :
  np_dtype_of ldr name = Some np_dtype ->
  fill_column ldr tbl col name type cidx is_update = Ok tbl' ->
  exists evs,
    tbl_history tbl' = evs ++ tbl_history tbl /\
    (np_dtype = DTYPE_INT64 /\ (type = DTYPE_INT32 \/ type = DTYPE_FLOAT64) ->
     (forall h E off, ~ In (EV_MEMCPY h E off) evs) /\
     exists array,
       array_ensure (fst (acc_get_numpy_column (m_accessor ldr) name type)) = Some array /\
       fill_column_iter ldr array tbl col name np_dtype type cidx is_update = Ok tbl') /\
    (~ (np_dtype = DTYPE_INT64 /\ (type = DTYPE_INT32 \/ type = DTYPE_FLOAT64)) ->
     is_fixed_width_numeric np_dtype = true ->
     exists E, In (EV_MEMCPY col E 0) evs).
Proof.
  intros Hnp Hfill.
  pose (T := fun n : string => n = col \/ n = name).
  apply fill_column_Ok in Hfill
    as (np & array & Hinit & Hnp' & Harr & [[Hpath Hiter]|[Hpath Hbulk]]).
  all: rewrite Hnp in Hnp'; injection Hnp' as <-.
  - pose (P := fun ev : t_event =>
                 match ev with EV_MEMCPY _ _ _ => False | _ => True end).
    destruct (fill_column_iter_size _ _ _ _ _ _ _ _ _ _ Hiter) as (nrows & Hsize).
    pose proof Hiter as Hiter'.
    eapply fill_column_iter_spec with (T := T) (P := P) in Hiter';
      [ | left; reflexivity | right; reflexivity | intros; exact Logic.I
        | intros; exact Logic.I | | exact Hsize].
    2:{ intros i h _ _. unfold absent_event. destruct is_update; exact Logic.I. }
    destruct Hiter' as (evs & [_ Hhist Hall _ _ _] & _).
    exists evs. split; [exact Hhist|]. split.
    + intros _. split; [|eauto].
      intros h E off Hin. rewrite Forall_forall in Hall.
      apply (Hall (EV_MEMCPY h E off)). apply list_elem_of_In, Hin.
    + intros Hng Hnum. exfalso. apply Hng, width_mismatch_spec.
      unfold fill_path in Hpath. rewrite Hnum in Hpath.
      destruct (width_mismatch np_dtype type); [reflexivity | discriminate].
  - destruct Hbulk as (E & t1 & t2 & Hcopy & Hvalid & Hmask).
    apply copy_array_helper_evolves with (T := T) (P := fun _ => True) in Hcopy;
      [ | left; reflexivity | exact Logic.I].
    apply valid_raw_fill_evolves with (T := T) (P := fun _ => True) in Hvalid;
      [ | left; reflexivity | exact Logic.I].
    apply apply_mask_spec with (T := T) (P := fun _ => True) in Hmask;
      [ | left; reflexivity | intros; exact Logic.I].
    destruct Hmask as (evs & Hev & _).
    pose proof (evolves_trans _ _ _ _ _ _ _ (evolves_trans _ _ _ _ _ _ _ Hcopy Hvalid) Hev)
      as [_ Hhist _ _ _ _].
    eexists. split; [exact Hhist|]. split.
    + intros Hg%width_mismatch_spec. unfold fill_path in Hpath.
      rewrite Hg in Hpath. discriminate.
    + intros _ _. exists E. apply in_or_app. right. right. left. reflexivity.
Qed.

(** C10: when [fill_column] takes the iterative path, the null-position list
    of the accessor is not consulted: two fills that differ only in that list
    give the same result, and a row is unset or cleared only where the
    per-row condition (a NaN element, or [None] from [marshal]) holds. *)
Theorem fill_column_iter_ignores_mask (ldr : NumpyLoader)
        (m1 m2 : string -> t_dtype -> list nat) (tbl : t_data_table)
        (col name : string) (type : t_dtype) (cidx : nat) (is_update : bool)
        (np_dtype : t_dtype) :
  np_dtype_of ldr name = Some np_dtype ->
  fill_path np_dtype type = PATH_ITER ->
  fill_column (with_mask m1 ldr) tbl col name type cidx is_update
  = fill_column (with_mask m2 ldr) tbl col name type cidx is_update /\
  forall tbl',
    fill_column (with_mask m1 ldr) tbl col name type cidx is_update = Ok tbl' ->
    exists evs array nrows,
      tbl_history tbl' = evs ++ tbl_history tbl /\
      array_ensure (fst (acc_get_numpy_column (m_accessor ldr) name type)) = Some array /\
      Column.size tbl col = Ok nrows /\
      forall h i, In (EV_UNSET h i) evs \/ In (EV_CLEAR h i) evs ->
                  (i < nrows)%nat /\ iter_absent ldr array type cidx i.
Proof.
  intros Hnp Hpath. split.
  - unfold fill_column, np_dtype_of in *. simpl.
    destruct (assert_init ldr) eqn:Hinit; [|unfold assert_init in *; simpl; rewrite Hinit; reflexivity].
    replace (assert_init (with_mask m1 ldr)) with (assert_init ldr) by reflexivity.
    replace (assert_init (with_mask m2 ldr)) with (assert_init ldr) by reflexivity.
    rewrite Hinit. unfold bind at 1 3.
    destruct (find_name name (m_names ldr)) as [nidx|]; [|reflexivity].
    destruct (array_ensure _) as [array|]; [|reflexivity].
    rewrite Hnp. unfold fill_path in Hpath.
    destruct (width_mismatch np_dtype type); [reflexivity|].
    destruct (is_fixed_width_numeric np_dtype) eqn:Hnum; [discriminate|].
    assert (Hc : forall l, copy_array l array tbl col np_dtype 0
                           = bind (assert_init l) (fun _ => Ok (FILL_FAIL, tbl))).
    { intros l. unfold copy_array. destruct np_dtype; try discriminate; reflexivity. }
    rewrite !Hc.
    replace (assert_init (with_mask m1 ldr)) with (assert_init ldr) by reflexivity.
    replace (assert_init (with_mask m2 ldr)) with (assert_init ldr) by reflexivity.
    rewrite Hinit. reflexivity.
  - intros tbl' Hfill.
    pose proof Hfill as Hfill'.
    apply fill_column_absent_events in Hfill' as (evs & Hhist & Hun & Hcl & _).
    apply fill_column_Ok in Hfill as (np & array & _ & Hnp' & Harr & Hcase).
    change (np_dtype_of (with_mask m1 ldr) name) with (np_dtype_of ldr name) in Hnp'.
    rewrite Hnp in Hnp'. injection Hnp' as <-.
    assert (Hsize : exists nrows, Column.size tbl col = Ok nrows).
    { destruct Hcase as [[_ Hiter]|[Hb _]]; [|congruence].
      eapply fill_column_iter_size, Hiter. }
    destruct Hsize as (nrows & Hsize).
    exists evs, array, nrows. repeat (split; [assumption|]).
    assert (HR : forall i, row_marked_absent (with_mask m1 ldr) tbl col name type cidx i ->
                           (i < nrows)%nat /\ iter_absent ldr array type cidx i).
    { intros i. unfold row_marked_absent.
      change (np_dtype_of (with_mask m1 ldr) name) with (np_dtype_of ldr name).
      simpl in Harr |- *. rewrite Hnp, Harr, Hsize, Hpath. tauto. }
    intros h i [Hin|Hin]; apply HR; [eapply Hun | eapply Hcl]; exact Hin.
Qed.

Lemma copy_array_helper_total (E : t_elem) (src : t_buffer) (tbl : t_data_table)
      (dest : string) (nrows : nat) :
  Column.size tbl dest = Ok nrows ->
  (nrows * elem_width E <= length src)%nat ->
  exists tbl', copy_array_helper E src tbl dest 0 = Ok tbl'.
Proof.
  intros Hsize Hlen. unfold copy_array_helper, load_bytes. rewrite Hsize. simpl.
  apply Nat.leb_le in Hlen. rewrite Hlen. simpl.
  unfold Column.memcpy, update_column. unfold Column.size in Hsize.
  destruct (tbl_columns tbl !! dest) as [c|]; [|discriminate]. simpl. eauto.
Qed.

Lemma copy_array_total (ldr : NumpyLoader) (src : t_buffer) (tbl : t_data_table)
      (dest : string) (np_dtype : t_dtype) (nrows : nat) :
  m_init ldr = true ->
  Column.size tbl dest = Ok nrows ->
  (nrows * dtype_width np_dtype <= length src)%nat ->
  exists tbl', copy_array ldr src tbl dest np_dtype 0 = Ok (expected_status np_dtype, tbl').
Proof.
  intros Hinit Hsize Hlen. unfold copy_array, assert_init. rewrite Hinit. simpl.
  destruct np_dtype; simpl; eauto;
    match goal with
    | |- context [copy_array_helper ?E _ _ _ _] =>
        destruct (copy_array_helper_total E src tbl dest nrows Hsize Hlen) as (t & ->);
        simpl; eauto
    end.
Qed.

Lemma retype_size (tbl : t_data_table) (col : string) (ty : t_dtype) (dest : string) :
  Column.size (retype tbl col ty) dest = Column.size tbl dest.
Proof.
  unfold Column.size, retype. simpl. rewrite lookup_alter.
  destruct (decide (col = dest)) as [->|_]; [|reflexivity].
  destruct (tbl_columns tbl !! dest); reflexivity.
Qed.

(** C8: [copy_array] returns [FILL_SUCCEED] exactly for the ten fixed-width
    numeric source type tags and [FILL_FAIL] for every other tag, whatever the
    declared type of the destination column and whatever the accessor (and
    its null information) is. *)
Theorem copy_array_status (ldr : NumpyLoader) (src : t_buffer) (tbl : t_data_table)
        (dest : string) (np_dtype : t_dtype) (nrows : nat) :
  m_init ldr = true ->
  Column.size tbl dest = Ok nrows ->
  (nrows * dtype_width np_dtype <= length src)%nat ->
  (exists tbl', copy_array ldr src tbl dest np_dtype 0
                = Ok (expected_status np_dtype, tbl')) /\
  (forall ty ldr', m_init ldr' = true ->
     exists tbl', copy_array ldr' src (retype tbl dest ty) dest np_dtype 0
                  = Ok (expected_status np_dtype, tbl')) /\
  (forall offset st tbl',
     copy_array ldr src tbl dest np_dtype offset = Ok (st, tbl') ->
     (st = FILL_SUCCEED <-> is_fixed_width_numeric np_dtype = true) /\
     (st = FILL_FAIL <-> is_fixed_width_numeric np_dtype = false)).
Proof.
  intros Hinit Hsize Hlen. split; [|split].
  - eapply copy_array_total; eassumption.
  - intros ty ldr' Hinit'. eapply copy_array_total; [exact Hinit' | | exact Hlen].
    rewrite retype_size. exact Hsize.
  - intros offset st tbl' H.
    apply copy_array_Ok in H as [(-> & -> & _)|(-> & -> & _)];
      split; split; intros; congruence.
Qed.

(** C5: the datetime fill reads each element as a 64-bit integer, multiplies
    it by 1000 (in 64-bit arithmetic) and writes the product to its row; no
    row is unset or cleared, because [npy_isnan] is applied to the integer
    product and is never true of it. *)
Theorem fill_datetime_iter_writes_every_row (ldr : NumpyLoader) (array : t_buffer)
        (tbl : t_data_table) (col name : string) (np_dtype type : t_dtype)
        (cidx : nat) (is_update : bool) (nrows : nat) (tbl' : t_data_table) :
  Column.size tbl col = Ok nrows ->
  fill_datetime_iter ldr array tbl col name np_dtype type cidx is_update = Ok tbl' ->
  (forall i, (i < nrows)%nat ->
     cell_at tbl' col i
     = Some (mk_cell STATUS_VALID
                     (SC_INT C_INT64 (wrap_signed 64 (int_at 8 array i * 1000))))) /\
  exists evs, tbl_history tbl' = evs ++ tbl_history tbl /\
              forall h i, ~ In (EV_UNSET h i) evs /\ ~ In (EV_CLEAR h i) evs.
Proof.
  intros Hsize Hrun. split.
  - unfold fill_datetime_iter in Hrun. inv_bind.
    rewrite Hsize in Ha0. injection Ha0 as <-.
    pose (I := fun (i : nat) (s : t_data_table) =>
                 forall j, (j < i)%nat ->
                   cell_at s col j
                   = Some (mk_cell STATUS_VALID
                             (SC_INT C_INT64 (wrap_signed 64 (int_at 8 array j * 1000))))).
    apply (for_range_inv (fill_datetime_row array col is_update) I (I nrows) nrows)
      with (n := nrows) (i := O) (s := tbl);
      [ | | auto | lia | intros j Hj; lia | exact Hrun].
    + intros i s s' Hi HI Hb. unfold fill_datetime_row in Hb. inv_bind.
      rewrite npy_isnan_int_false in Hb. inv_bind. subst.
      match goal with H : read_int _ _ _ = Ok _ |- _ => apply read_int_Ok in H as [-> _] end.
      match goal with
      | H : Column.set_nth _ _ _ _ = Ok _ |- _ =>
          apply set_nth_cell_at in H as [Hcell Hother]
      end.
      intros j Hj. destruct (decide (j = i)) as [->|Hne]; [exact Hcell|].
      rewrite Hother by (right; exact Hne). apply HI. lia.
    + intros i s s' Hi HI Hb. unfold fill_datetime_row in Hb. inv_bind.
      rewrite npy_isnan_int_false in Hb. inv_bind. discriminate.
  - pose (P := fun ev : t_event =>
                 match ev with EV_UNSET _ _ | EV_CLEAR _ _ => False | _ => True end).
    apply fill_datetime_iter_spec with (T := fun _ => True) (P := P) in Hrun;
      [ | exact Logic.I | intros; exact Logic.I].
    destruct Hrun as (evs & [_ Hhist Hall _ _ _]).
    exists evs. split; [exact Hhist|].
    rewrite Forall_forall in Hall.
    intros h i. split; intros Hin%list_elem_of_In; exact (Hall _ Hin).
Qed.

(** C2: on the numeric path a 64-bit-integer or 64-bit-float destination is
    never promoted to string: a row whose element reads as NaN is marked
    absent by the test at the top of the loop, the promotion tests below it
    never hold, and the column keeps its type tag. *)
Theorem fill_numeric_iter_never_promotes_to_string (ldr : NumpyLoader)
        (array : t_buffer) (tbl : t_data_table) (col name : string)
        (np_dtype type : t_dtype) (cidx : nat) (is_update : bool) (nrows : nat)
        (tbl' : t_data_table) :
  type = DTYPE_INT64 \/ type = DTYPE_FLOAT64 ->
  Column.size tbl col = Ok nrows ->
  fill_numeric_iter ldr array tbl col name np_dtype type cidx is_update = Ok tbl' ->
  exists evs,
    tbl_history tbl' = evs ++ tbl_history tbl /\
    (forall n ty row fill, ~ In (EV_PROMOTE_COLUMN n ty row fill) evs) /\
    (forall n, col_dtype <$> tbl_columns tbl' !! n = col_dtype <$> tbl_columns tbl !! n) /\
    (forall i, (i < nrows)%nat -> npy_isnan (double_at array i) = true ->
               exists h, In (absent_event is_update h i) evs).
Proof.
  intros Hty Hsize Hrun.
  pose (P := fun ev : t_event =>
               match ev with EV_PROMOTE_COLUMN _ _ _ _ => False | _ => True end).
  apply fill_numeric_iter_spec with (T := fun _ => True) (P := P) (nrows := nrows) in Hrun;
    [ | exact Logic.I | intros; exact Logic.I | exact Logic.I
      | intros ->; destruct Hty; discriminate
      | intros i h _ _; unfold absent_event; destruct is_update; exact Logic.I
      | exact Hsize ].
  destruct Hrun as (evs & [_ Hhist Hall _ _ Hdt] & Hlog).
  assert (Hnp : forall n ty row fill, ~ In (EV_PROMOTE_COLUMN n ty row fill) evs).
  { rewrite Forall_forall in Hall.
    intros n ty row fill Hin%list_elem_of_In. exact (Hall _ Hin). }
  exists evs. split; [exact Hhist|]. split; [exact Hnp|]. split; [|exact Hlog].
  intros n. apply Hdt. intros ty row fill. apply Hnp.
Qed.

(** C6 (amended): without a sentinel column and with an empty index name,
    [fill_table] writes, for every row below the table size and a non-zero
    32-bit [limit], the value [((row + offset) mod 2^32) mod limit], stored
    as a signed 32-bit integer, into [psp_pkey] and into [psp_okey]; where
    [row + offset] does not wrap and [limit] is at most [2^31] this is
    [(row + offset) mod limit]. *)
Theorem fill_table_row_number_index (ldr : NumpyLoader) (tbl : t_data_table)
        (schema : list (string * t_dtype)) (offset limit : Z) (is_update : bool)
        (tbl1 : t_data_table) (b : bool) :
  m_init ldr = true ->
  table_wf tbl ->
  (forall name ty, In (name, ty) schema -> name <> INDEX_SENTINEL) ->
  fill_schema_columns ldr schema 0 is_update tbl false = Ok (tbl1, b) ->
  0 < limit ->
  exists tbl',
    fill_table ldr tbl schema "" offset limit is_update = Ok tbl' /\
    forall row, (row < tbl_size tbl)%nat ->
      cell_at tbl' PSP_PKEY row
      = Some (mk_cell STATUS_VALID (row_number_index offset limit row)) /\
      cell_at tbl' PSP_OKEY row
      = Some (mk_cell STATUS_VALID (row_number_index offset limit row)) /\
      (0 <= offset -> Z.of_nat row + offset < 2 ^ 32 -> limit <= 2 ^ 31 ->
       row_number_index offset limit row
       = SC_INT C_INT32 ((Z.of_nat row + offset) mod limit)).
Proof.
  intros Hinit Hwf Hno Hcols Hlimit.
  pose proof (fill_schema_columns_wf _ _ _ _ _ _ _ _ Hcols) as (Hs1 & Hwf1 & Hb).
  rewrite (Hb Hno) in Hcols.
  rewrite (fill_table_unfold _ _ _ _ _ _ _ _ _ Hinit Hcols).
  destruct (fill_index_row_numbers tbl1 offset limit (Hwf1 Hwf))
    as (t2 & Hpk & Hok & Hs2 & ->).
  destruct reserved_names_distinct as (Hd & _).
  destruct (fill_index_rows_total PSP_PKEY PSP_OKEY offset limit Hd (tbl_size tbl1) t2)
    as (tbl' & Hrun); [left; lia | exact Hpk | exact Hok |].
  exists tbl'. split; [exact Hrun|].
  apply fill_index_rows_Ok in Hrun as (Hrows & _); [|exact Hd].
  intros row Hrow. rewrite <- Hs1 in Hrow.
  destruct (Hrows row Hrow) as [Hp Ho].
  split; [exact Hp|]. split; [exact Ho|].
  intros Hoff Hsum Hlim. unfold row_number_index, wrap_signed, wrap_unsigned, to_signed.
  rewrite (Z.mod_small (Z.of_nat row + offset)) by lia.
  rewrite (Z.mod_small (_ mod limit) (2 ^ 32)).
  - pose proof (Z.mod_pos_bound (Z.of_nat row + offset) limit Hlimit).
    replace (_ <? _) with true; [reflexivity|]. symmetry. apply Z.ltb_lt.
    change (32 - 1) with 31. lia.
  - pose proof (Z.mod_pos_bound (Z.of_nat row + offset) limit Hlimit). lia.
Qed.


(** C9 (amended): when a [fill_table] call returns on a well-formed table
    whose schema has no column named [psp_pkey] or [psp_okey], both index
    columns exist and hold the same cells, whichever of the three paths
    produced them. *)
Theorem fill_table_index_columns_equal (ldr : NumpyLoader) (tbl : t_data_table)
        (schema : list (string * t_dtype)) (index : string) (offset limit : Z)
        (is_update : bool) (tbl' : t_data_table) :
  table_wf tbl ->
  (forall name ty, In (name, ty) schema -> name <> PSP_PKEY /\ name <> PSP_OKEY) ->
  fill_table ldr tbl schema index offset limit is_update = Ok tbl' ->
  exists pkey okey,
    tbl_columns tbl' !! PSP_PKEY = Some pkey /\
    tbl_columns tbl' !! PSP_OKEY = Some okey /\
    col_cells pkey = col_cells okey.
Proof.
  intros Hwf Hres Hfill.
  destruct reserved_names_distinct as (Hd & _).
  apply fill_table_Ok in Hfill as (tbl1 & b & Hcols & Hidx).
  pose proof (fill_schema_columns_wf _ _ _ _ _ _ _ _ Hcols) as (Hs1 & Hwf1 & _).
  pose proof (fill_schema_columns_index _ _ _ _ _ _ _ _ Hres Hcols) as Hsent.
  destruct b.
  - (* a sentinel column: filled into psp_pkey, cloned into psp_okey *)
    simpl in Hidx. injection Hidx as <-.
    destruct Hsent as (c & Hp & Ho); [discriminate | reflexivity |]. eauto.
  - destruct (String.eqb index "") eqn:Hi.
    + (* generated row numbers *)
      apply String.eqb_eq in Hi. subst index.
      destruct (fill_index_row_numbers tbl1 offset limit (Hwf1 Hwf))
        as (t2 & Hpk & Hok & Hs2 & Heq).
      rewrite Heq in Hidx.
      apply fill_index_rows_Ok in Hidx as (Hrows & Hlen & _); [|exact Hd].
      rewrite <- Hlen in Hpk, Hok. unfold col_len in Hpk, Hok.
      destruct (tbl_columns tbl' !! PSP_PKEY) as [pk|] eqn:Hp; [|discriminate].
      destruct (tbl_columns tbl' !! PSP_OKEY) as [ok|] eqn:Ho; [|discriminate].
      simpl in Hpk, Hok. injection Hpk as Hpk. injection Hok as Hok.
      exists pk, ok. repeat split. apply list_eq. intros i.
      destruct (decide (i < tbl_size tbl1)%nat) as [Hlt|Hge].
      * destruct (Hrows i Hlt) as [H1 H2]. unfold cell_at in H1, H2.
        rewrite Hp in H1. rewrite Ho in H2. congruence.
      * rewrite !lookup_ge_None_2 by lia. reflexivity.
    + (* an explicit index column, cloned twice *)
      unfold fill_index in Hidx. simpl negb in Hidx. cbv iota in Hidx.
      rewrite Hi in Hidx. inv_bind.
      apply clone_column_spec in Ha as (c & Hc & _ & Hcols1).
      apply clone_column_spec in Hidx as (c' & Hc' & _ & Hcols2).
      assert (c' = c) as ->.
      { rewrite Hcols1 in Hc'. destruct (decide (PSP_PKEY = index)) as [<-|Hne].
        - rewrite lookup_insert_eq in Hc'. congruence.
        - rewrite lookup_insert_ne in Hc' by exact Hne. congruence. }
      exists c, c. rewrite Hcols2, Hcols1. repeat split.
      * rewrite lookup_insert_ne by congruence. apply lookup_insert_eq.
      * apply lookup_insert_eq.
Qed.

(** X24: in a numeric fill of a 32-bit integer column through the handle of
    the column named [name], a row whose 8 bytes at [8 * row], read as a
    64-bit float, are above 2147483647 or below -2147483648 gets the column
    promoted to 64-bit float, at the first such row; that row and the rows
    after it are stored as floats (a row reading as NaN is marked absent),
    and a row written before it holds, as a float, the integer that was
    written. *)
Theorem fill_numeric_iter_int32_promotion (ldr : NumpyLoader) (ptr : t_buffer)
        (tbl : t_data_table) (name : string) (np_dtype : t_dtype) (cidx : nat)
        (is_update : bool) (nrows i : nat) :
  m_init ldr = true ->
  Column.size tbl name = Ok nrows ->
  (nrows * 8 <= length ptr)%nat ->
  (i < nrows)%nat ->
  out_of_int32_range (double_at ptr i) = true ->
  exists t tbl' evs col',
    (t <= i)%nat /\
    out_of_int32_range (double_at ptr t) = true /\
    (forall j, (j < t)%nat -> out_of_int32_range (double_at ptr j) = false) /\
    fill_numeric_iter ldr ptr tbl name name np_dtype DTYPE_INT32 cidx is_update
    = Ok tbl' /\
    tbl_history tbl' = evs ++ tbl_history tbl /\
    In (EV_PROMOTE_COLUMN name DTYPE_FLOAT64 t true) evs /\
    tbl_columns tbl' !! name = Some col' /\
    col_dtype col' = DTYPE_FLOAT64 /\
    col_cells col' !! t = Some (mk_cell STATUS_VALID (SC_FLOAT64 (double_at ptr t))) /\
    (forall j, (t < j < nrows)%nat ->
       exists x, col_cells col' !! j = Some x /\ float_row is_update np_dtype ptr j x) /\
    (forall j, (j < t)%nat -> npy_isnan (double_at ptr j) = false ->
       exists z f,
         In (EV_SET_NTH name j (SC_INT C_INT32 z)) evs /\
         col_cells col' !! j = Some (mk_cell STATUS_VALID (SC_FLOAT64 f)) /\
         SF_to_Z f = Some z).
Proof.
  intros Hinit Hsize Hptr Hi Hout.
  destruct (first_true (fun j => out_of_int32_range (double_at ptr j)) i Hout)
    as (t & Hti & Htout & Hfirst).
  destruct (int32_promotion_run ldr ptr name np_dtype cidx is_update nrows tbl t
              Hptr ltac:(lia) Htout Hfirst Hinit Hsize)
    as (tbl' & evs & Hrun & Hhist & Hd & Hprom & Hct & Hold & Hnew).
  unfold cell_at in Hct, Hold, Hnew.
  destruct (tbl_columns tbl' !! name) as [col'|] eqn:Hcol; [|discriminate].
  simpl in Hd. injection Hd as Hd.
  exists t, tbl', evs, col'.
  repeat (split; [assumption || reflexivity|]).
  intros j Hj Hnan. destruct (Hold j Hj Hnan) as [Hc Hin].
  eexists _, _. split; [exact Hin|]. split; [exact Hc|].
  apply double_of_Z_exact.
  pose proof (int32_of_source_range np_dtype ptr j). lia.
Qed.

(** C1: the promotion of a 32-bit integer column misses values that do not
    fit.  Filled from the 64-bit integers 5, -1, 2147483648 and -7, the
    column keeps its 32-bit type, no promotion is made, and 2147483648 is
    stored as -2147483648: the range test looks at the bits of the integer
    as a double.  And where the [__INDEX__] column, filled through the handle
    of [psp_pkey], has a row that reads as 2147483648.0, the promotion is
    asked for the column named [__INDEX__], which the table does not have,
    and the fill aborts. *)
Theorem fill_int32_promotion_missed :
  (np_dtype_of ex_signed_loader "v" = Some DTYPE_INT64 /\
   int_at 8 ex_signed 2 = 2147483648 /\
   exists tbl',
     fill_column ex_signed_loader (ex_table 4 [("v", DTYPE_INT32)]) "v" "v"
                 DTYPE_INT32 0 false = Ok tbl' /\
     no_promotion (tbl_history tbl') = true /\
     col_dtype <$> tbl_columns tbl' !! "v" = Some DTYPE_INT32 /\
     cell_at tbl' "v" 2
     = Some (mk_cell STATUS_VALID (SC_INT C_INT32 (-2147483648)))) /\
  (np_dtype_of ex_index_loader INDEX_SENTINEL = Some DTYPE_INT64 /\
   out_of_int32_range (double_at ex_buffer 1) = true /\
   fill_table ex_index_loader (ex_table 4 []) [(INDEX_SENTINEL, DTYPE_INT32)]
              "" 0 4 false
   = Fail (PSP_ABORT "Column not found")).
Proof.
  split.
  - split; [vm_compute; reflexivity|]. split; [vm_compute; reflexivity|].
    eexists. split; [vm_compute; reflexivity|].
    repeat split; vm_compute; reflexivity.
  - repeat split; vm_compute; reflexivity.
Qed.

(** C7: wherever [fill_column] marks a row absent (a row of the mask after a
    successful bulk copy, a NaN element on the numeric iterative path, a
    [None] from [marshal] on the date, string and bool paths), it applies
    [unset] when [is_update] holds and [clear] otherwise; and it applies
    neither to a row that is not marked absent. *)
Theorem fill_column_marks_absent (ldr : NumpyLoader) (tbl : t_data_table)
        (col name : string) (type : t_dtype) (cidx : nat) (is_update : bool)
        (tbl' : t_data_table) :
  fill_column ldr tbl col name type cidx is_update = Ok tbl' ->
  exists evs,
    tbl_history tbl' = evs ++ tbl_history tbl /\
    (forall h i, In (EV_UNSET h i) evs ->
                 is_update = true /\ row_marked_absent ldr tbl col name type cidx i) /\
    (forall h i, In (EV_CLEAR h i) evs ->
                 is_update = false /\ row_marked_absent ldr tbl col name type cidx i) /\
    (forall i, row_marked_absent ldr tbl col name type cidx i ->
               exists h, In (absent_event is_update h i) evs).
Proof. apply fill_column_absent_events. Qed.

(** * The claims on concrete inputs *)

Lemma fill_numeric_iter_int32_promotion_witness :
  exists t tbl',
    (t <= 1)%nat /\
    fill_numeric_iter ex_loader ex_buffer (ex_table 4 [("a", DTYPE_INT32)])
                      "a" "a" DTYPE_INT64 DTYPE_INT32 0 false = Ok tbl' /\
    col_dtype <$> tbl_columns tbl' !! "a" = Some DTYPE_FLOAT64.
Proof.
  destruct (fill_numeric_iter_int32_promotion
              ex_loader ex_buffer (ex_table 4 [("a", DTYPE_INT32)]) "a"
              DTYPE_INT64 0 false 4 1)
    as (t & tbl' & evs & col' & Ht & _ & _ & Hrun & _ & _ & Hcol & Hd & _).
  - vm_compute. reflexivity.
  - vm_compute. reflexivity.
  - apply Nat.leb_le. vm_compute. reflexivity.
  - lia.
  - vm_compute. reflexivity.
  - exists t, tbl'. rewrite Hcol. simpl. rewrite Hd. auto.
Defined.

Lemma fill_numeric_iter_never_promotes_to_string_witness :
  exists tbl',
    fill_numeric_iter ex_loader ex_doubles (ex_table 4 [("f", DTYPE_FLOAT64)])
                      "f" "f" DTYPE_FLOAT64 DTYPE_FLOAT64 1 false = Ok tbl' /\
    col_dtype <$> tbl_columns tbl' !! "f" = Some DTYPE_FLOAT64 /\
    cell_status <$> cell_at tbl' "f" 1 = Some STATUS_CLEARED.
Proof.
  pose (tbl' := result_of
                  (fill_numeric_iter ex_loader ex_doubles
                     (ex_table 4 [("f", DTYPE_FLOAT64)])
                     "f" "f" DTYPE_FLOAT64 DTYPE_FLOAT64 1 false)
                  (ex_table 0 [])).
  destruct (fill_numeric_iter_never_promotes_to_string
              ex_loader ex_doubles (ex_table 4 [("f", DTYPE_FLOAT64)]) "f" "f"
              DTYPE_FLOAT64 DTYPE_FLOAT64 1 false 4 tbl')
    as (evs & _ & _ & Hd & _).
  - right. reflexivity.
  - vm_compute. reflexivity.
  - vm_compute. reflexivity.
  - exists tbl'. split; [vm_compute; reflexivity|]. split; [|vm_compute; reflexivity].
    rewrite Hd. vm_compute. reflexivity.
Defined.



Lemma fill_column_wider_source_counterexample :
  spec_mismatch DTYPE_INT32 DTYPE_INT16 = true /\
  np_dtype_of ex_loader "n32" = Some DTYPE_INT32 /\
  (exists tbl',
     fill_column ex_loader (ex_table 4 [("n32", DTYPE_INT16)]) "n32" "n32"
                 DTYPE_INT16 4 false = Ok tbl' /\
     In (EV_MEMCPY "n32" (E_INT C_INT32) 0) (tbl_history tbl')) /\
  spec_mismatch DTYPE_UINT64 DTYPE_INT32 = true /\
  np_dtype_of ex_loader "u64" = Some DTYPE_UINT64 /\
  (exists tbl',
     fill_column ex_loader (ex_table 4 [("u64", DTYPE_INT32)]) "u64" "u64"
                 DTYPE_INT32 5 false = Ok tbl' /\
     In (EV_MEMCPY "u64" (E_INT C_UINT64) 0) (tbl_history tbl')).
Proof.
  repeat split; try (vm_compute; reflexivity).
  - eexists. split; [vm_compute; reflexivity|]. right. right. left. reflexivity.
  - eexists. split; [vm_compute; reflexivity|]. right. right. left. reflexivity.
Qed.

Lemma fill_column_mismatch_guard_witness :
  exists evs tbl',
    fill_column ex_loader (ex_table 4 [("a", DTYPE_INT32)]) "a" "a" DTYPE_INT32 0 false
    = Ok tbl' /\
    tbl_history tbl' = evs ++ tbl_history (ex_table 4 [("a", DTYPE_INT32)]) /\
    forall h E off, ~ In (EV_MEMCPY h E off) evs.
Proof.
  pose (tbl' := result_of
                  (fill_column ex_loader (ex_table 4 [("a", DTYPE_INT32)])
                               "a" "a" DTYPE_INT32 0 false) (ex_table 0 [])).
  destruct (fill_column_mismatch_guard
              ex_loader (ex_table 4 [("a", DTYPE_INT32)]) "a" "a" DTYPE_INT32 0 false
              DTYPE_INT64 tbl')
    as (evs & Hhist & Hguard & _).
  - vm_compute. reflexivity.
  - vm_compute. reflexivity.
  - exists evs, tbl'. split; [vm_compute; reflexivity|]. split; [exact Hhist|].
    apply Hguard. split; [reflexivity | left; reflexivity].
Defined.

Lemma fill_datetime_iter_writes_every_row_witness :
  exists tbl',
    fill_datetime_iter ex_loader ex_times (ex_table 4 [("t", DTYPE_TIME)])
                       "t" "t" DTYPE_STR DTYPE_TIME 3 false = Ok tbl' /\
    cell_at tbl' "t" 1 = Some (mk_cell STATUS_VALID (SC_INT C_INT64 0)) /\
    cell_at tbl' "t" 2
    = Some (mk_cell STATUS_VALID (SC_INT C_INT64 (-2251799813685248000))).
Proof.
  pose (tbl' := result_of
                  (fill_datetime_iter ex_loader ex_times
                     (ex_table 4 [("t", DTYPE_TIME)]) "t" "t" DTYPE_STR DTYPE_TIME
                     3 false) (ex_table 0 [])).
  destruct (fill_datetime_iter_writes_every_row
              ex_loader ex_times (ex_table 4 [("t", DTYPE_TIME)]) "t" "t"
              DTYPE_STR DTYPE_TIME 3 false 4 tbl') as [Hcells _].
  - vm_compute. reflexivity.
  - vm_compute. reflexivity.
  - exists tbl'. split; [vm_compute; reflexivity|]. split.
    + rewrite (Hcells 1%nat) by lia. vm_compute. reflexivity.
    + rewrite (Hcells 2%nat) by lia. vm_compute. reflexivity.
Defined.

Lemma fill_table_wrap_around_counterexample :
  (exists tbl',
     fill_table ex_loader (ex_table 2 []) [] "" 4294967295 10 false = Ok tbl' /\
     cell_at tbl' PSP_PKEY 1 = Some (mk_cell STATUS_VALID (SC_INT C_INT32 0)) /\
     (1 + 4294967295) mod 10 = 6) /\
  (exists tbl',
     fill_table ex_loader (ex_table 1 []) [] "" 3000000000 4000000000 false = Ok tbl' /\
     cell_at tbl' PSP_PKEY 0
     = Some (mk_cell STATUS_VALID (SC_INT C_INT32 (-1294967296))) /\
     (0 + 3000000000) mod 4000000000 = 3000000000).
Proof.
  split; eexists; (split; [vm_compute; reflexivity|]); split; vm_compute; reflexivity.
Qed.

Lemma fill_table_row_number_index_witness :
  exists tbl',
    fill_table ex_loader (ex_table 8 []) [] "" 5 10 false = Ok tbl' /\
    cell_at tbl' PSP_PKEY 7 = Some (mk_cell STATUS_VALID (SC_INT C_INT32 2)) /\
    cell_at tbl' PSP_OKEY 7 = Some (mk_cell STATUS_VALID (SC_INT C_INT32 2)).
Proof.
  destruct (fill_table_row_number_index ex_loader (ex_table 8 []) [] 5 10 false
              (ex_table 8 []) false) as (tbl' & Hrun & Hrows).
  - vm_compute. reflexivity.
  - apply ex_table_wf.
  - intros name ty [].
  - vm_compute. reflexivity.
  - lia.
  - exists tbl'. split; [exact Hrun|].
    destruct (Hrows 7%nat) as (Hp & Ho & _); [vm_compute; lia|].
    rewrite Hp, Ho. split; vm_compute; reflexivity.
Defined.

Lemma fill_column_marks_absent_witness :
  exists evs tbl',
    fill_column ex_loader (ex_table 4 [("f", DTYPE_FLOAT64)]) "f" "f" DTYPE_FLOAT64 1 true
    = Ok tbl' /\
    tbl_history tbl' = evs ++ tbl_history (ex_table 4 [("f", DTYPE_FLOAT64)]) /\
    exists h, In (EV_UNSET h 1) evs.
Proof.
  pose (tbl' := result_of
                  (fill_column ex_loader (ex_table 4 [("f", DTYPE_FLOAT64)])
                               "f" "f" DTYPE_FLOAT64 1 true) (ex_table 0 [])).
  destruct (fill_column_marks_absent
              ex_loader (ex_table 4 [("f", DTYPE_FLOAT64)]) "f" "f" DTYPE_FLOAT64 1 true
              tbl')
    as (evs & Hhist & _ & _ & Hlog).
  - vm_compute. reflexivity.
  - exists evs, tbl'. split; [vm_compute; reflexivity|]. split; [exact Hhist|].
    apply (Hlog 1%nat). vm_compute. left. reflexivity.
Defined.

Lemma copy_array_status_witness :
  (exists tbl', copy_array ex_loader ex_int64s (ex_table 4 [("u64", DTYPE_INT32)])
                           "u64" DTYPE_UINT64 0 = Ok (FILL_SUCCEED, tbl')) /\
  (exists tbl', copy_array ex_loader ex_int64s (ex_table 4 [("u64", DTYPE_INT32)])
                           "u64" DTYPE_STR 0 = Ok (FILL_FAIL, tbl')).
Proof.
  split.
  - destruct (copy_array_status ex_loader ex_int64s
                (ex_table 4 [("u64", DTYPE_INT32)]) "u64" DTYPE_UINT64 4)
      as (H & _).
    + vm_compute. reflexivity.
    + vm_compute. reflexivity.
    + apply Nat.leb_le. vm_compute. reflexivity.
    + exact H.
  - destruct (copy_array_status ex_loader ex_int64s
                (ex_table 4 [("u64", DTYPE_INT32)]) "u64" DTYPE_STR 4)
      as (H & _).
    + vm_compute. reflexivity.
    + vm_compute. reflexivity.
    + apply Nat.leb_le. vm_compute. reflexivity.
    + exact H.
Defined.

Lemma fill_table_reserved_name_counterexample :
  exists tbl',
    fill_table ex_loader (ex_table 4 [])
               [("__INDEX__", DTYPE_INT64); ("psp_okey", DTYPE_INT64)] "" 0 10 false
    = Ok tbl' /\
    cell_at tbl' PSP_PKEY 0 = Some (mk_cell STATUS_VALID (SC_INT C_INT64 10)) /\
    cell_at tbl' PSP_OKEY 0 = Some (mk_cell STATUS_VALID (SC_INT C_INT64 7)).
Proof.
  eexists. split; [vm_compute; reflexivity|]. split; vm_compute; reflexivity.
Qed.

Lemma fill_table_index_columns_equal_witness :
  exists tbl' pkey okey,
    fill_table ex_loader (ex_table 4 [("f", DTYPE_FLOAT64)])
               [("__INDEX__", DTYPE_INT64); ("f", DTYPE_FLOAT64)] "" 0 10 true
    = Ok tbl' /\
    tbl_columns tbl' !! PSP_PKEY = Some pkey /\
    tbl_columns tbl' !! PSP_OKEY = Some okey /\
    col_cells pkey = col_cells okey.
Proof.
  pose (tbl' := result_of
                  (fill_table ex_loader (ex_table 4 [("f", DTYPE_FLOAT64)])
                     [("__INDEX__", DTYPE_INT64); ("f", DTYPE_FLOAT64)] "" 0 10 true)
                  (ex_table 0 [])).
  destruct (fill_table_index_columns_equal
              ex_loader (ex_table 4 [("f", DTYPE_FLOAT64)])
              [("__INDEX__", DTYPE_INT64); ("f", DTYPE_FLOAT64)] "" 0 10 true tbl')
    as (pkey & okey & Hp & Ho & Heq).
  - apply ex_table_wf.
  - intros name ty [H|[H|[]]]; injection H as <- <-; split; discriminate.
  - vm_compute. reflexivity.
  - exists tbl', pkey, okey. split; [vm_compute; reflexivity|]. auto.
Defined.

Lemma fill_column_iter_ignores_mask_witness :
  fill_column (with_mask (fun _ _ => [0%nat; 2%nat]) ex_loader)
              (ex_table 4 [("s", DTYPE_STR)]) "s" "s" DTYPE_STR 2 false
  = fill_column (with_mask (fun _ _ => []) ex_loader)
                (ex_table 4 [("s", DTYPE_STR)]) "s" "s" DTYPE_STR 2 false.
Proof.
  apply (fill_column_iter_ignores_mask ex_loader (fun _ _ => [0%nat; 2%nat])
           (fun _ _ => []) (ex_table 4 [("s", DTYPE_STR)]) "s" "s" DTYPE_STR 2 false
           DTYPE_STR).
  - vm_compute. reflexivity.
  - vm_compute. reflexivity.
Defined.

(** * Further properties of the loader *)

(** ** Initialisation *)

Lemma make_types_of_Ok (arrays : list py_object) (ts : list t_dtype) :
  make_types_of arrays = Ok ts ->
  length ts = length arrays /\
  forall k o, arrays !! k = Some o ->
    exists kind data, o = PY_ARRAY kind data /\ ts !! k = Some (dtype_of_kind kind).
Proof.
  revert ts. induction arrays as [|a rest IH]; intros ts H; simpl in H.
  - injection H as <-. split; [reflexivity|]. intros k o Hk. discriminate.
  - destruct a as [kind data|]; [|discriminate]. inv_bind. subst.
    match goal with Hr : make_types_of rest = Ok ?r |- _ =>
      destruct (IH r Hr) as [Hlen Hrest] end.
    split; [simpl; congruence|].
    intros [|k] o Hk; simpl in Hk.
    + injection Hk as <-. eauto.
    + apply Hrest, Hk.
Qed.

Lemma make_types_of_Fail (arrays : list py_object) :
  (In PY_NOT_ARRAY arrays -> make_types_of arrays = Fail MIXED_COLUMNS) /\
  (~ In PY_NOT_ARRAY arrays -> exists ts, make_types_of arrays = Ok ts).
Proof.
  induction arrays as [|a rest [IH1 IH2]]; simpl.
  - split; [intros [] | eauto].
  - destruct a as [kind data|].
    + split.
      * intros [H|H]; [discriminate|]. rewrite (IH1 H). reflexivity.
      * intros H. destruct IH2 as (ts & ->); [tauto|]. simpl. eauto.
    + split; [reflexivity|]. intros H. exfalso. apply H. left. reflexivity.
Qed.

(** X1: a successful [init] marks the loader initialised and caches, in the
    order of the accessor's data, each column's name and the type inferred
    from its array kind; names and types have one entry per column. *)
Theorem init_names_types (ldr0 ldr : NumpyLoader) :
  init ldr0 = Ok ldr ->
  m_init ldr = true /\
  m_accessor ldr = m_accessor ldr0 /\
  length (m_names ldr) = length (acc_data (m_accessor ldr0)) /\
  length (m_types ldr) = length (acc_data (m_accessor ldr0)) /\
  forall k name o,
    acc_data (m_accessor ldr0) !! k = Some (name, o) ->
    exists kind data,
      o = PY_ARRAY kind data /\
      m_names ldr !! k = Some name /\
      m_types ldr !! k = Some (dtype_of_kind kind).
Proof.
  unfold init, make_types, make_names. intros H. inv_bind. subst. simpl.
  match goal with Hm : make_types_of _ = Ok _ |- _ =>
    apply make_types_of_Ok in Hm as [Hlen Hk] end.
  rewrite length_map in Hlen.
  split; [reflexivity|]. split; [reflexivity|].
  split; [apply length_map|]. split; [exact Hlen|].
  intros k name o Hd.
  destruct (Hk k o) as (kind & data & -> & Ht).
  { change (map snd ?l) with (snd <$> l). rewrite list_lookup_fmap, Hd. reflexivity. }
  exists kind, data. split; [reflexivity|]. split; [|exact Ht].
  change (map fst ?l) with (fst <$> l). rewrite list_lookup_fmap, Hd. reflexivity.
Qed.

(** X2: [init] aborts exactly when one of the accessor's columns is not an
    array, and then the loader stays unusable; otherwise it succeeds. *)
Theorem init_fails_on_non_array (ldr0 : NumpyLoader) :
  (In PY_NOT_ARRAY (map snd (acc_data (m_accessor ldr0))) ->
   init ldr0 = Fail MIXED_COLUMNS) /\
  (~ In PY_NOT_ARRAY (map snd (acc_data (m_accessor ldr0))) ->
   exists ldr, init ldr0 = Ok ldr).
Proof.
  unfold init, make_types.
  destruct (make_types_of_Fail (map snd (acc_data (m_accessor ldr0)))) as [H1 H2].
  split; intros H.
  - rewrite (H1 H). reflexivity.
  - destruct (H2 H) as (ts & ->). simpl. eauto.
Qed.

(** X3: on a loader that was not initialised every operation aborts with
    "touching uninited object" and returns no table. *)
Theorem uninitialised_loader_aborts (ldr : NumpyLoader) :
  m_init ldr = false ->
  names ldr = Fail UNINITED /\
  types ldr = Fail UNINITED /\
  row_count ldr = Fail UNINITED /\
  (forall tbl schema index offset limit upd,
      fill_table ldr tbl schema index offset limit upd = Fail UNINITED) /\
  (forall tbl col name type cidx upd,
      fill_column ldr tbl col name type cidx upd = Fail UNINITED) /\
  (forall array tbl col name np type cidx upd,
      fill_column_iter ldr array tbl col name np type cidx upd = Fail UNINITED /\
      fill_numeric_iter ldr array tbl col name np type cidx upd = Fail UNINITED /\
      fill_datetime_iter ldr array tbl col name np type cidx upd = Fail UNINITED /\
      fill_date_iter ldr array tbl col name np type cidx upd = Fail UNINITED /\
      fill_string_iter ldr array tbl col name np type cidx upd = Fail UNINITED /\
      fill_bool_iter ldr array tbl col name np type cidx upd = Fail UNINITED) /\
  (forall src tbl dest np offset,
      copy_array ldr src tbl dest np offset = Fail UNINITED).
Proof.
  intros H.
  unfold names, types, row_count, fill_table, fill_column, fill_column_iter,
    fill_numeric_iter, fill_datetime_iter, fill_date_iter, fill_string_iter,
    fill_bool_iter, copy_array, assert_init.
  rewrite H. repeat split; reflexivity.
Qed.

Lemma find_name_None (name : string) (l : list string) :
  find_name name l = None <-> ~ In name l.
Proof.
  induction l as [|x r IH]; simpl; [tauto|].
  destruct (String.eqb x name) eqn:E.
  - apply String.eqb_eq in E. split; [discriminate | tauto].
  - apply String.eqb_neq in E. destruct (find_name name r).
    + split; [discriminate|]. intros H.
      assert (Hr : ~ In name r) by tauto. apply IH in Hr. discriminate.
    + split; [|reflexivity]. intros _ [H|H]; [congruence | apply IH; auto].
Qed.

Lemma find_name_Some (name : string) (l : list string) (n : nat) :
  find_name name l = Some n ->
  l !! n = Some name /\ forall k, (k < n)%nat -> l !! k <> Some name.
Proof.
  revert n. induction l as [|x r IH]; intros n H; simpl in H; [discriminate|].
  destruct (String.eqb x name) eqn:E.
  - injection H as <-. apply String.eqb_eq in E. subst.
    split; [reflexivity|]. intros k Hk. lia.
  - apply String.eqb_neq in E.
    destruct (find_name name r) as [m|]; [|discriminate]. injection H as <-.
    destruct (IH m eq_refl) as [Hm Hmin]. split; [exact Hm|].
    intros [|k] Hk; simpl; [congruence|]. apply Hmin. lia.
Qed.

(** X20: after [init] every name of the source has a recorded type, that of
    the first column of that name: the lookup [m_types[nidx]] of
    [fill_column] is in bounds, and the recorded type is never a date or a
    time. *)
Theorem init_np_dtype_defined (ldr0 ldr : NumpyLoader) (name : string) :
  init ldr0 = Ok ldr ->
  In name (m_names ldr) ->
  exists nidx kind data,
    find_name name (m_names ldr) = Some nidx /\
    acc_data (m_accessor ldr0) !! nidx = Some (name, PY_ARRAY kind data) /\
    np_dtype_of ldr name = Some (dtype_of_kind kind) /\
    dtype_of_kind kind <> DTYPE_DATE /\ dtype_of_kind kind <> DTYPE_TIME.
Proof.
  intros Hinit Hin.
  destruct (find_name name (m_names ldr)) as [nidx|] eqn:Hfind;
    [|apply find_name_None in Hfind; contradiction].
  pose proof (find_name_Some _ _ _ Hfind) as [Hn _].
  unfold np_dtype_of. rewrite Hfind.
  unfold init, make_types, make_names in Hinit. inv_bind. subst ldr.
  simpl in Hn |- *.
  match goal with Hm : make_types_of _ = Ok _ |- _ =>
    apply make_types_of_Ok in Hm as [_ Hk] end.
  change (map ?f ?l) with (f <$> l) in Hn. rewrite list_lookup_fmap in Hn.
  destruct (acc_data (m_accessor ldr0) !! nidx) as [[n o]|] eqn:Hd; [|discriminate].
  simpl in Hn. injection Hn as ->.
  destruct (Hk nidx o) as (kind & data & -> & Ht).
  { change (map ?f ?l) with (f <$> l). rewrite list_lookup_fmap, Hd. reflexivity. }
  exists nidx, kind, data. split; [reflexivity|]. split; [exact Hd|].
  split; [exact Ht|]. destruct kind; split; discriminate.
Qed.

(** X4: filling a column whose name the source does not have aborts, whatever
    the table, the handle and the flags are; a schema that starts with such a
    column makes [fill_table] abort. *)
Theorem fill_column_unknown_name (ldr : NumpyLoader) (name : string) :
  m_init ldr = true ->
  ~ In name (m_names ldr) ->
  (forall tbl col type cidx upd,
      fill_column ldr tbl col name type cidx upd = Fail UNKNOWN_COLUMN) /\
  (forall tbl type rest index offset limit upd,
      exists msg,
        fill_table ldr tbl ((name, type) :: rest) index offset limit upd
        = Fail (PSP_ABORT msg)).
Proof.
  intros Hinit Hno.
  assert (Hfc : forall tbl col type cidx upd,
             fill_column ldr tbl col name type cidx upd = Fail UNKNOWN_COLUMN).
  { intros. unfold fill_column, assert_init. rewrite Hinit. simpl.
    apply find_name_None in Hno. rewrite Hno. reflexivity. }
  split; [exact Hfc|].
  intros tbl type rest index offset limit upd.
  unfold fill_table, assert_init. rewrite Hinit. simpl.
  destruct (String.eqb name INDEX_SENTINEL) eqn:E.
  - apply String.eqb_eq in E. subst name.
    destruct (Table.add_column tbl PSP_PKEY type true) as [t1 h].
    rewrite Hfc. simpl. eauto.
  - unfold Table.get_column. destruct (tbl_columns tbl !! name); simpl; [|eauto].
    rewrite Hfc. simpl. eauto.
Qed.

(** ** What a fill leaves alone *)

(** X5: a [fill_column] call that returns has changed no column but the one
    behind the handle and the one named [name]; the table keeps its size, its
    set of columns and their lengths, and, unless the destination type is
    [DTYPE_INT32], every column keeps its type tag. *)
Theorem fill_column_frame (ldr : NumpyLoader) (tbl : t_data_table) (col name : string)
        (type : t_dtype) (cidx : nat) (is_update : bool) (tbl' : t_data_table) :
  fill_column ldr tbl col name type cidx is_update = Ok tbl' ->
  tbl_size tbl' = tbl_size tbl /\
  (forall n, n <> col -> n <> name -> tbl_columns tbl' !! n = tbl_columns tbl !! n) /\
  (forall n, col_len tbl' n = col_len tbl n) /\
  (table_wf tbl -> table_wf tbl') /\
  (type <> DTYPE_INT32 ->
   forall n, col_dtype <$> tbl_columns tbl' !! n = col_dtype <$> tbl_columns tbl !! n).
Proof.
  intros Hfill.
  pose (T := fun n : string => n = col \/ n = name).
  pose (P := fun ev : t_event =>
               match ev with
               | EV_PROMOTE_COLUMN _ _ _ _ => type = DTYPE_INT32
               | _ => True
               end).
  assert (Hev : exists evs, evolves T P evs tbl tbl').
  { apply fill_column_Ok in Hfill
      as (np & array & Hinit & Hnp & Harr & [[Hpath Hiter]|[Hpath Hbulk]]).
    - destruct (fill_column_iter_size _ _ _ _ _ _ _ _ _ _ Hiter) as (nrows & Hsize).
      eapply fill_column_iter_spec with (T := T) (P := P) in Hiter;
        [ | left; reflexivity | right; reflexivity | intros; exact Logic.I
          | intros E i; exact E
          | intros i h _ _; unfold absent_event; destruct is_update; exact Logic.I
          | exact Hsize].
      destruct Hiter as (evs & Hev & _). eauto.
    - destruct Hbulk as (E & t1 & t2 & Hcopy & Hvalid & Hmask).
      apply copy_array_helper_evolves with (T := T) (P := P) in Hcopy;
        [ | left; reflexivity | exact Logic.I].
      apply valid_raw_fill_evolves with (T := T) (P := P) in Hvalid;
        [ | left; reflexivity | exact Logic.I].
      apply apply_mask_spec with (T := T) (P := P) in Hmask;
        [ | left; reflexivity
          | intros idx _; unfold absent_event; destruct is_update; exact Logic.I].
      destruct Hmask as (evs & Hev & _).
      eexists. eapply evolves_trans; [eapply evolves_trans; eassumption | exact Hev]. }
  destruct Hev as (evs & Hev).
  split; [exact (ev_size _ _ _ _ _ Hev)|].
  split.
  { intros n H1 H2. apply (ev_frame _ _ _ _ _ Hev). intros [E|E]; congruence. }
  split; [exact (ev_len _ _ _ _ _ Hev)|].
  split; [exact (evolves_wf _ _ _ _ _ Hev)|].
  intros Hty n. apply (ev_dtype _ _ _ _ _ Hev).
  intros ty row fill Hin.
  pose proof (ev_all _ _ _ _ _ Hev) as Hall. rewrite Forall_forall in Hall.
  apply list_elem_of_In in Hin. apply Hall in Hin. exact (Hty Hin).
Qed.

Lemma fill_index_rows_frame (pk ok : string) (offset limit : Z) (n : nat)
      (tbl tbl' : t_data_table) :
  for_range (fill_index_row pk ok offset limit) 0 n tbl = Ok tbl' ->
  exists evs, evolves (fun c => c = pk \/ c = ok) (fun _ => True) evs tbl tbl'.
Proof.
  intros Hrun.
  apply (row_loop_evolves (fun t => t) (fun _ => True) _
           (fun c => c = pk \/ c = ok) (fun _ => True) (fun _ => False)
           (fun _ _ => True) n) in Hrun; [ | | exact Logic.I].
  - destruct Hrun as (_ & evs & Hev & _). eauto.
  - intros i s fl _ _ Hb. unfold fill_index_row in Hb. inv_bind. subst.
    eexists _, _. split; [reflexivity|]. split; [exact Logic.I|]. split; [|tauto].
    eapply evolves_trans;
      (eapply set_nth_evolves; [ | exact Logic.I | eassumption]); auto.
Qed.

Lemma fill_index_frame (tbl : t_data_table) (b : bool) (index : string)
      (offset limit : Z) (tbl' : t_data_table) :
  fill_index tbl b index offset limit = Ok tbl' ->
  tbl_size tbl' = tbl_size tbl /\
  (forall n, n <> PSP_PKEY -> n <> PSP_OKEY ->
             tbl_columns tbl' !! n = tbl_columns tbl !! n) /\
  (table_wf tbl -> table_wf tbl').
Proof.
  unfold fill_index. destruct b; simpl negb; cbv iota.
  { intros [= <-]. auto. }
  destruct (String.eqb index "") eqn:Hi.
  - destruct (Table.add_column tbl PSP_PKEY DTYPE_INT32 true) as [t1 h1] eqn:H1.
    destruct (Table.add_column t1 PSP_OKEY DTYPE_INT32 true) as [t2 h2] eqn:H2.
    apply add_column_spec in H1 as (-> & Hs1 & Hwf1 & _ & Ho1 & _).
    apply add_column_spec in H2 as (-> & Hs2 & Hwf2 & _ & Ho2 & _).
    intros Hrun. apply fill_index_rows_frame in Hrun as (evs & Hev).
    split; [rewrite (ev_size _ _ _ _ _ Hev); unfold Table.size; congruence|].
    split.
    + intros n Hp Ho. rewrite (ev_frame _ _ _ _ _ Hev) by (intros [E|E]; congruence).
      rewrite Ho2, Ho1 by assumption. reflexivity.
    + intros Hwf. eapply evolves_wf; [exact Hev | auto].
  - intros H. inv_bind.
    pose proof (clone_column_wf _ _ _ _ Ha) as W1.
    pose proof (clone_column_wf _ _ _ _ H) as W2.
    apply clone_column_spec in Ha as (c & _ & Hs1 & Hc1).
    apply clone_column_spec in H as (c' & _ & Hs2 & Hc2).
    split; [congruence|]. split; [|auto].
    intros n Hp Ho. rewrite Hc2, Hc1, !lookup_insert_ne by congruence. reflexivity.
Qed.

Lemma fill_schema_columns_frame (ldr : NumpyLoader) (cols : list (string * t_dtype))
      (cidx : nat) (is_update : bool) (tbl : t_data_table) (b : bool)
      (tbl' : t_data_table) (b' : bool) :
  fill_schema_columns ldr cols cidx is_update tbl b = Ok (tbl', b') ->
  forall n, ~ In n (map fst cols) -> n <> PSP_PKEY -> n <> PSP_OKEY ->
            n <> INDEX_SENTINEL ->
            tbl_columns tbl' !! n = tbl_columns tbl !! n.
Proof.
  revert cidx tbl b. induction cols as [|[name ty] rest IH]; intros cidx tbl b H n Hn Hp Ho Hs.
  - simpl in H. injection H as <- <-. reflexivity.
  - simpl in H, Hn. destruct (String.eqb name INDEX_SENTINEL) eqn:E.
    + destruct (Table.add_column tbl PSP_PKEY ty true) as [t1 h] eqn:Hadd.
      apply add_column_spec in Hadd as (-> & _ & _ & _ & Hother & _).
      inv_bind.
      apply fill_column_evolves in Ha as (evs & Hev).
      apply clone_column_spec in Ha0 as (c & _ & _ & Hc).
      rewrite (IH _ _ _ H n) by tauto.
      rewrite Hc, lookup_insert_ne by congruence.
      rewrite (ev_frame _ _ _ _ _ Hev) by (intros [X|X]; congruence).
      apply Hother. exact Hp.
    + inv_bind. apply get_column_Ok in Ha as ->.
      apply fill_column_evolves in Ha0 as (evs & Hev).
      rewrite (IH _ _ _ H n) by tauto.
      apply (ev_frame _ _ _ _ _ Hev). intros [X|X]; subst; tauto.
Qed.

(** X6: a [fill_table] call that returns keeps the table's size and its
    well-formedness, and leaves alone every column that is neither named in
    the schema nor one of [psp_pkey], [psp_okey] and [__INDEX__]. *)
Theorem fill_table_frame (ldr : NumpyLoader) (tbl : t_data_table)
        (schema : list (string * t_dtype)) (index : string) (offset limit : Z)
        (is_update : bool) (tbl' : t_data_table) :
  fill_table ldr tbl schema index offset limit is_update = Ok tbl' ->
  tbl_size tbl' = tbl_size tbl /\
  (table_wf tbl -> table_wf tbl') /\
  (forall n, ~ In n (map fst schema) -> n <> PSP_PKEY -> n <> PSP_OKEY ->
             n <> INDEX_SENTINEL ->
             tbl_columns tbl' !! n = tbl_columns tbl !! n).
Proof.
  intros H. apply fill_table_Ok in H as (tbl1 & b & Hcols & Hidx).
  pose proof (fill_schema_columns_wf _ _ _ _ _ _ _ _ Hcols) as (Hs1 & Hwf1 & _).
  pose proof (fill_schema_columns_frame _ _ _ _ _ _ _ _ Hcols) as Hf1.
  apply fill_index_frame in Hidx as (Hs2 & Hf2 & Hwf2).
  split; [congruence|]. split; [auto|].
  intros n Hn Hp Ho Hs. rewrite Hf2 by assumption. apply Hf1; assumption.
Qed.

(** ** The index paths *)

Lemma fill_schema_columns_sentinel (ldr : NumpyLoader) (cols : list (string * t_dtype))
      (cidx : nat) (is_update : bool) (tbl : t_data_table) (b : bool)
      (tbl' : t_data_table) (b' : bool) :
  fill_schema_columns ldr cols cidx is_update tbl b = Ok (tbl', b') ->
  b = true \/ In INDEX_SENTINEL (map fst cols) -> b' = true.
Proof.
  revert cidx tbl b. induction cols as [|[name ty] rest IH]; intros cidx tbl b H Hb.
  - simpl in H, Hb. injection H as <- <-. tauto.
  - simpl in H, Hb. destruct (String.eqb name INDEX_SENTINEL) eqn:E.
    + destruct (Table.add_column tbl PSP_PKEY ty true) as [t1 h].
      inv_bind. eapply IH; [exact H | left; reflexivity].
    + apply String.eqb_neq in E. inv_bind. eapply IH; [exact H|].
      destruct Hb as [Hb|[Hb|Hb]]; [tauto | congruence | tauto].
Qed.

(** X7: when the schema has a column named [__INDEX__], [fill_table] does not
    use [index], [offset] or [limit]: the call gives the same result for any
    values of them, a zero [limit] included. *)
Theorem fill_table_sentinel_ignores_index (ldr : NumpyLoader) (tbl : t_data_table)
        (schema : list (string * t_dtype)) (is_update : bool)
        (index index' : string) (offset offset' limit limit' : Z) :
  In INDEX_SENTINEL (map fst schema) ->
  fill_table ldr tbl schema index offset limit is_update
  = fill_table ldr tbl schema index' offset' limit' is_update.
Proof.
  intros Hs. unfold fill_table.
  destruct (assert_init ldr); simpl; [|reflexivity].
  destruct (fill_schema_columns ldr schema 0 is_update tbl false)
    as [[t b]|e] eqn:Hcols; simpl; [|reflexivity].
  rewrite (fill_schema_columns_sentinel _ _ _ _ _ _ _ _ Hcols (or_intror Hs)).
  reflexivity.
Qed.

(** X8: with an explicit index name, [fill_table] does not use [offset] or
    [limit], and when no schema column is named [__INDEX__] a returning call
    leaves in [psp_pkey] and in [psp_okey] the column named [index] as the
    schema loop filled it. *)
Theorem fill_table_explicit_index (ldr : NumpyLoader) (tbl : t_data_table)
        (schema : list (string * t_dtype)) (index : string) (offset limit : Z)
        (is_update : bool) :
  index <> "" ->
  (forall offset' limit',
      fill_table ldr tbl schema index offset' limit' is_update
      = fill_table ldr tbl schema index offset limit is_update) /\
  (forall tbl',
      (forall name ty, In (name, ty) schema -> name <> INDEX_SENTINEL) ->
      fill_table ldr tbl schema index offset limit is_update = Ok tbl' ->
      exists tbl1 c,
        fill_schema_columns ldr schema 0 is_update tbl false = Ok (tbl1, false) /\
        tbl_columns tbl1 !! index = Some c /\
        tbl_columns tbl' !! PSP_PKEY = Some c /\
        tbl_columns tbl' !! PSP_OKEY = Some c).
Proof.
  intros Hidx. apply String.eqb_neq in Hidx. split.
  - intros offset' limit'. unfold fill_table.
    destruct (assert_init ldr); simpl; [|reflexivity].
    destruct (fill_schema_columns ldr schema 0 is_update tbl false)
      as [[t b]|e]; simpl; [|reflexivity].
    unfold fill_index. destruct b; simpl; [reflexivity|]. rewrite Hidx. reflexivity.
  - intros tbl' Hno H.
    destruct reserved_names_distinct as (Hd & _).
    apply fill_table_Ok in H as (tbl1 & b & Hcols & Hfi).
    pose proof (fill_schema_columns_wf _ _ _ _ _ _ _ _ Hcols) as (_ & _ & Hb).
    rewrite (Hb Hno) in Hcols, Hfi.
    unfold fill_index in Hfi. simpl negb in Hfi. cbv iota in Hfi.
    rewrite Hidx in Hfi. inv_bind.
    apply clone_column_spec in Ha as (c & Hc & _ & Hcols1).
    apply clone_column_spec in Hfi as (c' & Hc' & _ & Hcols2).
    assert (c' = c) as ->.
    { rewrite Hcols1 in Hc'. destruct (decide (PSP_PKEY = index)) as [<-|Hne].
      - rewrite lookup_insert_eq in Hc'. congruence.
      - rewrite lookup_insert_ne in Hc' by exact Hne. congruence. }
    exists tbl1, c. split; [exact Hcols|]. split; [exact Hc|].
    rewrite Hcols2, Hcols1. split.
    + rewrite lookup_insert_ne by congruence. apply lookup_insert_eq.
    + apply lookup_insert_eq.
Qed.

(** ** Rows written by the loops *)

(** A row loop whose turn [i] rewrites row [i] of [col] and nothing else:
    after the loop every row below the bound is as its own turn left it. *)
Lemma row_loop_cells {S : Type} (tb : S -> t_data_table) (J : S -> Prop)
      (body : nat -> S -> outcome (t_flow S)) (col : string)
      (Q : nat -> t_cell -> t_cell -> Prop) (hi : nat) :
  (forall i s fl, (i < hi)%nat -> J s -> body i s = Ok fl ->
     exists s', fl = Continue s' /\ J s' /\
       (exists x0 x, cell_at (tb s) col i = Some x0 /\
                     cell_at (tb s') col i = Some x /\ Q i x0 x) /\
       (forall n j, n <> col \/ j <> i ->
                    cell_at (tb s') n j = cell_at (tb s) n j)) ->
  forall s r, J s -> for_range body 0 hi s = Ok r ->
    J r /\
    (forall i, (i < hi)%nat ->
       exists x0 x, cell_at (tb s) col i = Some x0 /\
                    cell_at (tb r) col i = Some x /\ Q i x0 x) /\
    (forall n j, n <> col \/ (hi <= j)%nat ->
                 cell_at (tb r) n j = cell_at (tb s) n j).
Proof.
  intros Hbody s r HJ Hrun.
  pose (I := fun (k : nat) (t : S) =>
               J t /\
               (forall i, (i < k)%nat ->
                  exists x0 x, cell_at (tb s) col i = Some x0 /\
                               cell_at (tb t) col i = Some x /\ Q i x0 x) /\
               (forall n j, n <> col \/ (k <= j)%nat ->
                            cell_at (tb t) n j = cell_at (tb s) n j)).
  apply (for_range_inv body I (I hi) hi) with (n := hi) (i := O) (s := s);
    [ | | auto | lia | | exact Hrun].
  - intros i t t' Hi (HJt & Hdone & Hrest) Hb.
    destruct (Hbody i t _ Hi HJt Hb) as (s' & Heq & HJ' & (x0 & x & H0 & Hx & HQ) & Hfr).
    injection Heq as <-. split; [exact HJ'|]. split.
    + intros j Hj. destruct (decide (j = i)) as [->|Hne].
      * exists x0, x. rewrite <- (Hrest col i) by (right; lia). auto.
      * destruct (Hdone j ltac:(lia)) as (y0 & y & Hy0 & Hy & HQy).
        exists y0, y. rewrite Hfr by (right; exact Hne). auto.
    + intros n j Hnj. rewrite Hfr by (destruct Hnj; [left; assumption | right; lia]).
      apply Hrest. destruct Hnj; [left; assumption | right; lia].
  - intros i t t' Hi (HJt & _) Hb.
    destruct (Hbody i t _ Hi HJt Hb) as (s' & Heq & _). discriminate.
  - split; [exact HJ|]. split; [intros i Hi; lia | reflexivity].
Qed.

Section MarshalCells.

Context (ldr : NumpyLoader) (col : string) (type : t_dtype) (cidx : nat)
        (is_update : bool) (conv : t_val -> outcome t_scalar)
        (row : nat -> t_data_table -> outcome (t_flow t_data_table)).

Let item (i : nat) : t_val := acc_marshal (m_accessor ldr) cidx i type.

Hypothesis Hnone : conv PY_NONE = Fail PY_CAST_ERROR.
Hypothesis Hrow : forall i tbl,
    row i tbl
    = match item i with
      | PY_NONE => do t <- mark_absent is_update tbl col i; Ok (Continue t)
      | _ => do v <- conv (item i);
             do t <- Column.set_nth tbl col i v; Ok (Continue t)
      end.

Let castable (i : nat) : Prop := item i = PY_NONE \/ exists v, conv (item i) = Ok v.

Lemma marshal_row_cells (i : nat) (tbl : t_data_table) (fl : t_flow t_data_table) :
  row i tbl = Ok fl ->
  exists tbl', fl = Continue tbl' /\ col_len tbl' col = col_len tbl col /\
    (exists x0 x, cell_at tbl col i = Some x0 /\ cell_at tbl' col i = Some x /\
       castable i /\
       x = match conv (item i) with
           | Ok v => mk_cell STATUS_VALID v
           | Fail _ => absent_cell is_update x0
           end) /\
    (forall n j, n <> col \/ j <> i -> cell_at tbl' n j = cell_at tbl n j).
Proof.
  rewrite Hrow. unfold castable. intros H.
  destruct (item i) eqn:Hitem.
  1: { inv_bind. subst. eexists. split; [reflexivity|].
       match goal with H : mark_absent _ _ _ _ = Ok _ |- _ =>
         pose proof (mark_absent_effect _ _ _ _ _ H) as (_ & _ & Hlen & _);
         apply mark_absent_cell_at in H as ((x0 & H0 & Hx) & Hfr)
       end.
       split; [apply Hlen|]. split; [|exact Hfr].
       exists x0. eexists. split; [exact H0|]. split; [exact Hx|].
       split; [left; reflexivity|]. rewrite Hnone. reflexivity. }
  all: inv_bind; subst; eexists; (split; [reflexivity|]);
    match goal with H : Column.set_nth _ _ _ _ = Ok _ |- _ =>
      pose proof (set_nth_effect _ _ _ _ _ H) as (_ & _ & Hlen & _);
      apply update_cell_cell_at in H as ((x0 & H0 & Hx) & Hfr)
    end;
    (split; [apply Hlen|]); (split; [|exact Hfr]);
    exists x0; eexists; (split; [exact H0|]); (split; [exact Hx|]);
    match goal with H : conv _ = Ok _ |- _ =>
      split; [right; eexists; exact H | rewrite H; reflexivity]
    end.
Qed.

Lemma marshal_loop_cells (nrows : nat) (tbl tbl' : t_data_table) :
  for_range row 0 nrows tbl = Ok tbl' ->
  forall i, (i < nrows)%nat ->
    castable i /\
    exists x0, cell_at tbl col i = Some x0 /\
      cell_at tbl' col i
      = Some match conv (item i) with
             | Ok v => mk_cell STATUS_VALID v
             | Fail _ => absent_cell is_update x0
             end.
Proof.
  intros Hrun.
  apply (row_loop_cells (fun t => t) (fun _ => True) row col
           (fun i x0 x => castable i /\
              x = match conv (item i) with
                  | Ok v => mk_cell STATUS_VALID v
                  | Fail _ => absent_cell is_update x0
                  end) nrows) in Hrun; [ | | exact Logic.I].
  - destruct Hrun as (_ & Hcells & _). intros i Hi.
    destruct (Hcells i Hi) as (x0 & x & H0 & Hx & Hc & ->). eauto.
  - intros i s fl _ _ Hb.
    apply marshal_row_cells in Hb as (t' & -> & _ & (x0 & x & H0 & Hx & Hc & E) & Hfr).
    exists t'. split; [reflexivity|]. split; [exact Logic.I|]. split; [|exact Hfr].
    exists x0, x. auto.
Qed.

Lemma marshal_loop_total (nrows : nat) (tbl : t_data_table) :
  col_len tbl col = Some nrows ->
  (forall i, (i < nrows)%nat -> castable i) ->
  exists tbl', for_range row 0 nrows tbl = Ok tbl'.
Proof.
  intros Hlen Hc.
  destruct (for_range_total row (fun _ t => col_len t col = Some nrows) nrows)
    with (n := nrows) (i := O) (s := tbl) as (r & Hr & _); [ | lia | exact Hlen | eauto].
  intros i t Hi Ht. rewrite Hrow.
  destruct (Hc i Hi) as [Hn|(v & Hv)].
  - rewrite Hn.
    destruct (mark_absent_in_range is_update t col i nrows Ht Hi) as (t' & Ht').
    rewrite Ht'. simpl. eexists. split; [reflexivity|].
    apply mark_absent_effect in Ht' as (_ & _ & Hl & _). rewrite Hl. exact Ht.
  - destruct (set_nth_in_range t col i nrows v Ht Hi) as (t' & Ht').
    assert (Hl : col_len t' col = Some nrows).
    { apply set_nth_effect in Ht' as (_ & _ & Hl & _). rewrite Hl. exact Ht. }
    destruct (item i) eqn:Hitem; [rewrite Hnone in Hv; discriminate| | |];
      rewrite Hv; simpl; rewrite Ht'; simpl; eauto.
Qed.

End MarshalCells.

(** ** The fills through [marshal] *)

Ltac marshal_fill iter row conv Hinit Hsize :=
  assert (Hnone : conv PY_NONE = Fail PY_CAST_ERROR) by reflexivity;
  match goal with
  | |- context [iter ?ldr _ _ ?col _ _ ?type ?cidx ?upd] =>
      assert (Hrow : forall i t,
                 row ldr col type cidx upd i t
                 = match acc_marshal (m_accessor ldr) cidx i type with
                   | PY_NONE => do t' <- mark_absent upd t col i; Ok (Continue t')
                   | _ => do v <- conv (acc_marshal (m_accessor ldr) cidx i type);
                          do t' <- Column.set_nth t col i v; Ok (Continue t')
                   end)
        by (intros i t; unfold row;
            destruct (acc_marshal (m_accessor ldr) cidx i type) as [|s|b|d];
            try reflexivity; simpl;
            match goal with
            | |- context [Column.set_nth ?a ?b ?c ?e] =>
                destruct (Column.set_nth a b c e); reflexivity
            end);
      unfold iter, assert_init; rewrite Hinit, Hsize; simpl;
      split;
      [ split;
        [ intros (tbl' & Hrun) i Hi;
          destruct (marshal_loop_cells ldr col type cidx upd conv _ Hnone Hrow
                      _ _ _ Hrun i Hi) as ([Hc|(v & Hv)] & _);
          [ left; exact Hc
          | right; destruct (acc_marshal (m_accessor ldr) cidx i type);
            try discriminate Hv; eauto ]
        | intros Hall;
          apply (marshal_loop_total ldr col type cidx upd conv _ Hnone Hrow);
          [ apply size_col_len; exact Hsize
          | intros i Hi; destruct (Hall i Hi) as [Hc|(s & Hs)];
            [ left; exact Hc | right; rewrite Hs; simpl; eauto ] ] ]
      | intros tbl' Hrun i Hi;
        destruct (marshal_loop_cells ldr col type cidx upd conv _ Hnone Hrow
                    _ _ _ Hrun i Hi) as (_ & x0 & H0 & Hx);
        exists x0; split; [exact H0|]; rewrite Hx;
        destruct (acc_marshal (m_accessor ldr) cidx i type); reflexivity ]
  end.

(** X9: the string fill returns exactly when [marshal] gives, for every row
    of the column, [None] or a text; it then leaves each row with a text
    valid and holding that text, and each row with [None] marked absent with
    its stored element kept. *)
Theorem fill_string_iter_rows (ldr : NumpyLoader) (array : t_buffer)
        (tbl : t_data_table) (col name : string) (np_dtype type : t_dtype)
        (cidx : nat) (is_update : bool) (nrows : nat) :
  m_init ldr = true ->
  Column.size tbl col = Ok nrows ->
  ((exists tbl',
       fill_string_iter ldr array tbl col name np_dtype type cidx is_update = Ok tbl')
   <-> (forall i, (i < nrows)%nat ->
          acc_marshal (m_accessor ldr) cidx i type = PY_NONE \/
          exists s, acc_marshal (m_accessor ldr) cidx i type = PY_STR s)) /\
  (forall tbl',
      fill_string_iter ldr array tbl col name np_dtype type cidx is_update = Ok tbl' ->
      forall i, (i < nrows)%nat ->
        exists x0, cell_at tbl col i = Some x0 /\
          cell_at tbl' col i
          = Some match acc_marshal (m_accessor ldr) cidx i type with
                 | PY_STR s => mk_cell STATUS_VALID (SC_STR (to_bytes s))
                 | _ => absent_cell is_update x0
                 end).
Proof.
  intros Hinit Hsize.
  pose (conv := fun it : t_val => do w <- cast_wstring it; Ok (SC_STR (to_bytes w))).
  marshal_fill fill_string_iter fill_string_row conv Hinit Hsize.
Qed.

(** X10: the bool fill returns exactly when [marshal] gives, for every row of
    the column, [None] or a boolean; it then leaves each row with a boolean
    valid and holding it, and each row with [None] marked absent with its
    stored element kept. *)
Theorem fill_bool_iter_rows (ldr : NumpyLoader) (array : t_buffer)
        (tbl : t_data_table) (col name : string) (np_dtype type : t_dtype)
        (cidx : nat) (is_update : bool) (nrows : nat) :
  m_init ldr = true ->
  Column.size tbl col = Ok nrows ->
  ((exists tbl',
       fill_bool_iter ldr array tbl col name np_dtype type cidx is_update = Ok tbl')
   <-> (forall i, (i < nrows)%nat ->
          acc_marshal (m_accessor ldr) cidx i type = PY_NONE \/
          exists b, acc_marshal (m_accessor ldr) cidx i type = PY_BOOL b)) /\
  (forall tbl',
      fill_bool_iter ldr array tbl col name np_dtype type cidx is_update = Ok tbl' ->
      forall i, (i < nrows)%nat ->
        exists x0, cell_at tbl col i = Some x0 /\
          cell_at tbl' col i
          = Some match acc_marshal (m_accessor ldr) cidx i type with
                 | PY_BOOL b => mk_cell STATUS_VALID (SC_BOOL b)
                 | _ => absent_cell is_update x0
                 end).
Proof.
  intros Hinit Hsize.
  pose (conv := fun it : t_val => do b <- cast_bool it; Ok (SC_BOOL b)).
  marshal_fill fill_bool_iter fill_bool_row conv Hinit Hsize.
Qed.

(** X11: the date fill returns exactly when [marshal] gives, for every row of
    the column, [None] or a dictionary all of whose values fit 32 bits (any
    other dictionary fails the cast to a map of 32-bit integers); it then
    leaves each row with a dictionary valid and holding the date of its
    [year], [month] and [day] entries, a missing entry counting as 0, and
    each row with [None] marked absent with its stored element kept. *)
Theorem fill_date_iter_rows (ldr : NumpyLoader) (array : t_buffer)
        (tbl : t_data_table) (col name : string) (np_dtype type : t_dtype)
        (cidx : nat) (is_update : bool) (nrows : nat) :
  m_init ldr = true ->
  Column.size tbl col = Ok nrows ->
  ((exists tbl',
       fill_date_iter ldr array tbl col name np_dtype type cidx is_update = Ok tbl')
   <-> (forall i, (i < nrows)%nat ->
          acc_marshal (m_accessor ldr) cidx i type = PY_NONE \/
          exists d, acc_marshal (m_accessor ldr) cidx i type = PY_DICT d /\
                    dict_fits_int32 d = true)) /\
  (forall tbl',
      fill_date_iter ldr array tbl col name np_dtype type cidx is_update = Ok tbl' ->
      forall i, (i < nrows)%nat ->
        exists x0, cell_at tbl col i = Some x0 /\
          cell_at tbl' col i
          = Some match acc_marshal (m_accessor ldr) cidx i type with
                 | PY_DICT d =>
                     mk_cell STATUS_VALID
                             (SC_DATE (map_at d "year") (map_at d "month")
                                      (map_at d "day"))
                 | _ => absent_cell is_update x0
                 end).
Proof.
  intros Hinit Hsize.
  pose (conv := fun it : t_val =>
                  do d <- cast_map it;
                  Ok (SC_DATE (map_at d "year") (map_at d "month") (map_at d "day"))).
  assert (Hnone : conv PY_NONE = Fail PY_CAST_ERROR) by reflexivity.
  assert (Hrow : forall i t,
             fill_date_row ldr col type cidx is_update i t
             = match acc_marshal (m_accessor ldr) cidx i type with
               | PY_NONE => do t' <- mark_absent is_update t col i; Ok (Continue t')
               | _ => do v <- conv (acc_marshal (m_accessor ldr) cidx i type);
                      do t' <- Column.set_nth t col i v; Ok (Continue t')
               end).
  { intros i t. unfold fill_date_row.
    destruct (acc_marshal (m_accessor ldr) cidx i type) as [|s|b|d]; try reflexivity.
    unfold conv, cast_map. destruct (dict_fits_int32 d); reflexivity. }
  unfold fill_date_iter, assert_init. rewrite Hinit, Hsize. simpl.
  split; [split|].
  - intros (tbl' & Hrun) i Hi.
    destruct (marshal_loop_cells ldr col type cidx is_update conv _ Hnone Hrow
                _ _ _ Hrun i Hi) as ([Hc|(v & Hv)] & _); [left; exact Hc|].
    right. destruct (acc_marshal (m_accessor ldr) cidx i type) as [|s|b|d];
      try discriminate Hv.
    exists d. split; [reflexivity|]. unfold conv, cast_map in Hv.
    destruct (dict_fits_int32 d); [reflexivity | discriminate Hv].
  - intros Hall.
    apply (marshal_loop_total ldr col type cidx is_update conv _ Hnone Hrow);
      [apply size_col_len; exact Hsize|].
    intros i Hi. destruct (Hall i Hi) as [Hc|(d & Hd & Hfit)]; [left; exact Hc|].
    right. rewrite Hd. unfold conv, cast_map. rewrite Hfit. simpl. eauto.
  - intros tbl' Hrun i Hi.
    destruct (marshal_loop_cells ldr col type cidx is_update conv _ Hnone Hrow
                _ _ _ Hrun i Hi) as (Hcast & x0 & H0 & Hx).
    exists x0. split; [exact H0|]. rewrite Hx.
    destruct Hcast as [Hc|(v & Hv)]; [rewrite Hc; reflexivity|].
    destruct (acc_marshal (m_accessor ldr) cidx i type) as [|s|b|d];
      try discriminate Hv.
    unfold conv, cast_map in *.
    destruct (dict_fits_int32 d); [reflexivity | discriminate Hv].
Qed.

(** ** The numeric fill, row by row *)

Lemma fill_numeric_row_bound (ldr : NumpyLoader) (ptr : t_buffer) (name : string)
      (np_dtype : t_dtype) (cidx : nat) (is_update : bool) (i : nat)
      (st : t_numeric_state) (fl : t_flow t_numeric_state) :
  fill_numeric_row ldr ptr name np_dtype cidx is_update i st = Ok fl ->
  (i * 8 + 8 <= length ptr)%nat /\ exists st', fl = Continue st'.
Proof.
  destruct st as [[tbl col] type]. intros H. split.
  - unfold fill_numeric_row in H. apply bind_Ok in H as (x & Hx & _).
    apply read_double_Ok in Hx as [_ Hb]. exact Hb.
  - apply fill_numeric_row_spec with (T := fun _ => True) (P := fun _ => True) in H;
      try (intros; exact Logic.I).
    destruct H as (t' & c' & ty' & evs & -> & _). eauto.
Qed.

Lemma fill_numeric_rows_bound (ldr : NumpyLoader) (ptr : t_buffer) (name : string)
      (np_dtype : t_dtype) (cidx : nat) (is_update : bool) (nrows : nat)
      (st r : t_numeric_state) :
  for_range (fill_numeric_row ldr ptr name np_dtype cidx is_update) 0 nrows st = Ok r ->
  (nrows * 8 <= length ptr)%nat.
Proof.
  intros H.
  apply (for_range_inv (fill_numeric_row ldr ptr name np_dtype cidx is_update)
           (fun k _ => (k * 8 <= length ptr)%nat)
           (fun _ => (nrows * 8 <= length ptr)%nat) nrows)
    with (n := nrows) (i := O) (s := st) (r := r); [ | | auto | lia | simpl; lia | exact H].
  - intros i s s' _ _ Hb. apply fill_numeric_row_bound in Hb as [Hb _]. lia.
  - intros i s s' _ _ Hb. apply fill_numeric_row_bound in Hb as [_ (st' & E)].
    discriminate.
Qed.

Section NumericRows.

Context (ldr : NumpyLoader) (ptr : t_buffer) (name : string) (np_dtype : t_dtype)
        (cidx : nat) (is_update : bool) (nrows : nat).
Hypothesis Hptr : (nrows * 8 <= length ptr)%nat.

Let row := fill_numeric_row ldr ptr name np_dtype cidx is_update.

(** A turn that does not promote: the row is written at the stride of the
    destination type, or left alone. *)
Lemma numeric_row_store (k : nat) (tbl : t_data_table) (col : string) (type : t_dtype) :
  (k < nrows)%nat -> col_len tbl col = Some nrows ->
  npy_isnan (double_at ptr k) = false ->
  (type = DTYPE_INT32 -> out_of_int32_range (double_at ptr k) = false) ->
  exists tbl',
    row k (tbl, col, type) = Ok (Continue (tbl', col, type)) /\
    match numeric_store np_dtype type ptr k with
    | Some v => Column.set_nth tbl col k v = Ok tbl'
    | None => tbl' = tbl
    end.
Proof.
  intros Hk Hlen Hnan Hin.
  destruct (decide (type = DTYPE_INT32)) as [->|Hne32].
  { exact (numeric_row_int32 ldr ptr name np_dtype cidx is_update nrows Hptr
             k tbl col Hk Hlen Hnan (Hin eq_refl)). }
  destruct (decide (type = DTYPE_FLOAT64)) as [->|Hne64].
  { exact (numeric_row_float64 ldr ptr name np_dtype cidx is_update nrows Hptr
             k tbl col Hk Hlen Hnan). }
  unfold row, fill_numeric_row.
  rewrite read_double_in_bounds by lia. unfold bind at 1. rewrite Hnan.
  destruct type; try congruence; cbv beta iota; unfold numeric_store, source_elem;
    simpl fmap; cbv beta iota; try (eexists; split; reflexivity).
  all: unfold read_uint, read_float; try rewrite read_int_in_bounds by lia;
    try rewrite load_in_bounds by lia; cbn [bind];
    try rewrite npy_isnan_int_false; cbv beta iota;
    match goal with
    | Hl : col_len ?tb ?c = Some _, Hlt : (?j < _)%nat
      |- context [Column.set_nth ?tb ?c ?j ?v] =>
        destruct (set_nth_in_range tb c j _ v Hl Hlt) as (t & Ht);
        rewrite Ht; cbn [bind]; exists t; split; reflexivity
    end.
Qed.

Context (tbl0 : t_data_table) (col : string) (type : t_dtype).
Hypothesis Hlen0 : col_len tbl0 col = Some nrows.
Hypothesis Hin : type = DTYPE_INT32 ->
                 forall i, (i < nrows)%nat -> out_of_int32_range (double_at ptr i) = false.

Let inv (k : nat) (s : t_numeric_state) : Prop :=
  snd (fst s) = col /\ snd s = type /\
  col_len (fst (fst s)) col = Some nrows /\
  (forall n, col_dtype <$> tbl_columns (fst (fst s)) !! n
             = col_dtype <$> tbl_columns tbl0 !! n) /\
  (forall i, (i < k)%nat ->
     exists x0, cell_at tbl0 col i = Some x0 /\
       cell_at (fst (fst s)) col i
       = Some (numeric_cell is_update np_dtype type ptr i x0)) /\
  (forall j, (k <= j)%nat -> cell_at (fst (fst s)) col j = cell_at tbl0 col j).

Lemma numeric_rows_step (k : nat) (s : t_numeric_state) :
  (k < nrows)%nat -> inv k s ->
  exists s', row k s = Ok (Continue s') /\ inv (Datatypes.S k) s'.
Proof.
  intros Hk. destruct s as [[t c] ty]. unfold inv. simpl.
  intros (-> & -> & Hlen & Hdt & Hdone & Hrest).
  destruct (col_len_cell_at _ _ _ _ Hlen0 Hk) as (x0 & Hx0).
  assert (Hnew : forall t' x,
             cell_at t' col k = Some x ->
             (forall n j, n <> col \/ j <> k -> cell_at t' n j = cell_at t n j) ->
             x = numeric_cell is_update np_dtype type ptr k x0 ->
             (forall i, (i < Datatypes.S k)%nat ->
                exists y0, cell_at tbl0 col i = Some y0 /\
                  cell_at t' col i
                  = Some (numeric_cell is_update np_dtype type ptr i y0)) /\
             (forall j, (Datatypes.S k <= j)%nat ->
                cell_at t' col j = cell_at tbl0 col j)).
  { intros t' x Hx Hfr ->. split.
    - intros i Hi. destruct (decide (i = k)) as [->|Hne]; [eauto|].
      rewrite Hfr by (right; exact Hne). apply Hdone. lia.
    - intros j Hj. rewrite Hfr by (right; lia). apply Hrest. lia. }
  destruct (npy_isnan (double_at ptr k)) eqn:Hnan.
  - destruct (numeric_row_nan ldr ptr name np_dtype cidx is_update nrows Hptr
                k t col type Hk Hlen Hnan) as (t' & Hrow & Hm).
    exists (t', col, type). split; [exact Hrow|]. simpl.
    pose proof (mark_absent_effect _ _ _ _ _ Hm) as (_ & _ & Hl & Hd & _).
    apply mark_absent_cell_at in Hm as ((x & Hx & Hx') & Hfr).
    split; [reflexivity|]. split; [reflexivity|].
    split; [rewrite Hl; exact Hlen|]. split; [intros n; rewrite Hd; apply Hdt|].
    apply (Hnew t' _ Hx' Hfr). unfold numeric_cell, absent_cell. rewrite Hnan.
    rewrite Hrest in Hx by lia. congruence.
  - destruct (numeric_row_store k t col type Hk Hlen Hnan) as (t' & Hrow & Hst).
    { intros E. apply Hin; assumption. }
    exists (t', col, type). split; [exact Hrow|]. simpl.
    split; [reflexivity|]. split; [reflexivity|].
    destruct (numeric_store np_dtype type ptr k) as [v|] eqn:Hv.
    + pose proof (set_nth_effect _ _ _ _ _ Hst) as (Hx' & Hfr & Hl & Hd & _).
      split; [rewrite Hl; exact Hlen|]. split; [intros n; rewrite Hd; apply Hdt|].
      apply (Hnew t' _ Hx' Hfr). unfold numeric_cell. rewrite Hnan, Hv. reflexivity.
    + subst t'. split; [exact Hlen|]. split; [exact Hdt|].
      apply (Hnew t x0); [rewrite Hrest by lia; exact Hx0 | reflexivity |].
      unfold numeric_cell. rewrite Hnan, Hv. reflexivity.
Qed.

Lemma numeric_rows_run :
  exists r, for_range row 0 nrows (tbl0, col, type) = Ok r /\ inv nrows r.
Proof.
  apply (for_range_total row inv nrows) with (n := nrows) (i := O); [ | lia | ].
  - intros i s Hi HI. apply numeric_rows_step; assumption.
  - unfold inv. simpl. repeat split; auto. intros i Hi. lia.
Qed.

End NumericRows.

(** The numeric fill of a column it does not promote. *)
Lemma fill_numeric_iter_cells (ldr : NumpyLoader) (array : t_buffer)
      (tbl : t_data_table) (col name : string) (np_dtype type : t_dtype)
      (cidx : nat) (is_update : bool) (nrows : nat) (tbl' : t_data_table) :
  Column.size tbl col = Ok nrows ->
  (type = DTYPE_INT32 ->
   forall i, (i < nrows)%nat -> out_of_int32_range (double_at array i) = false) ->
  fill_numeric_iter ldr array tbl col name np_dtype type cidx is_update = Ok tbl' ->
  (nrows * 8 <= length array)%nat /\
  (forall n, col_dtype <$> tbl_columns tbl' !! n = col_dtype <$> tbl_columns tbl !! n) /\
  (forall i, (i < nrows)%nat ->
     exists x0, cell_at tbl col i = Some x0 /\
       cell_at tbl' col i = Some (numeric_cell is_update np_dtype type array i x0)).
Proof.
  intros Hsize Hin Hrun. unfold fill_numeric_iter in Hrun. inv_bind.
  rewrite Hsize in Ha0. injection Ha0 as <-. subst tbl'.
  pose proof (fill_numeric_rows_bound _ _ _ _ _ _ _ _ _ Ha1) as Hb.
  split; [exact Hb|].
  apply size_col_len in Hsize.
  destruct (numeric_rows_run ldr array name np_dtype cidx is_update nrows Hb
              tbl col type Hsize Hin) as (r & Hr & _ & _ & _ & Hdt & Hcells & _).
  rewrite Hr in Ha1. injection Ha1 as <-. split; [exact Hdt | exact Hcells].
Qed.

(** X12: when the numeric fill of a column returns without a value outside
    the 32-bit range in a 32-bit integer column, the buffer holds 8 bytes for
    every row, no column has changed its type tag, and each row is marked
    absent where the 8 bytes at [8 * row] read as a NaN, and otherwise holds
    the element read at the stride of the destination type (not of the
    source), rows of a type outside the [switch] staying as they were. *)
Theorem fill_numeric_iter_rows (ldr : NumpyLoader) (array : t_buffer)
        (tbl : t_data_table) (col name : string) (np_dtype type : t_dtype)
        (cidx : nat) (is_update : bool) (nrows : nat) (tbl' : t_data_table) :
  Column.size tbl col = Ok nrows ->
  (type = DTYPE_INT32 ->
   forall i, (i < nrows)%nat -> out_of_int32_range (double_at array i) = false) ->
  fill_numeric_iter ldr array tbl col name np_dtype type cidx is_update = Ok tbl' ->
  (nrows * 8 <= length array)%nat /\
  (forall n, col_dtype <$> tbl_columns tbl' !! n = col_dtype <$> tbl_columns tbl !! n) /\
  (forall i, (i < nrows)%nat ->
     exists x0, cell_at tbl col i = Some x0 /\
       cell_at tbl' col i
       = Some (if npy_isnan (double_at array i) then absent_cell is_update x0
               else match type with
                    | DTYPE_INT32 =>
                        mk_cell STATUS_VALID
                                (SC_INT C_INT32 (int32_of_source np_dtype array i))
                    | DTYPE_FLOAT64 =>
                        mk_cell STATUS_VALID
                                (SC_FLOAT64 (double_of_source np_dtype array i))
                    | _ =>
                        match source_elem type with
                        | Some E => mk_cell STATUS_VALID (elem_at E array i)
                        | None => x0
                        end
                    end)).
Proof.
  intros Hsize Hin Hrun.
  destruct (fill_numeric_iter_cells _ _ _ _ _ _ _ _ _ _ _ Hsize Hin Hrun)
    as (Hb & Hdt & Hcells).
  split; [exact Hb|]. split; [exact Hdt|].
  intros i Hi. destruct (Hcells i Hi) as (x0 & H0 & Hx).
  exists x0. split; [exact H0|]. rewrite Hx. unfold numeric_cell, numeric_store.
  destruct (npy_isnan (double_at array i)); [reflexivity|].
  destruct type; simpl; reflexivity.
Qed.

(** ** When the buffer fills return *)

Lemma numeric_rows_total (ldr : NumpyLoader) (ptr : t_buffer) (name : string)
      (np_dtype : t_dtype) (cidx : nat) (is_update : bool) (nrows : nat)
      (tbl : t_data_table) (col : string) (type : t_dtype) :
  (nrows * 8 <= length ptr)%nat ->
  col_len tbl col = Some nrows ->
  (type = DTYPE_INT32 -> name = col) ->
  exists r, for_range (fill_numeric_row ldr ptr name np_dtype cidx is_update)
                      0 nrows (tbl, col, type) = Ok r.
Proof.
  intros Hptr Hlen Hname.
  pose (J := fun (_ : nat) (s : t_numeric_state) =>
               snd (fst s) = col /\ col_len (fst (fst s)) col = Some nrows /\
               (snd s = type \/ (type = DTYPE_INT32 /\ snd s = DTYPE_FLOAT64))).
  destruct (for_range_total (fill_numeric_row ldr ptr name np_dtype cidx is_update)
              J nrows) with (n := nrows) (i := O) (s := (tbl, col, type))
    as (r & Hr & _); [ | lia | unfold J; simpl; auto | eauto].
  intros k [[t c] ty] Hk (Hc & Hl & Hty). simpl in Hc, Hl, Hty. subst c.
  destruct (npy_isnan (double_at ptr k)) eqn:Hnan.
  { destruct (numeric_row_nan ldr ptr name np_dtype cidx is_update nrows Hptr
                k t col ty Hk Hl Hnan) as (t' & Hrow & Hm).
    exists (t', col, ty). split; [exact Hrow|]. unfold J. simpl.
    apply mark_absent_effect in Hm as (_ & _ & Hl' & _). rewrite Hl'. auto. }
  destruct (decide (ty = DTYPE_INT32
                    /\ out_of_int32_range (double_at ptr k) = true)) as [[-> Hout]|Hno].
  - assert (Hn : name = col).
    { apply Hname. destruct Hty as [<-|[_ E]]; [reflexivity | discriminate]. }
    subst name.
    destruct (numeric_row_promote ldr ptr col np_dtype cidx is_update nrows Hptr
                k t col Hk Hl Hout) as (t1 & t' & Hrow & Hp & Hs).
    exists (t', col, DTYPE_FLOAT64). split; [exact Hrow|]. unfold J. simpl.
    apply promote_column_effect in Hp as (_ & Hl1 & _).
    apply set_nth_effect in Hs as (_ & _ & Hl2 & _).
    rewrite Hl2, Hl1. split; [reflexivity|]. split; [exact Hl|].
    right. split; [|reflexivity]. destruct Hty as [<-|[E _]]; [reflexivity | exact E].
  - destruct (numeric_row_store ldr ptr name np_dtype cidx is_update nrows Hptr
                k t col ty Hk Hl Hnan) as (t' & Hrow & Hst).
    { intros ->. destruct (out_of_int32_range (double_at ptr k)); [|reflexivity].
      exfalso. apply Hno. auto. }
    exists (t', col, ty). split; [exact Hrow|]. unfold J. simpl.
    split; [reflexivity|]. split; [|exact Hty].
    destruct (numeric_store np_dtype ty ptr k).
    + apply set_nth_effect in Hst as (_ & _ & Hl' & _). rewrite Hl'. exact Hl.
    + subst t'. exact Hl.
Qed.

(** X13: the numeric fill of an initialised loader returns exactly when the
    buffer holds 8 bytes for every row of the column, whatever the width of
    the source elements and of the destination type (for a 32-bit integer
    column, where the column handle is that of the column named [name]). *)
Theorem fill_numeric_iter_returns (ldr : NumpyLoader) (array : t_buffer)
        (tbl : t_data_table) (col name : string) (np_dtype type : t_dtype)
        (cidx : nat) (is_update : bool) (nrows : nat) :
  m_init ldr = true ->
  Column.size tbl col = Ok nrows ->
  (type = DTYPE_INT32 -> name = col) ->
  ((exists tbl',
       fill_numeric_iter ldr array tbl col name np_dtype type cidx is_update = Ok tbl')
   <-> (nrows * 8 <= length array)%nat).
Proof.
  intros Hinit Hsize Hname. unfold fill_numeric_iter, assert_init.
  rewrite Hinit, Hsize. cbn [bind]. split.
  - intros (tbl' & H). inv_bind. eapply fill_numeric_rows_bound. eassumption.
  - intros Hb. apply size_col_len in Hsize.
    destruct (numeric_rows_total ldr array name np_dtype cidx is_update nrows
                tbl col type Hb Hsize Hname) as (r & ->).
    cbn [bind]. eauto.
Qed.

Lemma fill_datetime_rows_bound (array : t_buffer) (col : string) (is_update : bool)
      (nrows : nat) (tbl tbl' : t_data_table) :
  for_range (fill_datetime_row array col is_update) 0 nrows tbl = Ok tbl' ->
  (nrows * 8 <= length array)%nat.
Proof.
  intros H.
  apply (for_range_inv (fill_datetime_row array col is_update)
           (fun k _ => (k * 8 <= length array)%nat)
           (fun _ => (nrows * 8 <= length array)%nat) nrows)
    with (n := nrows) (i := O) (s := tbl) (r := tbl');
    [ | | auto | lia | simpl; lia | exact H].
  - intros i s s' _ _ Hb. unfold fill_datetime_row in Hb.
    apply bind_Ok in Hb as (x & Hx & _). apply read_int_Ok in Hx as [_ Hx]. lia.
  - intros i s s' _ _ Hb. unfold fill_datetime_row in Hb. inv_bind.
    rewrite npy_isnan_int_false in Hb. inv_bind. discriminate.
Qed.

(** The datetime fill, row by row. *)
Lemma fill_datetime_iter_cells (ldr : NumpyLoader) (array : t_buffer)
      (tbl : t_data_table) (col name : string) (np_dtype type : t_dtype)
      (cidx : nat) (is_update : bool) (nrows : nat) (tbl' : t_data_table) :
  Column.size tbl col = Ok nrows ->
  fill_datetime_iter ldr array tbl col name np_dtype type cidx is_update = Ok tbl' ->
  forall i, (i < nrows)%nat ->
    cell_at tbl' col i
    = Some (mk_cell STATUS_VALID
                    (SC_INT C_INT64 (wrap_signed 64 (int_at 8 array i * 1000)))).
Proof.
  intros Hsize Hrun. unfold fill_datetime_iter in Hrun. inv_bind.
  rewrite Hsize in Ha0. injection Ha0 as <-.
  apply (row_loop_cells (fun t => t) (fun _ => True)
           (fill_datetime_row array col is_update) col
           (fun i _ x =>
              x = mk_cell STATUS_VALID
                          (SC_INT C_INT64 (wrap_signed 64 (int_at 8 array i * 1000))))
           nrows) in Hrun; [ | | exact Logic.I].
  - destruct Hrun as (_ & Hcells & _). intros i Hi.
    destruct (Hcells i Hi) as (x0 & x & _ & Hx & ->). exact Hx.
  - intros i s fl _ _ Hb. unfold fill_datetime_row in Hb. inv_bind.
    rewrite npy_isnan_int_false in Hb. inv_bind. subst.
    match goal with H : read_int _ _ _ = Ok _ |- _ => apply read_int_Ok in H as [-> _] end.
    match goal with H : Column.set_nth _ _ _ _ = Ok _ |- _ =>
      apply update_cell_cell_at in H as ((x0 & H0 & Hx) & Hfr) end.
    eexists. split; [reflexivity|]. split; [exact Logic.I|]. split; [|exact Hfr].
    exists x0. eexists. split; [exact H0|]. split; [exact Hx | reflexivity].
Qed.

(** X14: the datetime fill of an initialised loader returns exactly when the
    buffer holds 8 bytes for every row of the column. *)
Theorem fill_datetime_iter_returns (ldr : NumpyLoader) (array : t_buffer)
        (tbl : t_data_table) (col name : string) (np_dtype type : t_dtype)
        (cidx : nat) (is_update : bool) (nrows : nat) :
  m_init ldr = true ->
  Column.size tbl col = Ok nrows ->
  ((exists tbl',
       fill_datetime_iter ldr array tbl col name np_dtype type cidx is_update = Ok tbl')
   <-> (nrows * 8 <= length array)%nat).
Proof.
  intros Hinit Hsize. unfold fill_datetime_iter, assert_init.
  rewrite Hinit, Hsize. cbn [bind]. split.
  - intros (tbl' & H). eapply fill_datetime_rows_bound. exact H.
  - intros Hb. apply size_col_len in Hsize.
    destruct (for_range_total (fill_datetime_row array col is_update)
                (fun _ t => col_len t col = Some nrows) nrows)
      with (n := nrows) (i := O) (s := tbl) as (r & Hr & _);
      [ | lia | exact Hsize | eauto].
    intros i t Hi Hl. unfold fill_datetime_row.
    rewrite read_int_in_bounds by lia. cbn [bind]. rewrite npy_isnan_int_false.
    destruct (set_nth_in_range t col i nrows
                (SC_INT C_INT64 (wrap_signed 64 (int_at 8 array i * 1000))) Hl Hi)
      as (t' & Ht).
    rewrite Ht. cbn [bind]. eexists. split; [reflexivity|].
    apply set_nth_effect in Ht as (_ & _ & Hl' & _). rewrite Hl'. exact Hl.
Qed.

(** ** The fills that read the buffer do not consult the accessor *)

Lemma for_range_ext {S : Type} (body body' : nat -> S -> outcome (t_flow S)) :
  (forall i s, body i s = body' i s) ->
  forall n i s, for_range body i n s = for_range body' i n s.
Proof.
  intros H n. induction n as [|n IH]; intros i s; simpl; [reflexivity|].
  rewrite H. destruct (body' i s) as [[s'|s']|e]; auto.
Qed.

Lemma fill_numeric_row_accessor (ldr ldr' : NumpyLoader) (ptr : t_buffer)
      (name : string) (np_dtype : t_dtype) (cidx cidx' : nat) (is_update : bool)
      (i : nat) (st : t_numeric_state) :
  fill_numeric_row ldr ptr name np_dtype cidx is_update i st
  = fill_numeric_row ldr' ptr name np_dtype cidx' is_update i st.
Proof.
  destruct st as [[t c] ty]. unfold fill_numeric_row.
  destruct (read_double ptr i) as [x|e] eqn:Hx; cbn [bind]; [|reflexivity].
  destruct (npy_isnan x) eqn:Hnan; [reflexivity|].
  destruct ty; try reflexivity.
  destruct (read_int 8 ptr i); cbn [bind]; [|reflexivity].
    rewrite npy_isnan_int_false. reflexivity.
Qed.

(** X15: the numeric and the datetime fill use the loader for its
    initialisation flag only: the accessor, its [marshal] and the column
    index [cidx] have no influence on the result, the call of the string
    fill in the numeric loop notwithstanding. *)
Theorem buffer_fills_ignore_accessor (ldr ldr' : NumpyLoader) (array : t_buffer)
        (tbl : t_data_table) (col name : string) (np_dtype type : t_dtype)
        (cidx cidx' : nat) (is_update : bool) :
  m_init ldr = m_init ldr' ->
  fill_numeric_iter ldr array tbl col name np_dtype type cidx is_update
  = fill_numeric_iter ldr' array tbl col name np_dtype type cidx' is_update /\
  fill_datetime_iter ldr array tbl col name np_dtype type cidx is_update
  = fill_datetime_iter ldr' array tbl col name np_dtype type cidx' is_update.
Proof.
  intros Hinit. unfold fill_numeric_iter, fill_datetime_iter, assert_init.
  rewrite Hinit. split; [|reflexivity].
  destruct (m_init ldr'); cbn [bind]; [|reflexivity].
  destruct (Column.size tbl col) as [nrows|e]; cbn [bind]; [|reflexivity].
  rewrite (for_range_ext _ (fill_numeric_row ldr' array name np_dtype cidx' is_update));
    [reflexivity|].
  intros i s. apply fill_numeric_row_accessor.
Qed.

(** X23: the datetime fill stores numpy's not-a-time, the integer [-2^63],
    as a valid timestamp 0: the product by 1000 wraps around to 0 and no
    test for it is made. *)
Theorem fill_datetime_iter_nat_is_epoch (ldr : NumpyLoader) (array : t_buffer)
        (tbl : t_data_table) (col name : string) (np_dtype type : t_dtype)
        (cidx : nat) (is_update : bool) (nrows : nat) (tbl' : t_data_table) :
  Column.size tbl col = Ok nrows ->
  fill_datetime_iter ldr array tbl col name np_dtype type cidx is_update = Ok tbl' ->
  forall i, (i < nrows)%nat -> int_at 8 array i = - 2 ^ 63 ->
    cell_at tbl' col i = Some (mk_cell STATUS_VALID (SC_INT C_INT64 0)).
Proof.
  intros Hsize Hrun i Hi Hnat.
  rewrite (fill_datetime_iter_cells _ _ _ _ _ _ _ _ _ _ _ Hsize Hrun i Hi), Hnat.
  reflexivity.
Qed.

(** ** The bulk copy, row by row *)

Lemma copy_array_elem (ldr : NumpyLoader) (src : t_buffer) (tbl : t_data_table)
      (dest : string) (np_dtype : t_dtype) (E : t_elem) (offset : nat) :
  m_init ldr = true ->
  source_elem np_dtype = Some E ->
  copy_array ldr src tbl dest np_dtype offset
  = do t <- copy_array_helper E src tbl dest offset; Ok (FILL_SUCCEED, t).
Proof.
  intros Hinit HE. unfold copy_array, assert_init. rewrite Hinit. cbn [bind].
  destruct np_dtype; try discriminate HE; injection HE as <-; reflexivity.
Qed.

(** A typed view of the first [k] bytes of a buffer is that of the buffer. *)
Lemma take_drop_take (bs : list byte) (k w off : nat) :
  (off + w <= k)%nat -> take w (drop off (take k bs)) = take w (drop off bs).
Proof.
  intros H. rewrite !take_drop_commute, take_take.
  replace ((off + w) `min` k)%nat with (off + w)%nat by lia. reflexivity.
Qed.

Lemma peek_take (bs : list byte) (k w off : nat) :
  (off + w <= k)%nat -> peek (take k bs) w off = peek bs w off.
Proof. intros H. unfold peek. rewrite take_drop_take by exact H. reflexivity. Qed.

Lemma elem_at_take (E : t_elem) (bs : list byte) (k i : nat) :
  (i * elem_width E + elem_width E <= k)%nat ->
  elem_at E (take k bs) i = elem_at E bs i.
Proof.
  intros H. destruct E as [C| |]; simpl in *; unfold int_at, double_at;
    rewrite !peek_take by exact H; reflexivity.
Qed.

Lemma raw_row_untouched (E : t_elem) (w offset : nat) (bs : list byte) (j : nat)
      (old : t_scalar) :
  (j * w + w <= offset * elem_width E)%nat \/
  (offset * elem_width E + length bs <= j * w)%nat ->
  raw_row E w offset bs j old = old.
Proof.
  intros H. unfold raw_row. cbv zeta.
  destruct (Nat.leb_spec
              (Nat.min (j * w + w) (offset * elem_width E + length bs))
              (Nat.max (j * w) (offset * elem_width E))); [reflexivity | lia].
Qed.

Lemma raw_row_covered (E : t_elem) (w offset : nat) (bs : list byte) (j : nat)
      (old : t_scalar) :
  (0 < w)%nat ->
  (offset * elem_width E <= j * w)%nat ->
  (j * w + w <= offset * elem_width E + length bs)%nat ->
  raw_row E w offset bs j old
  = if (elem_width E =? w)%nat then elem_at E bs (j - offset)
    else SC_BYTES (take w (drop (j * w - offset * elem_width E) bs)).
Proof.
  intros Hw Hlo Hhi. unfold raw_row. cbv zeta.
  replace (Nat.max (j * w) (offset * elem_width E)) with (j * w)%nat by lia.
  replace (Nat.min (j * w + w) (offset * elem_width E + length bs))
    with (j * w + w)%nat by lia.
  destruct (Nat.leb_spec (j * w + w) (j * w)); [lia|].
  rewrite !Nat.eqb_refl. reflexivity.
Qed.

Lemma column_elem_width_pos (t : t_dtype) (w : nat) :
  column_elem_width t = Some w -> (0 < w)%nat.
Proof. destruct t; intros [= <-]; lia. Qed.

(** What a returning copy has read and written. *)
Lemma copy_array_helper_cells (E : t_elem) (src : t_buffer) (tbl : t_data_table)
      (dest : string) (offset : nat) (t1 : t_data_table) (c : t_column) (w : nat) :
  tbl_columns tbl !! dest = Some c ->
  column_elem_width (col_dtype c) = Some w ->
  copy_array_helper E src tbl dest offset = Ok t1 ->
  (length (col_cells c) * elem_width E <= length src)%nat /\
  forall j x0, col_cells c !! j = Some x0 ->
    cell_at t1 dest j
    = Some (mk_cell (cell_status x0)
                    (raw_row E w offset
                             (take (length (col_cells c) * elem_width E) src)
                             j (cell_data x0))).
Proof.
  intros Hc Hw H. unfold copy_array_helper, Column.size, load_bytes in H.
  rewrite Hc in H. cbn [bind] in H.
  destruct (Nat.leb_spec (length (col_cells c) * elem_width E) (length src))
    as [Hb|Hb]; [|discriminate H].
  cbn [bind] in H. split; [exact Hb|].
  apply update_column_lookup in H as (c0 & c' & Hc0 & Hf & Hc' & _).
  rewrite Hc in Hc0. injection Hc0 as <-. injection Hf as <-.
  intros j x0 Hx0. unfold cell_at. rewrite Hc'. simpl.
  rewrite Hw. unfold raw_store. rewrite list_lookup_imap, Hx0. reflexivity.
Qed.

(** X16: [copy_array] with a fixed-width numeric source type reads as many
    elements as the destination column has rows, whatever the offset: it
    returns only if the source buffer holds that many, and then with
    [FILL_SUCCEED].  On a column whose elements have the width of the source
    type the rows below the offset are untouched and row [j] from the offset
    on holds the source element [j - offset], validity markers unchanged. *)
Theorem copy_array_offset_rows (ldr : NumpyLoader) (src : t_buffer)
        (tbl : t_data_table) (dest : string) (np_dtype : t_dtype) (E : t_elem)
        (offset : nat) (c : t_column) (st : t_fill_status) (tbl' : t_data_table) :
  source_elem np_dtype = Some E ->
  tbl_columns tbl !! dest = Some c ->
  column_elem_width (col_dtype c) = Some (elem_width E) ->
  copy_array ldr src tbl dest np_dtype offset = Ok (st, tbl') ->
  st = FILL_SUCCEED /\
  (length (col_cells c) * elem_width E <= length src)%nat /\
  forall j x0, col_cells c !! j = Some x0 ->
    cell_at tbl' dest j
    = Some (if (j <? offset)%nat then x0
            else mk_cell (cell_status x0) (elem_at E src (j - offset))).
Proof.
  intros HE Hc Hw H.
  assert (Hinit : m_init ldr = true).
  { unfold copy_array in H. apply bind_Ok in H as (u & Hu & _).
    eapply assert_init_Ok. exact Hu. }
  rewrite (copy_array_elem _ _ _ _ _ E _ Hinit HE) in H.
  apply bind_Ok in H as (t1 & Hcopy & Heq). injection Heq as <- <-.
  destruct (copy_array_helper_cells _ _ _ _ _ _ _ _ Hc Hw Hcopy) as (Hb & Hcells).
  split; [reflexivity|]. split; [exact Hb|].
  intros j x0 Hx0. rewrite (Hcells j x0 Hx0). f_equal.
  pose proof (lookup_lt_Some _ _ _ Hx0) as Hj.
  pose proof (column_elem_width_pos _ _ Hw) as Hpos.
  assert (Hlen : length (take (length (col_cells c) * elem_width E) src)
                 = (length (col_cells c) * elem_width E)%nat)
    by (rewrite length_take; lia).
  destruct (Nat.ltb_spec j offset) as [Hlt|Hge].
  - rewrite raw_row_untouched by (left; nia). destruct x0; reflexivity.
  - rewrite raw_row_covered by (rewrite ?Hlen; nia).
    rewrite Nat.eqb_refl, elem_at_take by nia. reflexivity.
Qed.

Lemma valid_raw_fill_cells (tbl : t_data_table) (col : string) (tbl' : t_data_table) :
  Column.valid_raw_fill tbl col = Ok tbl' ->
  forall i, cell_at tbl' col i
            = (fun x => mk_cell STATUS_VALID (cell_data x)) <$> cell_at tbl col i.
Proof.
  intros H i. apply update_column_lookup in H as (c & c' & Hc & Hf & Hc' & _).
  injection Hf as <-. unfold cell_at. rewrite Hc, Hc'. simpl.
  change (map ?f ?l) with (f <$> l). apply list_lookup_fmap.
Qed.

Lemma apply_mask_cells (is_update : bool) (mask : list nat) (tbl : t_data_table)
      (col : string) (tbl' : t_data_table) :
  apply_mask is_update mask tbl col = Ok tbl' ->
  (forall idx, In idx mask -> exists x, cell_at tbl col idx = Some x) /\
  (forall i, cell_at tbl' col i
             = (fun x => if bool_decide (i ∈ mask) then absent_cell is_update x else x)
                 <$> cell_at tbl col i).
Proof.
  revert tbl. induction mask as [|idx rest IH]; intros tbl H; simpl in H.
  - injection H as <-. split; [intros idx []|].
    intros i. destruct (cell_at tbl col i); reflexivity.
  - inv_bind. apply mark_absent_cell_at in Ha as ((x & Hx & Hx') & Hfr).
    apply IH in H as (Hin & Hcells). split.
    + intros j [<-|Hj]; [eauto|].
      destruct (Hin j Hj) as (y & Hy).
      destruct (decide (j = idx)) as [->|Hne]; [eauto|].
      rewrite Hfr in Hy by (right; exact Hne). eauto.
    + intros i. rewrite Hcells.
      destruct (decide (i = idx)) as [->|Hne].
      * rewrite Hx', Hx. simpl. f_equal.
        rewrite (bool_decide_eq_true_2 (idx ∈ idx :: rest)) by (left).
        destruct (bool_decide (idx ∈ rest)); reflexivity.
      * rewrite Hfr by (right; exact Hne).
        destruct (cell_at tbl col i) as [y|]; [|reflexivity]. simpl. f_equal.
        destruct (bool_decide (i ∈ rest)) eqn:Hr.
        -- apply bool_decide_eq_true_1 in Hr.
           rewrite bool_decide_eq_true_2 by (right; exact Hr). reflexivity.
        -- apply bool_decide_eq_false_1 in Hr.
           rewrite bool_decide_eq_false_2; [reflexivity|].
           intros Hc. apply elem_of_cons in Hc as [Hc|Hc]; [congruence | auto].
Qed.

(** X17: when [fill_column] copies in bulk into a fixed-width numeric column
    (a fixed-width numeric source type and the guard off) and returns, the
    source buffer held an element for every row, every mask entry was a row
    of the column, and each row is valid, or marked absent where the mask
    lists it.  The copy moves [size() * sizeof(T)] raw bytes: where the
    column's elements have the width of the source type, each row holds the
    source element of its index; where they have another width, a row the
    copied bytes cover holds the raw source bytes at its place, and a row
    past them keeps the element it held. *)
Theorem fill_column_bulk_rows (ldr : NumpyLoader) (tbl : t_data_table)
        (col name : string) (type : t_dtype) (cidx : nat) (is_update : bool)
        (np_dtype : t_dtype) (E : t_elem) (c : t_column) (w : nat)
        (tbl' : t_data_table) :
  np_dtype_of ldr name = Some np_dtype ->
  source_elem np_dtype = Some E ->
  width_mismatch np_dtype type = false ->
  tbl_columns tbl !! col = Some c ->
  column_elem_width (col_dtype c) = Some w ->
  fill_column ldr tbl col name type cidx is_update = Ok tbl' ->
  exists array,
    array_ensure (fst (acc_get_numpy_column (m_accessor ldr) name type)) = Some array /\
    (length (col_cells c) * elem_width E <= length array)%nat /\
    (forall idx, In idx (snd (acc_get_numpy_column (m_accessor ldr) name type)) ->
                 (idx < length (col_cells c))%nat) /\
    (forall i x0, col_cells c !! i = Some x0 ->
       exists v,
         cell_at tbl' col i
         = Some (mk_cell
                   (if bool_decide
                         (i ∈ snd (acc_get_numpy_column (m_accessor ldr) name type))
                    then absent_status is_update else STATUS_VALID) v) /\
         (w = elem_width E -> v = elem_at E array i) /\
         (w <> elem_width E ->
          (i * w + w <= length (col_cells c) * elem_width E)%nat ->
          v = SC_BYTES (take w (drop (i * w) array))) /\
         ((length (col_cells c) * elem_width E <= i * w)%nat -> v = cell_data x0)).
Proof.
  intros Hnp HE Hwm Hc Hw H. unfold fill_column in H. unfold np_dtype_of in Hnp.
  apply bind_Ok in H as (u & Hinit%assert_init_Ok & H).
  destruct (find_name name (m_names ldr)) as [nidx|]; [|discriminate].
  destruct (array_ensure _) as [array|]; [|discriminate].
  rewrite Hnp, Hwm in H.
  rewrite (copy_array_elem _ _ _ _ _ E _ Hinit HE) in H.
  apply bind_Ok in H as ([st t1] & Hcopy & H).
  apply bind_Ok in Hcopy as (t1' & Hcopy & Heq). injection Heq as <- <-.
  apply bind_Ok in H as (t2 & Hvalid & Hmask).
  exists array. split; [reflexivity|].
  destruct (copy_array_helper_cells _ _ _ _ _ _ _ _ Hc Hw Hcopy) as (Hb & Hc1).
  split; [exact Hb|].
  pose proof (valid_raw_fill_cells _ _ _ Hvalid) as Hc2.
  apply apply_mask_cells in Hmask as (Hin & Hc3).
  assert (Hl2 : col_len t2 col = Some (length (col_cells c))).
  { apply copy_array_helper_evolves with (T := fun _ => True) (P := fun _ => True)
      in Hcopy; [ | exact Logic.I | exact Logic.I].
    apply valid_raw_fill_evolves with (T := fun _ => True) (P := fun _ => True)
      in Hvalid; [ | exact Logic.I | exact Logic.I].
    rewrite (ev_len _ _ _ _ _ Hvalid), (ev_len _ _ _ _ _ Hcopy).
    unfold col_len. rewrite Hc. reflexivity. }
  split.
  - intros idx Hidx. destruct (Hin idx Hidx) as (x & Hx).
    unfold col_len in Hl2. unfold cell_at in Hx.
    destruct (tbl_columns t2 !! col) as [c2|]; [|discriminate].
    injection Hl2 as <-. eapply lookup_lt_Some. exact Hx.
  - intros i x0 Hx0.
    pose proof (lookup_lt_Some _ _ _ Hx0) as Hi.
    pose proof (column_elem_width_pos _ _ Hw) as Hpos.
    assert (Hlen : length (take (length (col_cells c) * elem_width E) array)
                   = (length (col_cells c) * elem_width E)%nat)
      by (rewrite length_take; lia).
    eexists. split.
    { rewrite Hc3, Hc2, (Hc1 i x0 Hx0). simpl. unfold absent_cell. simpl.
      destruct (bool_decide _); reflexivity. }
    split; [|split].
    + intros ->. rewrite raw_row_covered by (rewrite ?Hlen; nia).
      rewrite Nat.eqb_refl, Nat.sub_0_r, elem_at_take by nia. reflexivity.
    + intros Hne Hcov. rewrite raw_row_covered by (rewrite ?Hlen; nia).
      destruct (Nat.eqb_spec (elem_width E) w) as [Heq|_]; [congruence|].
      rewrite Nat.mul_0_l, Nat.sub_0_r, take_drop_take by nia. reflexivity.
    + intros Hpast. apply raw_row_untouched. right. rewrite Hlen. nia.
Qed.

(** ** 64-bit integers read as doubles *)

(** The integers whose bits are a NaN: exponent field all ones, mantissa
    field not zero. *)
Lemma int64_bits_nan (u : Z) :
  0 <= u < 2 ^ 64 ->
  npy_isnan (double_of_bits u) = int64_bits_are_nan (to_signed 64 u).
Proof.
  intros Hu. unfold npy_isnan, double_of_bits, float_of_bits. cbv zeta.
  rewrite !Z.land_ones, Z.shiftr_div_pow2 by lia.
  unfold int64_bits_are_nan, to_signed.
  change (Z.ones 11) with 2047. change (2 ^ 11) with 2048.
  change (2 ^ (64 - 1)) with 9223372036854775808.
  change (2 ^ 63) with 9223372036854775808.
  change (2 ^ 64) with 18446744073709551616 in *.
  change (2 ^ 52) with 4503599627370496.
  pose proof (Z.div_mod u 4503599627370496 ltac:(lia)) as Hdm.
  pose proof (Z.mod_pos_bound u 4503599627370496 ltac:(lia)) as Hr.
  assert (Hq : 0 <= u / 4503599627370496 < 4096).
  { split; [apply Z.div_pos; lia|]. apply Z.div_lt_upper_bound; lia. }
  set (q := u / 4503599627370496) in *. set (r := u mod 4503599627370496) in *.
  pose proof (Z.div_mod q 2048 ltac:(lia)) as Hdq.
  pose proof (Z.mod_pos_bound q 2048 ltac:(lia)) as Hrq.
  assert (Hqq : 0 <= q / 2048 < 2).
  { split; [apply Z.div_pos; lia|]. apply Z.div_lt_upper_bound; lia. }
  set (e := q mod 2048) in *. set (h := q / 2048) in *.
  assert (Hnan : forall b : bool,
             (b = true <-> (e = 2047 /\ r <> 0)) ->
             b = ((-4503599627370496 <? (if u <? 9223372036854775808
                                          then u else u - 18446744073709551616))
                  && ((if u <? 9223372036854775808
                       then u else u - 18446744073709551616) <? 0)
                  || (9223372036854775808 - 4503599627370496
                      <? (if u <? 9223372036854775808
                          then u else u - 18446744073709551616)))).
  { intros b Hb. apply eq_true_iff_eq. rewrite Hb.
    rewrite orb_true_iff, andb_true_iff, !Z.ltb_lt.
    destruct (Z.ltb_spec u 9223372036854775808); lia. }
  apply Hnan.
  destruct (Z.eqb_spec e 0) as [He0|He0].
  { split; [|lia]. destruct r; discriminate. }
  destruct (Z.eqb_spec e 2047) as [He1|He1].
  { destruct (Z.eqb_spec r 0) as [Hr0|Hr0]; simpl; split; try discriminate; try lia; auto. }
  split; [|lia]. destruct (r + 4503599627370496) eqn:E; try discriminate; lia.
Qed.

(** The integers below [2^52] are the bits of zero and of the subnormal
    doubles: they pass the range test of a 32-bit integer column. *)
Lemma small_bits_in_int32_range (u : Z) :
  0 <= u < 2 ^ 52 -> out_of_int32_range (double_of_bits u) = false.
Proof.
  intros Hu. unfold double_of_bits, float_of_bits. cbv zeta.
  assert (He : Z.land (Z.shiftr u 52) (Z.ones 11) = 0).
  { rewrite Z.shiftr_div_pow2 by lia. rewrite Z.div_small by lia. reflexivity. }
  assert (Hm : Z.land u (Z.ones 52) = u).
  { rewrite Z.land_ones by lia. apply Z.mod_small. lia. }
  assert (Hs : Z.testbit u (52 + 11) = false).
  { destruct (Z.eq_dec u 0) as [->|Hne]; [reflexivity|].
    apply Z.bits_above_log2; [lia|]. apply Z.log2_lt_pow2; lia. }
  rewrite He, Hm, Hs. change (0 =? 0) with true. cbv iota.
  destruct u as [|p|p]; [vm_compute; reflexivity | | lia].
  vm_compute. reflexivity.
Qed.

Lemma nan_in_int32_range (x : spec_float) :
  npy_isnan x = true -> out_of_int32_range x = false.
Proof.
  intros H. destruct (out_of_int32_range x) eqn:E; [|reflexivity].
  apply out_of_int32_range_not_nan in E. congruence.
Qed.

Lemma peek_int64 (ptr : t_buffer) (off : nat) : 0 <= peek ptr 8 off < 2 ^ 64.
Proof. pose proof (peek_bound ptr 8 off) as H. exact H. Qed.

Lemma to_signed_64_small (u : Z) :
  0 <= u < 2 ^ 64 -> 0 <= to_signed 64 u < 2 ^ 52 -> to_signed 64 u = u.
Proof.
  unfold to_signed. change (2 ^ (64 - 1)) with 9223372036854775808.
  change (2 ^ 64) with 18446744073709551616. change (2 ^ 52) with 4503599627370496.
  destruct (Z.ltb_spec u 9223372036854775808); lia.
Qed.

Lemma small_int64_bits_nan (v : Z) :
  - 2 ^ 52 < v < 2 ^ 52 -> int64_bits_are_nan v = (v <? 0).
Proof.
  intros Hv. unfold int64_bits_are_nan. apply eq_true_iff_eq.
  rewrite orb_true_iff, andb_true_iff, !Z.ltb_lt. lia.
Qed.

(** The numeric fill of a 64-bit float column from 64-bit integers. *)
Lemma numeric_int64_as_float64 (ldr : NumpyLoader) (array : t_buffer)
        (tbl : t_data_table) (col name : string) (cidx : nat) (is_update : bool)
        (nrows : nat) (tbl' : t_data_table) :
  Column.size tbl col = Ok nrows ->
  fill_numeric_iter ldr array tbl col name DTYPE_INT64 DTYPE_FLOAT64 cidx is_update
  = Ok tbl' ->
  forall i, (i < nrows)%nat ->
    exists x0, cell_at tbl col i = Some x0 /\
      cell_at tbl' col i
      = Some (if int64_bits_are_nan (int_at 8 array i)
              then absent_cell is_update x0
              else mk_cell STATUS_VALID (SC_FLOAT64 (double_of_Z (int_at 8 array i)))).
Proof.
  intros Hsize Hrun i Hi.
  assert (Hin : DTYPE_FLOAT64 = DTYPE_INT32 ->
            forall j, (j < nrows)%nat ->
                      out_of_int32_range (double_at array j) = false)
    by discriminate.
  destruct (fill_numeric_iter_cells _ _ _ _ _ _ _ _ _ _ _ Hsize Hin Hrun)
    as (_ & _ & Hcells).
  destruct (Hcells i Hi) as (x0 & H0 & Hx). exists x0. split; [exact H0|].
  rewrite Hx. unfold numeric_cell, double_at, int_at.
  rewrite int64_bits_nan by apply peek_int64. reflexivity.
Qed.

(** The numeric fill of a 32-bit integer column from 64-bit integers of
    less than 53 bits. *)
Lemma numeric_int64_as_int32 (ldr : NumpyLoader) (array : t_buffer)
        (tbl : t_data_table) (col name : string) (cidx : nat) (is_update : bool)
        (nrows : nat) (tbl' : t_data_table) :
  Column.size tbl col = Ok nrows ->
  (forall i, (i < nrows)%nat -> - 2 ^ 52 < int_at 8 array i < 2 ^ 52) ->
  fill_numeric_iter ldr array tbl col name DTYPE_INT64 DTYPE_INT32 cidx is_update
  = Ok tbl' ->
  (forall n, col_dtype <$> tbl_columns tbl' !! n = col_dtype <$> tbl_columns tbl !! n) /\
  (forall i, (i < nrows)%nat ->
     exists x0, cell_at tbl col i = Some x0 /\
       cell_at tbl' col i
       = Some (if int_at 8 array i <? 0
               then absent_cell is_update x0
               else mk_cell STATUS_VALID
                            (SC_INT C_INT32 (wrap_signed 32 (int_at 8 array i))))).
Proof.
  intros Hsize Hsmall Hrun.
  assert (Hnan : forall i, (i < nrows)%nat ->
            npy_isnan (double_at array i) = (int_at 8 array i <? 0)).
  { intros i Hi. unfold double_at. rewrite int64_bits_nan by apply peek_int64.
    change (to_signed 64 (peek array 8 (i * 8))) with (int_at 8 array i).
    apply small_int64_bits_nan, Hsmall, Hi. }
  assert (Hin : forall i, (i < nrows)%nat ->
            out_of_int32_range (double_at array i) = false).
  { intros i Hi. pose proof (Hnan i Hi) as Hn.
    destruct (Z.ltb_spec (int_at 8 array i) 0) as [Hneg|Hpos].
    - apply nan_in_int32_range. exact Hn.
    - unfold double_at. apply small_bits_in_int32_range.
      specialize (Hsmall i Hi).
      assert (E : int_at 8 array i = peek array 8 (i * 8)).
      { apply (to_signed_64_small (peek array 8 (i * 8))); [apply peek_int64|].
        change (to_signed 64 (peek array 8 (i * 8))) with (int_at 8 array i). lia. }
      rewrite <- E. lia. }
  destruct (fill_numeric_iter_cells _ _ _ _ _ _ _ _ _ _ _ Hsize
              (fun _ => Hin) Hrun) as (_ & Hdt & Hcells).
  split; [exact Hdt|].
  intros i Hi. destruct (Hcells i Hi) as (x0 & H0 & Hx). exists x0.
  split; [exact H0|]. rewrite Hx. unfold numeric_cell. rewrite (Hnan i Hi).
  reflexivity.
Qed.

(** With the guard on, [fill_column] is the numeric fill of the source
    buffer. *)
Lemma fill_column_guarded (ldr : NumpyLoader) (tbl : t_data_table) (col name : string)
      (type : t_dtype) (cidx : nat) (is_update : bool) (tbl' : t_data_table) :
  np_dtype_of ldr name = Some DTYPE_INT64 ->
  type = DTYPE_INT32 \/ type = DTYPE_FLOAT64 ->
  fill_column ldr tbl col name type cidx is_update = Ok tbl' ->
  exists array,
    array_ensure (fst (acc_get_numpy_column (m_accessor ldr) name type)) = Some array /\
    fill_numeric_iter ldr array tbl col name DTYPE_INT64 type cidx is_update = Ok tbl'.
Proof.
  intros Hnp Hty H.
  apply fill_column_Ok in H as (np & array & Hinit & Hnp' & Harr & Hpath).
  rewrite Hnp in Hnp'. injection Hnp' as <-.
  exists array. split; [exact Harr|].
  destruct Hpath as [[_ Hiter]|[Hpath _]].
  - unfold fill_column_iter, assert_init in Hiter. rewrite Hinit in Hiter.
    destruct Hty as [-> | ->]; exact Hiter.
  - destruct Hty as [-> | ->]; discriminate Hpath.
Qed.

(** X18: filling a 64-bit float column from a 64-bit integer source,
    [fill_column] goes row by row and tests the bits of each integer as a
    double: a row whose integer [v] has [-2^52 < v < 0] (or
    [v > 2^63 - 2^52]) is marked absent instead of being written, and every
    other row holds [v] converted to a double. *)
Theorem fill_column_int64_as_float64 (ldr : NumpyLoader) (tbl : t_data_table)
        (col name : string) (cidx : nat) (is_update : bool) (array : t_buffer)
        (nrows : nat) (tbl' : t_data_table) :
  np_dtype_of ldr name = Some DTYPE_INT64 ->
  array_ensure (fst (acc_get_numpy_column (m_accessor ldr) name DTYPE_FLOAT64))
  = Some array ->
  Column.size tbl col = Ok nrows ->
  fill_column ldr tbl col name DTYPE_FLOAT64 cidx is_update = Ok tbl' ->
  forall i, (i < nrows)%nat ->
    exists x0, cell_at tbl col i = Some x0 /\
      cell_at tbl' col i
      = Some (if int64_bits_are_nan (int_at 8 array i)
              then absent_cell is_update x0
              else mk_cell STATUS_VALID (SC_FLOAT64 (double_of_Z (int_at 8 array i)))).
Proof.
  intros Hnp Harr Hsize H.
  apply fill_column_guarded in H as (array' & Harr' & Hrun); [ | exact Hnp | auto].
  rewrite Harr in Harr'. injection Harr' as <-.
  eapply numeric_int64_as_float64; eassumption.
Qed.

(** X19: filling a 32-bit integer column from a 64-bit integer source whose
    values all lie strictly between [-2^52] and [2^52], [fill_column] never
    promotes the column, because the range test looks at the bits of each
    integer as a double: the column keeps its type tag, every negative value
    is marked absent, and every other value is stored truncated to 32 bits. *)
Theorem fill_column_int64_as_int32 (ldr : NumpyLoader) (tbl : t_data_table)
        (col name : string) (cidx : nat) (is_update : bool) (array : t_buffer)
        (nrows : nat) (tbl' : t_data_table) :
  np_dtype_of ldr name = Some DTYPE_INT64 ->
  array_ensure (fst (acc_get_numpy_column (m_accessor ldr) name DTYPE_INT32))
  = Some array ->
  Column.size tbl col = Ok nrows ->
  (forall i, (i < nrows)%nat -> - 2 ^ 52 < int_at 8 array i < 2 ^ 52) ->
  fill_column ldr tbl col name DTYPE_INT32 cidx is_update = Ok tbl' ->
  (forall n, col_dtype <$> tbl_columns tbl' !! n = col_dtype <$> tbl_columns tbl !! n) /\
  (forall i, (i < nrows)%nat ->
     exists x0, cell_at tbl col i = Some x0 /\
       cell_at tbl' col i
       = Some (if int_at 8 array i <? 0
               then absent_cell is_update x0
               else mk_cell STATUS_VALID
                            (SC_INT C_INT32 (wrap_signed 32 (int_at 8 array i))))).
Proof.
  intros Hnp Harr Hsize Hsmall H.
  apply fill_column_guarded in H as (array' & Harr' & Hrun); [ | exact Hnp | auto].
  rewrite Harr in Harr'. injection Harr' as <-.
  eapply numeric_int64_as_int32; eassumption.
Qed.

(** ** Further edge cases of the dispatcher *)

(** X21: filling a column the source has, but for which the accessor hands
    over something that is not an array, aborts: no table is returned,
    whatever the destination type and the flags are. *)
Theorem fill_column_non_array (ldr : NumpyLoader) (tbl : t_data_table)
        (col name : string) (type : t_dtype) (cidx : nat) (is_update : bool) :
  m_init ldr = true ->
  In name (m_names ldr) ->
  fst (acc_get_numpy_column (m_accessor ldr) name type) = PY_NOT_ARRAY ->
  fill_column ldr tbl col name type cidx is_update
  = Fail (PSP_ABORT "Cannot fill a non-numpy array at column").
Proof.
  intros Hinit Hin Hna. unfold fill_column, assert_init. rewrite Hinit. cbn [bind].
  destruct (find_name name (m_names ldr)) as [nidx|] eqn:Hfind;
    [|apply find_name_None in Hfind; contradiction].
  rewrite Hna. reflexivity.
Qed.

(** X22: whenever [fill_column] fills row by row a column whose destination
    type is not date, bool or string, it returns only if the source buffer
    holds 8 bytes for every row of the column: the numeric and the datetime
    loop index the buffer in 8-byte steps whatever the element width of the
    source array is. *)
Theorem fill_column_iter_reads_8_bytes (ldr : NumpyLoader) (tbl : t_data_table)
        (col name : string) (type : t_dtype) (cidx : nat) (is_update : bool)
        (np_dtype : t_dtype) (array : t_buffer) (nrows : nat) (tbl' : t_data_table) :
  np_dtype_of ldr name = Some np_dtype ->
  fill_path np_dtype type = PATH_ITER ->
  type <> DTYPE_DATE -> type <> DTYPE_BOOL -> type <> DTYPE_STR ->
  array_ensure (fst (acc_get_numpy_column (m_accessor ldr) name type)) = Some array ->
  Column.size tbl col = Ok nrows ->
  fill_column ldr tbl col name type cidx is_update = Ok tbl' ->
  (nrows * 8 <= length array)%nat.
Proof.
  intros Hnp Hpath Hd Hb Hs Harr Hsize H.
  apply fill_column_Ok in H as (np & array' & Hinit & Hnp' & Harr' & Hcase).
  rewrite Hnp in Hnp'. injection Hnp' as <-.
  rewrite Harr in Harr'. injection Harr' as <-.
  destruct Hcase as [[_ Hiter]|[Hbulk _]]; [|congruence].
  unfold fill_column_iter, assert_init in Hiter. rewrite Hinit in Hiter.
  cbn [bind] in Hiter.
  assert (Hnum : forall ty,
             fill_numeric_iter ldr array tbl col name np_dtype ty cidx is_update
             = Ok tbl' -> (nrows * 8 <= length array)%nat).
  { intros ty Hrun. unfold fill_numeric_iter in Hrun. inv_bind.
    rewrite Hsize in Ha0. injection Ha0 as <-.
    eapply fill_numeric_rows_bound. eassumption. }
  destruct type; try congruence; try (eapply Hnum; exact Hiter).
  unfold fill_datetime_iter in Hiter. inv_bind.
  rewrite Hsize in Ha0. injection Ha0 as <-.
  eapply fill_datetime_rows_bound. eassumption.
Qed.

(** ** The promotion goes by name *)

Lemma numeric_row_int32_no_column (ldr : NumpyLoader) (ptr : t_buffer) (name : string)
      (np_dtype : t_dtype) (cidx : nat) (is_update : bool) (i : nat)
      (tbl : t_data_table) (col : string) (fl : t_flow t_numeric_state) :
  col_len tbl name = None ->
  fill_numeric_row ldr ptr name np_dtype cidx is_update i (tbl, col, DTYPE_INT32)
  = Ok fl ->
  out_of_int32_range (double_at ptr i) = false /\
  exists tbl', fl = Continue (tbl', col, DTYPE_INT32) /\ col_len tbl' name = None.
Proof.
  intros Hno H. unfold fill_numeric_row in H.
  apply bind_Ok in H as (x & Hx & H).
  pose proof (read_double_Ok _ _ _ Hx) as [-> _].
  destruct (npy_isnan (double_at ptr i)) eqn:Hnan.
  - split; [apply nan_in_int32_range; exact Hnan|].
    inv_bind. subst. eexists. split; [reflexivity|].
    match goal with Hm : mark_absent _ _ _ _ = Ok _ |- _ =>
      apply mark_absent_effect in Hm as (_ & _ & Hl & _) end.
    rewrite Hl. exact Hno.
  - cbv beta iota in H. rewrite Hx in H. unfold bind at 1 in H.
    unfold out_of_int32_range.
    destruct (double_gt (double_at ptr i) INT32_MAX_AS_DOUBLE
              || double_lt (double_at ptr i) INT32_MIN_AS_DOUBLE) eqn:Hout.
    + exfalso. apply bind_Ok in H as (t1 & Hp & _).
      apply update_column_lookup in Hp as (c & _ & Hc & _).
      unfold col_len in Hno. rewrite Hc in Hno. discriminate.
    + split; [reflexivity|].
      destruct (bool_decide (np_dtype = DTYPE_INT64));
        inv_bind; subst; eexists; (split; [reflexivity|]);
        match goal with Hs : Column.set_nth _ _ _ _ = Ok _ |- _ =>
          apply set_nth_effect in Hs as (_ & _ & Hl & _) end;
        rewrite Hl; exact Hno.
Qed.

(** X25: the promotion of a 32-bit integer column is asked for the column
    named [name], not for the column behind the handle.  When the table has
    no column of that name, as for the [__INDEX__] column, which is filled
    through the handle of [psp_pkey], a row whose 8 bytes read as a double
    outside the 32-bit range makes the numeric fill abort: it does not
    return, and nothing is promoted. *)
Theorem fill_numeric_iter_promotes_by_name (ldr : NumpyLoader) (ptr : t_buffer)
        (tbl : t_data_table) (col name : string) (np_dtype : t_dtype)
        (cidx : nat) (is_update : bool) (nrows i : nat) :
  col_len tbl name = None ->
  Column.size tbl col = Ok nrows ->
  (i < nrows)%nat ->
  out_of_int32_range (double_at ptr i) = true ->
  forall tbl',
    fill_numeric_iter ldr ptr tbl col name np_dtype DTYPE_INT32 cidx is_update
    <> Ok tbl'.
Proof.
  intros Hno Hsize Hi Hout tbl' H. unfold fill_numeric_iter in H. inv_bind.
  rewrite Hsize in Ha0. injection Ha0 as <-.
  pose (I := fun (k : nat) (s : t_numeric_state) =>
               snd s = DTYPE_INT32 /\ col_len (fst (fst s)) name = None /\
               forall j, (j < k)%nat -> out_of_int32_range (double_at ptr j) = false).
  assert (HI : I nrows a1).
  { apply (for_range_inv (fill_numeric_row ldr ptr name np_dtype cidx is_update)
             I (I nrows) nrows) with (n := nrows) (i := O) (s := (tbl, col, DTYPE_INT32));
      [ | | auto | lia | | exact Ha1].
    - intros k [[t c] ty] s' Hk (Hty & Hl & Hdone) Hb. simpl in Hty, Hl. subst ty.
      apply numeric_row_int32_no_column in Hb as (Hin & t' & [= ->] & Hl'); [|exact Hl].
      split; [reflexivity|]. split; [exact Hl'|].
      intros j Hj. destruct (decide (j = k)) as [->|Hne]; [exact Hin|].
      apply Hdone. lia.
    - intros k [[t c] ty] s' Hk (Hty & Hl & _) Hb. simpl in Hty, Hl. subst ty.
      apply numeric_row_int32_no_column in Hb as (_ & t' & [=] & _). exact Hl.
    - split; [reflexivity|]. split; [exact Hno|]. intros j Hj. lia. }
  destruct HI as (_ & _ & Hall). rewrite (Hall i Hi) in Hout. discriminate.
Qed.

(** * The further properties on concrete inputs *)

Lemma init_names_types_witness :
  init (new_loader ex_accessor) = Ok ex_loader /\
  m_init ex_loader = true /\
  length (m_names ex_loader) = 8%nat /\
  m_types ex_loader !! 3%nat = Some DTYPE_STR.
Proof.
  assert (H : init (new_loader ex_accessor) = Ok ex_loader) by (vm_compute; reflexivity).
  destruct (init_names_types (new_loader ex_accessor) ex_loader H)
    as (H1 & _ & H2 & _ & H3).
  split; [exact H|]. split; [exact H1|]. split; [exact H2|].
  destruct (H3 3%nat "t" (PY_ARRAY NP_DATETIME64 ex_times) eq_refl)
    as (kind & data & E & _ & Ht).
  injection E as <- <-. exact Ht.
Defined.

Lemma uninitialised_loader_aborts_witness :
  m_init (new_loader ex_accessor) = false /\
  row_count (new_loader ex_accessor) = Fail UNINITED /\
  fill_table (new_loader ex_accessor) (ex_table 4 []) [] "" 0 1 false = Fail UNINITED.
Proof.
  destruct (uninitialised_loader_aborts (new_loader ex_accessor) eq_refl)
    as (_ & _ & H1 & H2 & _).
  split; [reflexivity|]. split; [exact H1 | apply H2].
Defined.

Lemma fill_column_unknown_name_witness :
  m_init ex_loader = true /\
  ~ In "zz" (m_names ex_loader) /\
  fill_column ex_loader (ex_table 4 [("zz", DTYPE_INT32)]) "zz" "zz" DTYPE_INT32 0 false
  = Fail UNKNOWN_COLUMN.
Proof.
  assert (Hno : ~ In "zz" (m_names ex_loader)).
  { vm_compute. intros H. repeat (destruct H as [H|H]; [discriminate H|]). exact H. }
  destruct (fill_column_unknown_name ex_loader "zz" eq_refl Hno) as (H & _).
  split; [reflexivity|]. split; [exact Hno | apply H].
Defined.

Lemma fill_column_frame_witness :
  exists tbl',
    fill_column ex_loader (ex_table 4 [("f", DTYPE_FLOAT64); ("n32", DTYPE_INT32)])
                "f" "f" DTYPE_FLOAT64 0 false = Ok tbl' /\
    tbl_size tbl' = 4%nat /\
    tbl_columns tbl' !! "n32"
    = tbl_columns (ex_table 4 [("f", DTYPE_FLOAT64); ("n32", DTYPE_INT32)]) !! "n32".
Proof.
  pose (tbl := ex_table 4 [("f", DTYPE_FLOAT64); ("n32", DTYPE_INT32)]).
  pose (tbl' := result_of (fill_column ex_loader tbl "f" "f" DTYPE_FLOAT64 0 false) tbl).
  assert (H : fill_column ex_loader tbl "f" "f" DTYPE_FLOAT64 0 false = Ok tbl')
    by (vm_compute; reflexivity).
  destruct (fill_column_frame ex_loader tbl "f" "f" DTYPE_FLOAT64 0 false tbl' H)
    as (Hs & Hf & _).
  exists tbl'. split; [exact H|]. split; [rewrite Hs; vm_compute; reflexivity|].
  apply Hf; discriminate.
Defined.

Lemma fill_table_frame_witness :
  exists tbl',
    fill_table ex_loader (ex_table 4 [("f", DTYPE_FLOAT64); ("n32", DTYPE_INT32)])
               [("f", DTYPE_FLOAT64)] "" 0 4 false = Ok tbl' /\
    tbl_size tbl' = 4%nat /\
    tbl_columns tbl' !! "n32"
    = tbl_columns (ex_table 4 [("f", DTYPE_FLOAT64); ("n32", DTYPE_INT32)]) !! "n32".
Proof.
  pose (tbl := ex_table 4 [("f", DTYPE_FLOAT64); ("n32", DTYPE_INT32)]).
  pose (tbl' := result_of (fill_table ex_loader tbl [("f", DTYPE_FLOAT64)] "" 0 4 false) tbl).
  assert (H : fill_table ex_loader tbl [("f", DTYPE_FLOAT64)] "" 0 4 false = Ok tbl')
    by (vm_compute; reflexivity).
  destruct (fill_table_frame ex_loader tbl [("f", DTYPE_FLOAT64)] "" 0 4 false tbl' H)
    as (Hs & _ & Hf).
  exists tbl'. split; [exact H|]. split; [rewrite Hs; vm_compute; reflexivity|].
  apply (Hf "n32").
  - intros [E|[]]. discriminate E.
  - intros E; discriminate E.
  - intros E; discriminate E.
  - intros E; discriminate E.
Defined.

Lemma fill_table_sentinel_ignores_index_witness :
  In INDEX_SENTINEL (map fst [("__INDEX__", DTYPE_INT64)]) /\
  fill_table ex_loader (ex_table 4 []) [("__INDEX__", DTYPE_INT64)] "" 0 0 false
  = fill_table ex_loader (ex_table 4 []) [("__INDEX__", DTYPE_INT64)] "a" 3 7 false.
Proof.
  assert (H : In INDEX_SENTINEL (map fst [("__INDEX__", DTYPE_INT64)]))
    by (left; reflexivity).
  split; [exact H|].
  exact (fill_table_sentinel_ignores_index ex_loader (ex_table 4 [])
           [("__INDEX__", DTYPE_INT64)] false "" "a" 0 3 0 7 H).
Defined.

Lemma fill_table_explicit_index_witness :
  "f" <> "" /\
  fill_table ex_loader (ex_table 4 [("f", DTYPE_FLOAT64)]) [("f", DTYPE_FLOAT64)]
             "f" 9 0 false
  = fill_table ex_loader (ex_table 4 [("f", DTYPE_FLOAT64)]) [("f", DTYPE_FLOAT64)]
               "f" 0 4 false.
Proof.
  assert (H : "f" <> "") by discriminate.
  split; [exact H|].
  destruct (fill_table_explicit_index ex_loader (ex_table 4 [("f", DTYPE_FLOAT64)])
              [("f", DTYPE_FLOAT64)] "f" 0 4 false H) as (Hind & _).
  apply Hind.
Defined.

Lemma fill_string_iter_rows_witness :
  m_init ex_loader = true /\
  Column.size (ex_table 4 [("s", DTYPE_STR)]) "s" = Ok 4%nat /\
  exists tbl',
    fill_string_iter ex_loader ex_int64s (ex_table 4 [("s", DTYPE_STR)]) "s" "s"
                     DTYPE_STR DTYPE_STR 2 false = Ok tbl'.
Proof.
  assert (Hs : Column.size (ex_table 4 [("s", DTYPE_STR)]) "s" = Ok 4%nat)
    by (vm_compute; reflexivity).
  destruct (fill_string_iter_rows ex_loader ex_int64s (ex_table 4 [("s", DTYPE_STR)])
              "s" "s" DTYPE_STR DTYPE_STR 2 false 4 eq_refl Hs) as ((_ & Hret) & _).
  split; [reflexivity|]. split; [exact Hs|].
  apply Hret. intros i Hi.
  destruct i as [|[|[|[|i]]]]; [right; eexists | left | right; eexists
                               | right; eexists | lia]; reflexivity.
Defined.

Lemma fill_bool_iter_rows_witness :
  m_init ex_typed_loader = true /\
  Column.size (ex_table 4 [("b", DTYPE_BOOL)]) "b" = Ok 4%nat /\
  exists tbl',
    fill_bool_iter ex_typed_loader ex_int64s (ex_table 4 [("b", DTYPE_BOOL)]) "b" "b"
                   DTYPE_STR DTYPE_BOOL 0 false = Ok tbl'.
Proof.
  assert (Hs : Column.size (ex_table 4 [("b", DTYPE_BOOL)]) "b" = Ok 4%nat)
    by (vm_compute; reflexivity).
  destruct (fill_bool_iter_rows ex_typed_loader ex_int64s
              (ex_table 4 [("b", DTYPE_BOOL)])
              "b" "b" DTYPE_STR DTYPE_BOOL 0 false 4 eq_refl Hs) as ((_ & Hret) & _).
  split; [reflexivity|]. split; [exact Hs|].
  apply Hret. intros i Hi.
  destruct i as [|[|[|[|i]]]]; [right; eexists | left | right; eexists
                               | right; eexists | lia]; reflexivity.
Defined.

Lemma fill_date_iter_rows_witness :
  m_init ex_typed_loader = true /\
  Column.size (ex_table 4 [("d", DTYPE_DATE)]) "d" = Ok 4%nat /\
  exists tbl',
    fill_date_iter ex_typed_loader ex_int64s (ex_table 4 [("d", DTYPE_DATE)]) "d" "d"
                   DTYPE_STR DTYPE_DATE 0 false = Ok tbl' /\
    cell_at tbl' "d" 0 = Some (mk_cell STATUS_VALID (SC_DATE 2020 2 0)).
Proof.
  assert (Hs : Column.size (ex_table 4 [("d", DTYPE_DATE)]) "d" = Ok 4%nat)
    by (vm_compute; reflexivity).
  destruct (fill_date_iter_rows ex_typed_loader ex_int64s
              (ex_table 4 [("d", DTYPE_DATE)])
              "d" "d" DTYPE_STR DTYPE_DATE 0 false 4 eq_refl Hs)
    as ((_ & Hret) & Hcells).
  split; [reflexivity|]. split; [exact Hs|].
  destruct Hret as (tbl' & Hrun).
  { intros i Hi.
    destruct i as [|[|[|[|i]]]];
      [right; eexists; split | left | right; eexists; split
       | right; eexists; split | lia]; reflexivity. }
  exists tbl'. split; [exact Hrun|].
  destruct (Hcells tbl' Hrun 0%nat ltac:(lia)) as (x0 & _ & Hx). exact Hx.
Defined.

Lemma fill_numeric_iter_rows_witness :
  exists tbl',
    Column.size (ex_table 4 [("f", DTYPE_FLOAT64)]) "f" = Ok 4%nat /\
    fill_numeric_iter ex_loader ex_doubles (ex_table 4 [("f", DTYPE_FLOAT64)])
                      "f" "f" DTYPE_FLOAT64 DTYPE_FLOAT64 1 false = Ok tbl' /\
    (4 * 8 <= length ex_doubles)%nat /\
    cell_status <$> cell_at tbl' "f" 1 = Some STATUS_CLEARED.
Proof.
  pose (tbl := ex_table 4 [("f", DTYPE_FLOAT64)]).
  pose (tbl' := result_of
                  (fill_numeric_iter ex_loader ex_doubles tbl
                     "f" "f" DTYPE_FLOAT64 DTYPE_FLOAT64 1 false) tbl).
  assert (Hs : Column.size tbl "f" = Ok 4%nat) by (vm_compute; reflexivity).
  assert (Hrun : fill_numeric_iter ex_loader ex_doubles tbl
                   "f" "f" DTYPE_FLOAT64 DTYPE_FLOAT64 1 false = Ok tbl')
    by (vm_compute; reflexivity).
  assert (Hin : DTYPE_FLOAT64 = DTYPE_INT32 ->
            forall i, (i < 4)%nat -> out_of_int32_range (double_at ex_doubles i) = false)
    by discriminate.
  destruct (fill_numeric_iter_rows ex_loader ex_doubles tbl "f" "f" DTYPE_FLOAT64
              DTYPE_FLOAT64 1 false 4 tbl' Hs Hin Hrun) as (Hb & _ & Hcells).
  exists tbl'. split; [exact Hs|]. split; [exact Hrun|]. split; [exact Hb|].
  destruct (Hcells 1%nat ltac:(lia)) as (x0 & _ & Hx). rewrite Hx.
  vm_compute. reflexivity.
Defined.

Lemma fill_numeric_iter_returns_witness :
  m_init ex_loader = true /\
  Column.size (ex_table 4 [("a", DTYPE_INT32)]) "a" = Ok 4%nat /\
  exists tbl',
    fill_numeric_iter ex_loader ex_buffer (ex_table 4 [("a", DTYPE_INT32)])
                      "a" "a" DTYPE_INT64 DTYPE_INT32 0 false = Ok tbl'.
Proof.
  assert (Hs : Column.size (ex_table 4 [("a", DTYPE_INT32)]) "a" = Ok 4%nat)
    by (vm_compute; reflexivity).
  split; [reflexivity|]. split; [exact Hs|].
  apply (fill_numeric_iter_returns ex_loader ex_buffer (ex_table 4 [("a", DTYPE_INT32)])
           "a" "a" DTYPE_INT64 DTYPE_INT32 0 false 4 eq_refl Hs (fun _ => eq_refl)).
  apply Nat.leb_le. vm_compute. reflexivity.
Defined.

Lemma fill_datetime_iter_returns_witness :
  m_init ex_loader = true /\
  Column.size (ex_table 4 [("t", DTYPE_TIME)]) "t" = Ok 4%nat /\
  exists tbl',
    fill_datetime_iter ex_loader ex_times (ex_table 4 [("t", DTYPE_TIME)])
                       "t" "t" DTYPE_STR DTYPE_TIME 3 false = Ok tbl'.
Proof.
  assert (Hs : Column.size (ex_table 4 [("t", DTYPE_TIME)]) "t" = Ok 4%nat)
    by (vm_compute; reflexivity).
  split; [reflexivity|]. split; [exact Hs|].
  apply (fill_datetime_iter_returns ex_loader ex_times (ex_table 4 [("t", DTYPE_TIME)])
           "t" "t" DTYPE_STR DTYPE_TIME 3 false 4 eq_refl Hs).
  apply Nat.leb_le. vm_compute. reflexivity.
Defined.

Lemma buffer_fills_ignore_accessor_witness :
  m_init ex_loader = m_init ex_typed_loader /\
  fill_numeric_iter ex_loader ex_doubles (ex_table 4 [("f", DTYPE_FLOAT64)])
                    "f" "f" DTYPE_FLOAT64 DTYPE_FLOAT64 1 false
  = fill_numeric_iter ex_typed_loader ex_doubles (ex_table 4 [("f", DTYPE_FLOAT64)])
                      "f" "f" DTYPE_FLOAT64 DTYPE_FLOAT64 7 false.
Proof.
  assert (H : m_init ex_loader = m_init ex_typed_loader) by reflexivity.
  split; [exact H|].
  destruct (buffer_fills_ignore_accessor ex_loader ex_typed_loader ex_doubles
              (ex_table 4 [("f", DTYPE_FLOAT64)]) "f" "f" DTYPE_FLOAT64 DTYPE_FLOAT64
              1 7 false H) as (Hn & _).
  exact Hn.
Defined.

Lemma copy_array_offset_rows_witness :
  exists tbl',
    copy_array ex_loader ex_int32s (ex_table 4 [("n32", DTYPE_INT32)])
               "n32" DTYPE_INT32 1 = Ok (FILL_SUCCEED, tbl') /\
    cell_at tbl' "n32" 0 = Some fresh_cell /\
    cell_at tbl' "n32" 1 = Some (mk_cell STATUS_CLEARED (SC_INT C_INT32 1)) /\
    cell_at tbl' "n32" 3 = Some (mk_cell STATUS_CLEARED (SC_INT C_INT32 3)).
Proof.
  pose (tbl := ex_table 4 [("n32", DTYPE_INT32)]).
  pose (c := mk_column DTYPE_INT32 (replicate 4 fresh_cell)).
  pose (tbl' := snd (result_of (copy_array ex_loader ex_int32s tbl "n32" DTYPE_INT32 1)
                               (FILL_FAIL, tbl))).
  assert (Hc : tbl_columns tbl !! "n32" = Some c) by (vm_compute; reflexivity).
  assert (Hrun : copy_array ex_loader ex_int32s tbl "n32" DTYPE_INT32 1
                 = Ok (FILL_SUCCEED, tbl')) by (vm_compute; reflexivity).
  destruct (copy_array_offset_rows ex_loader ex_int32s tbl "n32" DTYPE_INT32
              (E_INT C_INT32) 1 c FILL_SUCCEED tbl' eq_refl Hc eq_refl Hrun)
    as (_ & _ & Hcells).
  exists tbl'. split; [exact Hrun|]. split; [|split].
  - rewrite (Hcells 0%nat fresh_cell eq_refl). reflexivity.
  - rewrite (Hcells 1%nat fresh_cell eq_refl). vm_compute. reflexivity.
  - rewrite (Hcells 3%nat fresh_cell eq_refl). vm_compute. reflexivity.
Defined.

Lemma fill_column_bulk_rows_witness :
  exists tbl',
    np_dtype_of ex_loader "n32" = Some DTYPE_INT32 /\
    fill_column ex_loader (ex_table 4 [("n32", DTYPE_INT16)]) "n32" "n32"
                DTYPE_INT16 4 false = Ok tbl' /\
    cell_at tbl' "n32" 2 = Some (mk_cell STATUS_VALID (SC_BYTES [x02; x00])) /\
    cell_at tbl' "n32" 3 = Some (mk_cell STATUS_VALID (SC_BYTES [x00; x00])).
Proof.
  pose (tbl := ex_table 4 [("n32", DTYPE_INT16)]).
  pose (c := mk_column DTYPE_INT16 (replicate 4 fresh_cell)).
  pose (tbl' := result_of (fill_column ex_loader tbl "n32" "n32" DTYPE_INT16 4 false) tbl).
  assert (Hc : tbl_columns tbl !! "n32" = Some c) by (vm_compute; reflexivity).
  assert (Hrun : fill_column ex_loader tbl "n32" "n32" DTYPE_INT16 4 false = Ok tbl')
    by (vm_compute; reflexivity).
  assert (Hnp : np_dtype_of ex_loader "n32" = Some DTYPE_INT32)
    by (vm_compute; reflexivity).
  destruct (fill_column_bulk_rows ex_loader tbl "n32" "n32" DTYPE_INT16 4 false
              DTYPE_INT32 (E_INT C_INT32) c 2 tbl' Hnp eq_refl eq_refl Hc eq_refl Hrun)
    as (array & Harr & _ & _ & Hcells).
  injection Harr as <-.
  exists tbl'. split; [exact Hnp|]. split; [exact Hrun|]. split.
  - destruct (Hcells 2%nat fresh_cell eq_refl) as (v & Hv & _ & Hbytes & _).
    rewrite Hv, Hbytes; [vm_compute; reflexivity | discriminate | vm_compute; lia].
  - destruct (Hcells 3%nat fresh_cell eq_refl) as (v & Hv & _ & Hbytes & _).
    rewrite Hv, Hbytes; [vm_compute; reflexivity | discriminate | vm_compute; lia].
Defined.

Lemma fill_column_int64_as_float64_witness :
  exists tbl',
    np_dtype_of ex_signed_loader "v" = Some DTYPE_INT64 /\
    fill_column ex_signed_loader (ex_table 4 [("v", DTYPE_FLOAT64)]) "v" "v"
                DTYPE_FLOAT64 0 false = Ok tbl' /\
    int_at 8 ex_signed 1 = -1 /\
    cell_status <$> cell_at tbl' "v" 1 = Some STATUS_CLEARED.
Proof.
  pose (tbl := ex_table 4 [("v", DTYPE_FLOAT64)]).
  pose (tbl' := result_of
                  (fill_column ex_signed_loader tbl "v" "v" DTYPE_FLOAT64 0 false) tbl).
  assert (Hnp : np_dtype_of ex_signed_loader "v" = Some DTYPE_INT64)
    by (vm_compute; reflexivity).
  assert (Hs : Column.size tbl "v" = Ok 4%nat) by (vm_compute; reflexivity).
  assert (Hrun : fill_column ex_signed_loader tbl "v" "v" DTYPE_FLOAT64 0 false = Ok tbl')
    by (vm_compute; reflexivity).
  destruct (fill_column_int64_as_float64 ex_signed_loader tbl "v" "v" 0 false
              ex_signed 4 tbl' Hnp eq_refl Hs Hrun 1%nat ltac:(lia)) as (x0 & _ & Hx).
  exists tbl'. split; [exact Hnp|]. split; [exact Hrun|].
  split; [vm_compute; reflexivity|]. rewrite Hx. vm_compute. reflexivity.
Defined.

Lemma fill_column_int64_as_int32_witness :
  exists tbl',
    np_dtype_of ex_signed_loader "v" = Some DTYPE_INT64 /\
    fill_column ex_signed_loader (ex_table 4 [("v", DTYPE_INT32)]) "v" "v"
                DTYPE_INT32 0 false = Ok tbl' /\
    int_at 8 ex_signed 2 = 2147483648 /\
    col_dtype <$> tbl_columns tbl' !! "v" = Some DTYPE_INT32 /\
    cell_at tbl' "v" 2 = Some (mk_cell STATUS_VALID (SC_INT C_INT32 (-2147483648))).
Proof.
  pose (tbl := ex_table 4 [("v", DTYPE_INT32)]).
  pose (tbl' := result_of
                  (fill_column ex_signed_loader tbl "v" "v" DTYPE_INT32 0 false) tbl).
  assert (Hnp : np_dtype_of ex_signed_loader "v" = Some DTYPE_INT64)
    by (vm_compute; reflexivity).
  assert (Hs : Column.size tbl "v" = Ok 4%nat) by (vm_compute; reflexivity).
  assert (Hrun : fill_column ex_signed_loader tbl "v" "v" DTYPE_INT32 0 false = Ok tbl')
    by (vm_compute; reflexivity).
  assert (Hsmall : forall i, (i < 4)%nat -> - 2 ^ 52 < int_at 8 ex_signed i < 2 ^ 52).
  { intros i Hi. destruct i as [|[|[|[|i]]]]; [| | | | lia];
      vm_compute; split; reflexivity. }
  destruct (fill_column_int64_as_int32 ex_signed_loader tbl "v" "v" 0 false
              ex_signed 4 tbl' Hnp eq_refl Hs Hsmall Hrun) as (Hdt & Hcells).
  exists tbl'. split; [exact Hnp|]. split; [exact Hrun|].
  split; [vm_compute; reflexivity|]. split.
  - rewrite Hdt. vm_compute. reflexivity.
  - destruct (Hcells 2%nat ltac:(lia)) as (x0 & _ & Hx). rewrite Hx.
    vm_compute. reflexivity.
Defined.

Lemma init_np_dtype_defined_witness :
  init (new_loader ex_accessor) = Ok ex_loader /\
  In "t" (m_names ex_loader) /\
  np_dtype_of ex_loader "t" = Some DTYPE_STR.
Proof.
  assert (H : init (new_loader ex_accessor) = Ok ex_loader) by (vm_compute; reflexivity).
  assert (Hin : In "t" (m_names ex_loader))
    by (vm_compute; right; right; right; left; reflexivity).
  split; [exact H|]. split; [exact Hin|].
  destruct (init_np_dtype_defined (new_loader ex_accessor) ex_loader "t" H Hin)
    as (nidx & kind & data & Hfind & Hd & Hnp & _).
  vm_compute in Hfind. injection Hfind as <-.
  vm_compute in Hd. injection Hd as <- _. exact Hnp.
Defined.

Lemma fill_column_non_array_witness :
  m_init ex_broken_loader = true /\
  In "f" (m_names ex_broken_loader) /\
  fill_column ex_broken_loader (ex_table 4 [("f", DTYPE_FLOAT64)]) "f" "f"
              DTYPE_FLOAT64 0 false
  = Fail (PSP_ABORT "Cannot fill a non-numpy array at column").
Proof.
  assert (Hin : In "f" (m_names ex_broken_loader))
    by (vm_compute; right; left; reflexivity).
  split; [reflexivity|]. split; [exact Hin|].
  exact (fill_column_non_array ex_broken_loader (ex_table 4 [("f", DTYPE_FLOAT64)])
           "f" "f" DTYPE_FLOAT64 0 false eq_refl Hin eq_refl).
Defined.

Lemma fill_column_iter_reads_8_bytes_witness :
  exists tbl',
    np_dtype_of ex_loader "s" = Some DTYPE_STR /\
    fill_path DTYPE_STR DTYPE_INT64 = PATH_ITER /\
    fill_column ex_loader (ex_table 4 [("s", DTYPE_INT64)]) "s" "s" DTYPE_INT64 2 false
    = Ok tbl' /\
    (4 * 8 <= length ex_int64s)%nat.
Proof.
  pose (tbl := ex_table 4 [("s", DTYPE_INT64)]).
  pose (tbl' := result_of (fill_column ex_loader tbl "s" "s" DTYPE_INT64 2 false) tbl).
  assert (Hnp : np_dtype_of ex_loader "s" = Some DTYPE_STR) by (vm_compute; reflexivity).
  assert (Hs : Column.size tbl "s" = Ok 4%nat) by (vm_compute; reflexivity).
  assert (Hrun : fill_column ex_loader tbl "s" "s" DTYPE_INT64 2 false = Ok tbl')
    by (vm_compute; reflexivity).
  exists tbl'. split; [exact Hnp|]. split; [reflexivity|]. split; [exact Hrun|].
  apply (fill_column_iter_reads_8_bytes ex_loader tbl "s" "s" DTYPE_INT64 2 false
           DTYPE_STR ex_int64s 4 tbl' Hnp eq_refl);
    [discriminate | discriminate | discriminate | reflexivity | exact Hs | exact Hrun].
Defined.

Lemma fill_datetime_iter_nat_is_epoch_witness :
  exists tbl',
    Column.size (ex_table 4 [("t", DTYPE_TIME)]) "t" = Ok 4%nat /\
    fill_datetime_iter ex_loader ex_times (ex_table 4 [("t", DTYPE_TIME)])
                       "t" "t" DTYPE_STR DTYPE_TIME 3 false = Ok tbl' /\
    int_at 8 ex_times 1 = - 2 ^ 63 /\
    cell_at tbl' "t" 1 = Some (mk_cell STATUS_VALID (SC_INT C_INT64 0)).
Proof.
  pose (tbl := ex_table 4 [("t", DTYPE_TIME)]).
  pose (tbl' := result_of
                  (fill_datetime_iter ex_loader ex_times tbl
                     "t" "t" DTYPE_STR DTYPE_TIME 3 false) tbl).
  assert (Hs : Column.size tbl "t" = Ok 4%nat) by (vm_compute; reflexivity).
  assert (Hrun : fill_datetime_iter ex_loader ex_times tbl
                   "t" "t" DTYPE_STR DTYPE_TIME 3 false = Ok tbl')
    by (vm_compute; reflexivity).
  assert (Hnat : int_at 8 ex_times 1 = - 2 ^ 63) by (vm_compute; reflexivity).
  exists tbl'. split; [exact Hs|]. split; [exact Hrun|]. split; [exact Hnat|].
  exact (fill_datetime_iter_nat_is_epoch ex_loader ex_times tbl "t" "t"
           DTYPE_STR DTYPE_TIME 3 false 4 tbl' Hs Hrun 1%nat ltac:(lia) Hnat).
Defined.

Lemma fill_numeric_iter_promotes_by_name_witness :
  col_len (ex_table 4 [("psp_pkey", DTYPE_INT32)]) INDEX_SENTINEL = None /\
  Column.size (ex_table 4 [("psp_pkey", DTYPE_INT32)]) PSP_PKEY = Ok 4%nat /\
  out_of_int32_range (double_at ex_buffer 1) = true /\
  forall tbl',
    fill_numeric_iter ex_index_loader ex_buffer (ex_table 4 [("psp_pkey", DTYPE_INT32)])
                      PSP_PKEY INDEX_SENTINEL DTYPE_INT64 DTYPE_INT32 0 false
    <> Ok tbl'.
Proof.
  assert (Hno : col_len (ex_table 4 [("psp_pkey", DTYPE_INT32)]) INDEX_SENTINEL = None)
    by (vm_compute; reflexivity).
  assert (Hs : Column.size (ex_table 4 [("psp_pkey", DTYPE_INT32)]) PSP_PKEY = Ok 4%nat)
    by (vm_compute; reflexivity).
  assert (Hout : out_of_int32_range (double_at ex_buffer 1) = true)
    by (vm_compute; reflexivity).
  split; [exact Hno|]. split; [exact Hs|]. split; [exact Hout|].
  apply (fill_numeric_iter_promotes_by_name ex_index_loader ex_buffer
           (ex_table 4 [("psp_pkey", DTYPE_INT32)]) PSP_PKEY INDEX_SENTINEL
           DTYPE_INT64 0 false 4 1 Hno Hs ltac:(lia) Hout).
Defined.
